(** * Healthcare resource allocation: a shallow embedding of
      [src/resource_allocation_model.py]

    The model follows the Python module class by class.

    - Numbers.  Python [int] values that stay integers ([unique_id],
      [medical_needs], [unmet_needs]) are [Z].  Resource levels and scores
      are Python numbers that become [float] after the first replenishment;
      they are modelled as exact rationals [Q], so [0.4] is [4/10] and
      rounding of binary floating point is not part of the model.  Where
      the outcome depends on rounding, the statements of the program are
      given on binary64 numbers as well: the rebalancing pass, whose
      transfers do not conserve the rounded total, and the ranking of
      bids, where the order of the sort keys decides the winner.  True
      division raises [ZeroDivisionError] on a zero divisor, as in Python;
      the [OverflowError] of converting an integer beyond the range of
      binary64 is outside the model.
    - Objects.  Agents live in the registries of the environment; a
      reference to an agent is its position in the registry, and every read
      of a field goes through the live environment.
    - Effects.  Methods are computations in a state-and-exception monad over
      the environment; a raised exception keeps the mutations made so far.
    - Randomness.  The module-level generator of [random] is a stream of
      raw draws and a cursor, both part of the environment;
      [_randbelow n] is the next draw modulo [n].
    - [Message.timestamp] (wall-clock time), logging, the grid, the
      scheduler and the data collector are not modelled. *)

From Stdlib Require Import ZArith QArith Lqa Lia String List Sorted Floats.
From stdpp Require Import base list.

(** ** Python numbers *)

Inductive exn : Type :=
| ZeroDivisionError
| ValueError
| InvalidReference.
(* [InvalidReference] belongs to the model only: it is the outcome of
   dereferencing a position outside a registry.  Python references cannot
   dangle, and every position used by the code below is drawn from the
   registry it indexes. *)

Inductive result (A : Type) : Type :=
| Ok (a : A)
| Raise (e : exn).
Arguments Ok {A} a.
Arguments Raise {A} e.

(* [x < y] on numbers *)
Definition Qltb (x y : Q) : bool := negb (Qle_bool y x).

(* builtin [min(a, b)]: the first argument unless the second is smaller *)
Definition py_min (a b : Q) : Q := if Qltb b a then b else a.

(* true division [x / y] *)
Definition py_div (x y : Q) : result Q :=
  if Qeq_bool y 0 then Raise ZeroDivisionError else Ok (x / y)%Q.

(* builtin [sum] of numbers: left to right from 0 *)
Definition py_sum (l : list Q) : Q := fold_left Qplus l 0%Q.
Definition py_sumZ (l : list Z) : Z := fold_left Z.add l 0%Z.

(** ** Stable sorting, as the builtin [sorted(iterable, key=..., reverse=...)]

    The keys are computed beforehand (a key function may raise), so the
    input is a list of (key, element) pairs.  [sorted] is stable in both
    directions: with [reverse=True] elements with equal keys keep their
    original order as well. *)

Fixpoint insert_sorted {A : Type} (before : Q -> Q -> bool)
    (x : Q * A) (l : list (Q * A)) : list (Q * A) :=
  match l with
  | [] => [x]
  | y :: l' =>
      if before (fst x) (fst y) then x :: y :: l'
      else y :: insert_sorted before x l'
  end.

Definition key_before (reverse : bool) (kx ky : Q) : bool :=
  if reverse then Qle_bool ky kx else Qle_bool kx ky.

Definition sorted_keyed {A : Type} (keyed : list (Q * A)) (reverse : bool)
    : list (Q * A) :=
  foldr (insert_sorted (key_before reverse)) [] keyed.

Definition sorted {A : Type} (keyed : list (Q * A)) (reverse : bool) : list A :=
  map snd (sorted_keyed keyed reverse).

(** ** class Message, class MessageManager *)

(* Sender and recipient are object references, or the string "BROADCAST". *)
Inductive agent_ref : Type :=
| RefCoordinator
| RefHospital (i : nat)
| RefPatient (j : nat)
| RefBroadcast.

Global Instance agent_ref_eq_dec : EqDecision agent_ref.
Proof. solve_decision. Defined.

Inductive message_type : Type :=
| MEDICAL_NEEDS
| ADMISSION_BID
| RESOURCE_UNAVAILABLE
| RESOURCE_ALLOCATION
| ALLOCATION_RESULT
| RESOURCE_ALLOCATED
| RESOURCE_TRANSFER.

(* The payloads built by the senders; one constructor per dictionary shape. *)
Inductive content : Type :=
| NeedsContent (medical_needs : Z) (patient_severity : string)
| BidContent (patient_id : Z) (required_resources : Q)
    (hospital_specialization : string)
| NoHospitalsText (patient_id : Z)
| AllocationContent (patient_id : Z) (required_resources : Z) (bid_value : Q)
| ResultContent (allocation_status : bool) (hospital_id : Z)
| AllocatedContent (allocated_resources : Z) (hospital_id : Z)
| TransferContent (transfer_amount : Q) (source_hospital target_hospital : Z).

Record Message : Type := {
  sender : agent_ref;
  recipient : agent_ref;
  msg_content : content;
  msg_type : message_type
}.

Record MessageManager : Type := { message_log : list Message }.

Module Manager.
Definition __init__ : MessageManager := {| message_log := [] |}.

Definition send_message (self : MessageManager) (message : Message)
    : MessageManager :=
  {| message_log := message_log self ++ [message] |}.

Definition get_messages_for_agent (self : MessageManager) (agent : agent_ref)
    : list Message :=
  List.filter (fun msg => bool_decide (recipient msg = agent))
    (message_log self).
End Manager.

(** ** The agents and the environment *)

Record HospitalAgent : Type := {
  h_unique_id : Z;
  specialization : string;
  initial_resources : Q;
  current_resources : Q
}.

Record PatientAgent : Type := {
  p_unique_id : Z;
  severity : string;
  medical_needs : Z;
  unmet_needs : Z
}.

Record ResourceCoordinatorAgent : Type := {
  c_unique_id : Z;
  message_manager : MessageManager
}.

Record Env : Type := {
  current_id : Z;
  global_message_manager : MessageManager;
  hospitals : list HospitalAgent;
  patients : list PatientAgent;
  resource_coordinator : ResourceCoordinatorAgent;
  total_unmet_needs : Z;
  resource_allocation_efficiency : Q;
  (* the generator of the module [random]: its raw output and a cursor *)
  rng_draws : nat -> Z;
  rng_pos : nat
}.

Definition with_hospitals (hs : list HospitalAgent) (e : Env) : Env :=
  {| current_id := current_id e;
     global_message_manager := global_message_manager e;
     hospitals := hs;
     patients := patients e;
     resource_coordinator := resource_coordinator e;
     total_unmet_needs := total_unmet_needs e;
     resource_allocation_efficiency := resource_allocation_efficiency e;
     rng_draws := rng_draws e;
     rng_pos := rng_pos e |}.

Definition with_patients (ps : list PatientAgent) (e : Env) : Env :=
  {| current_id := current_id e;
     global_message_manager := global_message_manager e;
     hospitals := hospitals e;
     patients := ps;
     resource_coordinator := resource_coordinator e;
     total_unmet_needs := total_unmet_needs e;
     resource_allocation_efficiency := resource_allocation_efficiency e;
     rng_draws := rng_draws e;
     rng_pos := rng_pos e |}.

Definition with_coordinator (c : ResourceCoordinatorAgent) (e : Env) : Env :=
  {| current_id := current_id e;
     global_message_manager := global_message_manager e;
     hospitals := hospitals e;
     patients := patients e;
     resource_coordinator := c;
     total_unmet_needs := total_unmet_needs e;
     resource_allocation_efficiency := resource_allocation_efficiency e;
     rng_draws := rng_draws e;
     rng_pos := rng_pos e |}.

Definition with_total_unmet_needs (unmet : Z) (e : Env) : Env :=
  {| current_id := current_id e;
     global_message_manager := global_message_manager e;
     hospitals := hospitals e;
     patients := patients e;
     resource_coordinator := resource_coordinator e;
     total_unmet_needs := unmet;
     resource_allocation_efficiency := resource_allocation_efficiency e;
     rng_draws := rng_draws e;
     rng_pos := rng_pos e |}.

Definition with_efficiency (efficiency : Q) (e : Env) : Env :=
  {| current_id := current_id e;
     global_message_manager := global_message_manager e;
     hospitals := hospitals e;
     patients := patients e;
     resource_coordinator := resource_coordinator e;
     total_unmet_needs := total_unmet_needs e;
     resource_allocation_efficiency := efficiency;
     rng_draws := rng_draws e;
     rng_pos := rng_pos e |}.

Definition with_rng_pos (n : nat) (e : Env) : Env :=
  {| current_id := current_id e;
     global_message_manager := global_message_manager e;
     hospitals := hospitals e;
     patients := patients e;
     resource_coordinator := resource_coordinator e;
     total_unmet_needs := total_unmet_needs e;
     resource_allocation_efficiency := resource_allocation_efficiency e;
     rng_draws := rng_draws e;
     rng_pos := n |}.

Definition with_current_id (n : Z) (e : Env) : Env :=
  {| current_id := n;
     global_message_manager := global_message_manager e;
     hospitals := hospitals e;
     patients := patients e;
     resource_coordinator := resource_coordinator e;
     total_unmet_needs := total_unmet_needs e;
     resource_allocation_efficiency := resource_allocation_efficiency e;
     rng_draws := rng_draws e;
     rng_pos := rng_pos e |}.

(* [self.model.resource_coordinator.message_manager.message_log] *)
Definition coordinator_log (e : Env) : list Message :=
  message_log (message_manager (resource_coordinator e)).

(* [self.model.global_message_manager.message_log] *)
Definition global_log (e : Env) : list Message :=
  message_log (global_message_manager e).

(** ** The state-and-exception monad *)

Definition M (A : Type) : Type := Env -> result A * Env.

Definition ret {A : Type} (a : A) : M A := fun e => (Ok a, e).

Definition bind {A B : Type} (m : M A) (k : A -> M B) : M B :=
  fun e =>
    match m e with
    | (Ok a, e') => k a e'
    | (Raise x, e') => (Raise x, e')
    end.

Definition raise {A : Type} (x : exn) : M A := fun e => (Raise x, e).

Definition gets {A : Type} (f : Env -> A) : M A := fun e => (Ok (f e), e).

Definition modify (f : Env -> Env) : M unit := fun e => (Ok tt, f e).

Definition lift {A : Type} (r : result A) : M A := fun e => (r, e).

Declare Scope monad_scope.
Delimit Scope monad_scope with monad.
Notation "x <- m ;; k" := (bind m (fun x => k))
  (at level 90, m at level 80, right associativity) : monad_scope.
Notation "m ;;; k" := (bind m (fun _ => k))
  (at level 90, right associativity) : monad_scope.
Local Open Scope monad_scope.

(* [for x in l: body(x)] *)
Fixpoint for_each {A : Type} (l : list A) (body : A -> M unit) : M unit :=
  match l with
  | [] => ret tt
  | x :: l' => body x ;;; for_each l' body
  end.

(* dereference of a hospital or patient reference *)
Definition hospital_at (i : nat) : M HospitalAgent :=
  fun e => match hospitals e !! i with
           | Some h => (Ok h, e)
           | None => (Raise InvalidReference, e)
           end.

Definition patient_at (j : nat) : M PatientAgent :=
  fun e => match patients e !! j with
           | Some p => (Ok p, e)
           | None => (Raise InvalidReference, e)
           end.

(* [hospital.current_resources = v] on the hospital at position [i] *)
Definition set_current_resources (v : Q) (h : HospitalAgent) : HospitalAgent :=
  {| h_unique_id := h_unique_id h;
     specialization := specialization h;
     initial_resources := initial_resources h;
     current_resources := v |}.

Definition store_current_resources (i : nat) (v : Q) : M unit :=
  modify (fun e =>
    with_hospitals (alter (set_current_resources v) i (hospitals e)) e).

Definition set_medical_needs (v : Z) (p : PatientAgent) : PatientAgent :=
  {| p_unique_id := p_unique_id p;
     severity := severity p;
     medical_needs := v;
     unmet_needs := unmet_needs p |}.

Definition set_unmet_needs (v : Z) (p : PatientAgent) : PatientAgent :=
  {| p_unique_id := p_unique_id p;
     severity := severity p;
     medical_needs := medical_needs p;
     unmet_needs := v |}.

(* [self.model.resource_coordinator.message_manager.send_message(message)] *)
Definition coordinator_send (message : Message) : M unit :=
  modify (fun e =>
    with_coordinator
      {| c_unique_id := c_unique_id (resource_coordinator e);
         message_manager :=
           Manager.send_message
             (message_manager (resource_coordinator e)) message |} e).

(** ** class HospitalAgent *)

Module Hospital.

(* [develop_admission_policy]: the same constant dictionary for every
   hospital, never mutated. *)
Definition specialization_weight : Q := 0.4.
Definition resource_efficiency_weight : Q := 0.6.

Definition __init__ (unique_id : Z) (specialization : string)
    (initial_resources : Q) : HospitalAgent :=
  {| h_unique_id := unique_id;
     specialization := specialization;
     initial_resources := initial_resources;
     current_resources := initial_resources |}.

(* Placeholder compatibility check *)
Definition matches_specialization (self : HospitalAgent)
    (patient : PatientAgent) : bool := true.

Definition calculate_admission_score (self : HospitalAgent)
    (patient : PatientAgent) (required_resources : Q) : result Q :=
  let specialization_match :=
    if matches_specialization self patient then 1.0%Q else 0.3%Q in
  match py_div required_resources (current_resources self) with
  | Raise x => Raise x
  | Ok ratio =>
      let resource_efficiency := (1 - ratio)%Q in
      Ok (specialization_weight * specialization_match +
          resource_efficiency_weight * resource_efficiency)%Q
  end.

Definition admission_threshold : Q := 0.5.

Definition evaluate_patient_admission (self patient : nat)
    (required_resources : Q) : M (option Q) :=
  h <- hospital_at self ;;
  p <- patient_at patient ;;
  coordinator_send
    {| sender := RefHospital self;
       recipient := RefCoordinator;
       msg_content :=
         BidContent (p_unique_id p) required_resources (specialization h);
       msg_type := ADMISSION_BID |} ;;;
  if Qltb (current_resources h) required_resources then ret None
  else
    match_score <- lift (calculate_admission_score h p required_resources) ;;
    ret (if Qltb admission_threshold match_score
         then Some match_score else None).

Definition allocate_resources (self patient : nat) (allocation_score : Q)
    : M bool :=
  p <- patient_at patient ;;
  let required_resources := medical_needs p in
  h <- hospital_at self ;;
  if Qle_bool (inject_Z required_resources) (current_resources h) then
    store_current_resources self
      (current_resources h - inject_Z required_resources)%Q ;;;
    coordinator_send
      {| sender := RefHospital self;
         recipient := RefPatient patient;
         msg_content := AllocatedContent required_resources (h_unique_id h);
         msg_type := RESOURCE_ALLOCATED |} ;;;
    ret true
  else ret false.

Definition max_growth_factor : Q := 1.5.
Definition replenishment_rate : Q := 1.1.

(* the new value of [current_resources] *)
Definition replenished (self : HospitalAgent) : Q :=
  py_min (current_resources self * replenishment_rate)%Q
         (initial_resources self * max_growth_factor)%Q.

Definition process_resources (self : nat) : M unit :=
  h <- hospital_at self ;;
  store_current_resources self (replenished h).

End Hospital.

(** ** class ResourceCoordinatorAgent *)

Fixpoint map_M {A B : Type} (f : A -> M B) (l : list A) : M (list B) :=
  match l with
  | [] => ret []
  | x :: l' => y <- f x ;; ys <- map_M f l' ;; ret (y :: ys)
  end.

Module Coordinator.

(* [develop_allocation_strategy]: the 'priority_factors' dictionary *)
Definition patient_severity : Q := 0.4.
Definition hospital_capacity : Q := 0.3.
Definition resource_efficiency : Q := 0.3.

Definition __init__ (unique_id : Z) : ResourceCoordinatorAgent :=
  {| c_unique_id := unique_id;
     message_manager := Manager.__init__ |}.

(* [severity_map.get(patient.severity, 0.5)] *)
Definition severity_score (patient : PatientAgent) : Q :=
  if String.eqb (severity patient) "low" then 0.2%Q
  else if String.eqb (severity patient) "medium" then 0.5%Q
  else if String.eqb (severity patient) "high" then 1.0%Q
  else 0.5%Q.

Definition capacity_score (hospital : HospitalAgent) : result Q :=
  match py_div (current_resources hospital) (initial_resources hospital) with
  | Raise x => Raise x
  | Ok utilisation => Ok (py_min utilisation 1.0%Q)
  end.

Definition evaluate_bid (hospital : HospitalAgent) (bid_value : Q)
    (patient : PatientAgent) : result Q :=
  match capacity_score hospital with
  | Raise x => Raise x
  | Ok capacity =>
      Ok (patient_severity * severity_score patient +
          hospital_capacity * capacity +
          resource_efficiency * bid_value)%Q
  end.

(* the key of one bid, [self.evaluate_bid(x[0], x[1], patient)] *)
Definition bid_key (patient : nat) (x : nat * Q) : M (Q * (nat * Q)) :=
  h <- hospital_at (fst x) ;;
  p <- patient_at patient ;;
  k <- lift (evaluate_bid h (snd x) p) ;;
  ret (k, x).

Definition allocate_resources (patient : nat) (hospital_bids : list (nat * Q))
    : M (option bool) :=
  match hospital_bids with
  | [] =>
      p <- patient_at patient ;;
      coordinator_send
        {| sender := RefCoordinator;
           recipient := RefBroadcast;
           msg_content := NoHospitalsText (p_unique_id p);
           msg_type := RESOURCE_UNAVAILABLE |} ;;;
      ret None
  | first_bid :: _ =>
      keyed <- map_M (bid_key patient) hospital_bids ;;
      let sorted_bids := sorted keyed true in
      (* [sorted_bids[0]]; the sorted list is as long as the bid list *)
      let '(best_hospital, bid_value) := hd first_bid sorted_bids in
      p <- patient_at patient ;;
      coordinator_send
        {| sender := RefCoordinator;
           recipient := RefHospital best_hospital;
           msg_content :=
             AllocationContent (p_unique_id p) (medical_needs p) bid_value;
           msg_type := RESOURCE_ALLOCATION |} ;;;
      allocation_success <-
        Hospital.allocate_resources best_hospital patient bid_value ;;
      best <- hospital_at best_hospital ;;
      coordinator_send
        {| sender := RefCoordinator;
           recipient := RefPatient patient;
           msg_content := ResultContent allocation_success (h_unique_id best);
           msg_type := ALLOCATION_RESULT |} ;;;
      ret (Some allocation_success)
  end.

(* One iteration of the inner loop of [coordinate_global_resources]. *)
Definition transfer (source target : nat) : M unit :=
  s <- hospital_at source ;;
  t <- hospital_at target ;;
  let transfer_amount :=
    py_min (current_resources s * 0.1)%Q
           (initial_resources t * 0.2 - current_resources t)%Q in
  if Qltb 0 transfer_amount then
    coordinator_send
      {| sender := RefHospital source;
         recipient := RefHospital target;
         msg_content :=
           TransferContent transfer_amount (h_unique_id s) (h_unique_id t);
         msg_type := RESOURCE_TRANSFER |} ;;;
    s' <- hospital_at source ;;
    store_current_resources source (current_resources s' - transfer_amount)%Q ;;;
    t' <- hospital_at target ;;
    store_current_resources target (current_resources t' + transfer_amount)%Q
  else ret tt.

(* positions and keys of the hospitals that satisfy [keep] *)
Definition select_by (keep : HospitalAgent -> bool) (hs : list HospitalAgent)
    : list (Q * nat) :=
  map (fun ih => (current_resources (snd ih), fst ih))
    (List.filter (fun ih => keep (snd ih)) (imap pair hs)).

Definition high_capacity_hospitals (hs : list HospitalAgent) : list nat :=
  sorted
    (select_by (fun h => Qltb (initial_resources h * 1.2)%Q
                              (current_resources h)) hs)
    true.

Definition low_capacity_hospitals (hs : list HospitalAgent) : list nat :=
  sorted
    (select_by (fun h => Qltb (current_resources h)
                              (initial_resources h * 0.8)%Q) hs)
    false.

Definition coordinate_global_resources : M unit :=
  hs <- gets hospitals ;;
  let high := high_capacity_hospitals hs in
  let low := low_capacity_hospitals hs in
  for_each high (fun source =>
    for_each low (fun target => transfer source target)).

End Coordinator.

(** ** class ResourceAllocationEnvironment: negotiation *)

Fixpoint collect_bids (patient : nat) (required_resources : Q)
    (hospital_refs : list nat) : M (list (nat * Q)) :=
  match hospital_refs with
  | [] => ret []
  | hospital :: rest =>
      bid <- Hospital.evaluate_patient_admission hospital patient
               required_resources ;;
      bids <- collect_bids patient required_resources rest ;;
      ret (match bid with
           | Some b => (hospital, b) :: bids
           | None => bids
           end)
  end.

Definition negotiate_resource_allocation (patient : nat)
    (required_resources : Q) : M (option bool) :=
  hs <- gets hospitals ;;
  bids <- collect_bids patient required_resources (seq 0 (length hs)) ;;
  Coordinator.allocate_resources patient bids.

Definition update_performance_metrics : M unit :=
  ps <- gets patients ;;
  let unmet := py_sumZ (map unmet_needs ps) in
  hs <- gets hospitals ;;
  let total_resources := py_sum (map current_resources hs) in
  modify (with_total_unmet_needs unmet) ;;;
  efficiency <- lift (py_div (total_resources - inject_Z unmet)%Q
                             (total_resources + 1)%Q) ;;
  modify (with_efficiency efficiency).

(** ** The module [random] *)

Module Random.

(* [_randbelow(n)]: a value in [0, n) *)
Definition randbelow (n : Z) : M Z :=
  fun e => (Ok (rng_draws e (rng_pos e) mod n)%Z, with_rng_pos (S (rng_pos e)) e).

(* [randrange(start, stop)] *)
Definition randrange (start stop : Z) : M Z :=
  let width := (stop - start)%Z in
  if (0 <? width)%Z then r <- randbelow width ;; ret (start + r)%Z
  else raise ValueError.

(* [randint(a, b)] is [randrange(a, b+1)] *)
Definition randint (a b : Z) : M Z := randrange a (b + 1)%Z.

(* [choice(seq)] on a non-empty sequence [x :: xs] *)
Definition choice {A : Type} (x : A) (xs : list A) : M A :=
  i <- randbelow (Z.of_nat (length (x :: xs))) ;;
  ret (nth (Z.to_nat i) (x :: xs) x).

End Random.

(** ** class PatientAgent *)

Module Patient.

Definition __init__ (unique_id : Z) (severity : string) : PatientAgent :=
  {| p_unique_id := unique_id;
     severity := severity;
     medical_needs := 0;
     unmet_needs := 0 |}.

(* [severity_resource_ranges.get(self.severity, (10, 50))] *)
Definition severity_resource_ranges (severity : string) : Z * Z :=
  if String.eqb severity "low" then (5, 20)%Z
  else if String.eqb severity "medium" then (20, 100)%Z
  else if String.eqb severity "high" then (100, 200)%Z
  else (10, 50)%Z.

(* truth value of the negotiation outcome: [None] and [False] are false *)
Definition truthy (allocation_result : option bool) : bool :=
  match allocation_result with
  | Some b => b
  | None => false
  end.

Definition generate_medical_needs (self : nat) : M unit :=
  p <- patient_at self ;;
  let '(min_need, max_need) := severity_resource_ranges (severity p) in
  needs <- Random.randint min_need max_need ;;
  modify (fun e =>
    with_patients (alter (set_medical_needs needs) self (patients e)) e) ;;;
  coordinator_send
    {| sender := RefPatient self;
       recipient := RefCoordinator;
       msg_content := NeedsContent needs (severity p);
       msg_type := MEDICAL_NEEDS |} ;;;
  allocation_result <- negotiate_resource_allocation self (inject_Z needs) ;;
  p' <- patient_at self ;;
  modify (fun e =>
    with_patients
      (alter (set_unmet_needs
                (if truthy allocation_result then 0%Z else medical_needs p'))
             self (patients e)) e).

End Patient.

(** ** class ResourceAllocationEnvironment: construction and stepping *)

(* [Model.next_id] of the agent framework *)
Definition next_id : M Z :=
  fun e => let n := (current_id e + 1)%Z in (Ok n, with_current_id n e).

Definition setup_resource_coordinator : M unit :=
  unique_id <- next_id ;;
  modify (with_coordinator (Coordinator.__init__ unique_id)).

Definition get_hospital_specialization : M string :=
  Random.choice "emergency"%string
    ["intensive_care"; "general"; "pediatric"; "surgical"]%string.

(* [range(n)] *)
Definition range (n : Z) : list nat := seq 0 (Z.to_nat n).

Definition setup_hospitals (num_hospitals : Z) (initial_resources : Q) : M unit :=
  for_each (range num_hospitals) (fun _ =>
    unique_id <- next_id ;;
    specialization <- get_hospital_specialization ;;
    modify (fun e =>
      with_hospitals
        (hospitals e ++
           [Hospital.__init__ unique_id specialization initial_resources]) e)).

Definition setup_patients (num_patients : Z) : M unit :=
  for_each (range num_patients) (fun _ =>
    unique_id <- next_id ;;
    severity <- Random.choice "low"%string ["medium"; "high"]%string ;;
    modify (fun e =>
      with_patients (patients e ++ [Patient.__init__ unique_id severity]) e)).

(* The attributes set by [__init__] before the agents are created.  The
   coordinator attribute is [None] until [setup_resource_coordinator], the
   first setup call, replaces it. *)
Definition blank (draws : nat -> Z) : Env :=
  {| current_id := 0;
     global_message_manager := Manager.__init__;
     hospitals := [];
     patients := [];
     resource_coordinator := Coordinator.__init__ 0;
     total_unmet_needs := 0;
     resource_allocation_efficiency := 0;
     rng_draws := draws;
     rng_pos := 0 |}.

Definition __init__ (num_hospitals num_patients : Z) (initial_resources : Q)
    : M unit :=
  setup_resource_coordinator ;;;
  setup_hospitals num_hospitals initial_resources ;;;
  setup_patients num_patients ;;;
  modify (with_total_unmet_needs 0) ;;;
  modify (with_efficiency 0).

Definition step : M unit :=
  ps <- gets patients ;;
  for_each (seq 0 (length ps)) Patient.generate_medical_needs ;;;
  hs <- gets hospitals ;;
  for_each (seq 0 (length hs)) Hospital.process_resources ;;;
  Coordinator.coordinate_global_resources ;;;
  update_performance_metrics.

Definition run_healthcare_simulation (num_hospitals num_patients
    simulation_steps : Z) : M unit :=
  __init__ num_hospitals num_patients 1000 ;;;
  for_each (range simulation_steps) (fun _ => step).

(** ** Operations on a running environment

    The methods of the model as one type, so that statements can quantify
    over arbitrary sequences of calls. *)

Inductive operation : Type :=
| OpAdmission (hospital patient : nat) (required_resources : Q)
| OpCommit (hospital patient : nat) (allocation_score : Q)
| OpReplenish (hospital : nat)
| OpTransfer (source target : nat)
| OpRebalance
| OpNegotiate (patient : nat) (required_resources : Q)
| OpGenerate (patient : nat)
| OpMetrics
| OpStep.

Definition perform (op : operation) : M unit :=
  match op with
  | OpAdmission hospital patient required_resources =>
      Hospital.evaluate_patient_admission hospital patient required_resources ;;;
      ret tt
  | OpCommit hospital patient allocation_score =>
      Hospital.allocate_resources hospital patient allocation_score ;;; ret tt
  | OpReplenish hospital => Hospital.process_resources hospital
  | OpTransfer source target => Coordinator.transfer source target
  | OpRebalance => Coordinator.coordinate_global_resources
  | OpNegotiate patient required_resources =>
      negotiate_resource_allocation patient required_resources ;;; ret tt
  | OpGenerate patient => Patient.generate_medical_needs patient
  | OpMetrics => update_performance_metrics
  | OpStep => step
  end.

(* The environment after a sequence of calls; a call that raises leaves the
   mutations it made, and the caller goes on with the next call. *)
Fixpoint perform_all (ops : list operation) (e : Env) : Env :=
  match ops with
  | [] => e
  | op :: ops' => perform_all ops' (snd (perform op e))
  end.

(* total system resource *)
Definition total_resources (e : Env) : Q :=
  py_sum (map current_resources (hospitals e)).

(** ** Vocabulary of the statements *)

(* an environment with the given registries, empty logs and a fresh
   generator *)
Definition env_of (hs : list HospitalAgent) (ps : list PatientAgent)
    (draws : nat -> Z) : Env :=
  with_patients ps (with_hospitals hs (blank draws)).

(* a property of the environment that a computation maintains, whether it
   returns or raises *)
Definition preserves {A : Type} (P : Env -> Prop) (m : M A) : Prop :=
  forall e, P e -> P (snd (m e)).

(* A hospital built with a non-negative [initial_resources] whose balance
   has not fallen below zero. *)
Definition balance_ok (h : HospitalAgent) : Prop :=
  (0 <= initial_resources h)%Q /\ (0 <= current_resources h)%Q.

Definition balances_ok (e : Env) : Prop := Forall balance_ok (hospitals e).

(* the balance is at most the growth cap of the replenishment *)
Definition within_cap (h : HospitalAgent) : Prop :=
  (0 <= initial_resources h)%Q /\
  (current_resources h <= initial_resources h * Hospital.max_growth_factor)%Q.

(* every balance is within the cap and no recorded demand is negative *)
Definition all_within_cap (e : Env) : Prop :=
  Forall within_cap (hospitals e) /\
  Forall (fun p => (0 <= medical_needs p)%Z) (patients e).

(* the bid message that every admission evaluation sends first *)
Definition bid_message (self : nat) (h : HospitalAgent) (patient_id : Z)
    (required : Q) : Message :=
  {| sender := RefHospital self;
     recipient := RefCoordinator;
     msg_content := BidContent patient_id required (specialization h);
     msg_type := ADMISSION_BID |}.

(* the environment after the messages [msgs] were sent, in this order *)
Definition append_log (msgs : list Message) (e : Env) : Env :=
  with_coordinator
    {| c_unique_id := c_unique_id (resource_coordinator e);
       message_manager := {| message_log := coordinator_log e ++ msgs |} |} e.

(* the bid messages of the hospitals polled in the order [refs] *)
Definition bid_messages (hs : list HospitalAgent) (patient_id : Z)
    (required : Q) (refs : list nat) : list Message :=
  omap (fun i => (fun h => bid_message i h patient_id required) <$> hs !! i)
    refs.

(* the broadcast of an empty bid set *)
Definition unavailable_message (patient_id : Z) : Message :=
  {| sender := RefCoordinator;
     recipient := RefBroadcast;
     msg_content := NoHospitalsText patient_id;
     msg_type := RESOURCE_UNAVAILABLE |}.

(* the announcement of a freshly generated demand *)
Definition needs_message (self : nat) (severity : string) (needs : Z)
    : Message :=
  {| sender := RefPatient self;
     recipient := RefCoordinator;
     msg_content := NeedsContent needs severity;
     msg_type := MEDICAL_NEEDS |}.

(* the demand that the next call of [generate_medical_needs] draws for a
   patient of the given severity *)
Definition next_demand (e : Env) (severity : string) : Z :=
  let '(min_need, max_need) := Patient.severity_resource_ranges severity in
  (min_need + rng_draws e (rng_pos e) mod (max_need + 1 - min_need))%Z.

(* The rank of a bid in the words of the specification: weights 0.4, 0.3
   and 0.3 on the severity score, the capacity score
   [min(current_balance / initial_capacity, 1.0)] and the bid.  To be
   compared with [Coordinator.evaluate_bid]. *)
Definition rank (hs : list HospitalAgent) (p : PatientAgent) (bid : nat * Q)
    : Q :=
  match hs !! fst bid with
  | Some h =>
      (0.4 * Coordinator.severity_score p +
       0.3 * py_min (current_resources h / initial_resources h) 1.0 +
       0.3 * snd bid)%Q
  | None => 0%Q
  end.

(* [k] is the position of the first bid of maximal rank *)
Definition first_best (hs : list HospitalAgent) (p : PatientAgent)
    (bids : list (nat * Q)) (k : nat) (w : nat * Q) : Prop :=
  bids !! k = Some w /\
  (forall k' b, bids !! k' = Some b -> (rank hs p b <= rank hs p w)%Q) /\
  (forall k' b, (k' < k)%nat -> bids !! k' = Some b ->
                (rank hs p b < rank hs p w)%Q).

(* the messages of a decided negotiation *)
Definition allocation_message (p : PatientAgent) (w : nat * Q) : Message :=
  {| sender := RefCoordinator;
     recipient := RefHospital (fst w);
     msg_content := AllocationContent (p_unique_id p) (medical_needs p) (snd w);
     msg_type := RESOURCE_ALLOCATION |}.

Definition allocated_message (self patient : nat) (h : HospitalAgent)
    (p : PatientAgent) : Message :=
  {| sender := RefHospital self;
     recipient := RefPatient patient;
     msg_content := AllocatedContent (medical_needs p) (h_unique_id h);
     msg_type := RESOURCE_ALLOCATED |}.

Definition result_message (patient : nat) (h : HospitalAgent) (success : bool)
    : Message :=
  {| sender := RefCoordinator;
     recipient := RefPatient patient;
     msg_content := ResultContent success (h_unique_id h);
     msg_type := ALLOCATION_RESULT |}.

(** ** The rebalancing pass on binary64 numbers

    Python evaluates the arithmetic of the pass on [float] values once a
    balance has been multiplied by a float.  The same statements of
    [coordinate_global_resources] on IEEE 754 binary64 numbers; only the
    balances are kept, the messages do not influence them. *)

Record HospitalAgent_b64 : Type := {
  initial_resources_b64 : float;
  current_resources_b64 : float
}.

Definition set_current_resources_b64 (v : float) (h : HospitalAgent_b64)
    : HospitalAgent_b64 :=
  {| initial_resources_b64 := initial_resources_b64 h;
     current_resources_b64 := v |}.

(* builtin [min(a, b)] *)
Definition min_b64 (a b : float) : float :=
  if PrimFloat.ltb b a then b else a.

(* builtin [sum]: left to right from 0 *)
Definition sum_b64 (l : list float) : float :=
  fold_left PrimFloat.add l 0%float.

Definition total_resources_b64 (hs : list HospitalAgent_b64) : float :=
  sum_b64 (map current_resources_b64 hs).

Fixpoint insert_sorted_b64 {A : Type} (before : float -> float -> bool)
    (x : float * A) (l : list (float * A)) : list (float * A) :=
  match l with
  | [] => [x]
  | y :: l' =>
      if before (fst x) (fst y) then x :: y :: l'
      else y :: insert_sorted_b64 before x l'
  end.

Definition sorted_b64 {A : Type} (keyed : list (float * A)) (reverse : bool)
    : list A :=
  map snd
    (foldr (insert_sorted_b64
              (fun kx ky => if reverse then PrimFloat.leb ky kx
                            else PrimFloat.leb kx ky))
       [] keyed).

Definition select_by_b64 (keep : HospitalAgent_b64 -> bool)
    (hs : list HospitalAgent_b64) : list (float * nat) :=
  map (fun ih => (current_resources_b64 (snd ih), fst ih))
    (List.filter (fun ih => keep (snd ih)) (imap pair hs)).

#[warnings="-inexact-float"]
Definition transfer_b64 (source target : nat) (hs : list HospitalAgent_b64)
    : list HospitalAgent_b64 :=
  match hs !! source, hs !! target with
  | Some s, Some t =>
      let transfer_amount :=
        min_b64 (current_resources_b64 s * 0.1)%float
                (initial_resources_b64 t * 0.2 -
                 current_resources_b64 t)%float in
      if PrimFloat.ltb 0 transfer_amount then
        let hs' :=
          alter (fun h => set_current_resources_b64
                            (current_resources_b64 h - transfer_amount)%float h)
                source hs in
        alter (fun h => set_current_resources_b64
                          (current_resources_b64 h + transfer_amount)%float h)
              target hs'
      else hs
  | _, _ => hs
  end.

#[warnings="-inexact-float"]
Definition coordinate_global_resources_b64 (hs : list HospitalAgent_b64)
    : list HospitalAgent_b64 :=
  let high :=
    sorted_b64
      (select_by_b64
         (fun h => PrimFloat.ltb (initial_resources_b64 h * 1.2)%float
                                 (current_resources_b64 h)) hs) true in
  let low :=
    sorted_b64
      (select_by_b64
         (fun h => PrimFloat.ltb (current_resources_b64 h)
                                 (initial_resources_b64 h * 0.8)%float) hs)
      false in
  fold_left
    (fun hs1 source =>
       fold_left (fun hs2 target => transfer_b64 source target hs2) low hs1)
    high hs.


(** ** The ranking of bids on binary64 numbers

    The keys that [sorted] compares in
    [ResourceCoordinatorAgent.allocate_resources] are Python floats.  The
    same statements of [severity_score], [capacity_score], [evaluate_bid]
    and of the choice of [sorted_bids[0]] on binary64 numbers; a bid is a
    position in the list of hospitals and the bid value. *)

(* true division: a zero divisor of either sign raises *)
Definition py_div_b64 (x y : float) : result float :=
  if PrimFloat.eqb y 0 then Raise ZeroDivisionError else Ok (x / y)%float.

#[warnings="-inexact-float"]
Definition severity_score_b64 (severity : string) : float :=
  if String.eqb severity "low" then 0.2%float
  else if String.eqb severity "medium" then 0.5%float
  else if String.eqb severity "high" then 1.0%float
  else 0.5%float.

Definition capacity_score_b64 (hospital : HospitalAgent_b64) : result float :=
  match py_div_b64 (current_resources_b64 hospital)
                   (initial_resources_b64 hospital) with
  | Raise x => Raise x
  | Ok utilisation => Ok (min_b64 utilisation 1.0%float)
  end.

#[warnings="-inexact-float"]
Definition evaluate_bid_b64 (hospital : HospitalAgent_b64) (bid_value : float)
    (severity : string) : result float :=
  match capacity_score_b64 hospital with
  | Raise x => Raise x
  | Ok capacity =>
      Ok (0.4 * severity_score_b64 severity + 0.3 * capacity +
          0.3 * bid_value)%float
  end.

(* the keys of the bids, computed in the order of the list *)
Fixpoint bid_keys_b64 (hs : list HospitalAgent_b64) (severity : string)
    (hospital_bids : list (nat * float))
    : result (list (float * (nat * float))) :=
  match hospital_bids with
  | [] => Ok []
  | x :: rest =>
      match hs !! fst x with
      | None => Raise InvalidReference
      | Some h =>
          match evaluate_bid_b64 h (snd x) severity with
          | Raise err => Raise err
          | Ok k =>
              match bid_keys_b64 hs severity rest with
              | Raise err => Raise err
              | Ok keyed => Ok ((k, x) :: keyed)
              end
          end
      end
  end.

(* [sorted_bids = sorted(hospital_bids, key=..., reverse=True)] *)
Definition sorted_bids_b64 (hs : list HospitalAgent_b64) (severity : string)
    (hospital_bids : list (nat * float)) : result (list (nat * float)) :=
  match bid_keys_b64 hs severity hospital_bids with
  | Raise err => Raise err
  | Ok keyed => Ok (sorted_b64 keyed true)
  end.

(* [best_hospital, bid_value = sorted_bids[0]]; [None] stands for the
   early return on an empty bid list *)
Definition best_hospital_b64 (hs : list HospitalAgent_b64) (severity : string)
    (hospital_bids : list (nat * float)) : result (option (nat * float)) :=
  match hospital_bids with
  | [] => Ok None
  | first_bid :: _ =>
      match sorted_bids_b64 hs severity hospital_bids with
      | Raise err => Raise err
      | Ok sorted_bids => Ok (Some (hd first_bid sorted_bids))
      end
  end.

(* The rank of a bid in the words of the specification, evaluated on
   binary64 numbers from left to right: weights 0.4, 0.3 and 0.3 on the
   severity score (0.2 for low, 0.5 for medium, 1.0 for high, and the
   program's 0.5 for any other severity), on the capacity score, which is
   the quotient of balance and capacity unless that exceeds 1.0, and on
   the bid.  To be compared with [evaluate_bid_b64]. *)
#[warnings="-inexact-float"]
Definition rank_b64 (severity : string) (h : HospitalAgent_b64)
    (bid_score : float) : float :=
  let severity_score :=
    if string_dec severity "low" then 0.2%float
    else if string_dec severity "medium" then 0.5%float
    else if string_dec severity "high" then 1%float
    else 0.5%float in
  let quotient :=
    (current_resources_b64 h / initial_resources_b64 h)%float in
  let capacity_score :=
    if PrimFloat.ltb 1 quotient then 1%float else quotient in
  (0.4 * severity_score + 0.3 * capacity_score + 0.3 * bid_score)%float.

(* the rank of a bid of the list; a bid that names no hospital has none *)
Definition bid_rank_b64 (hs : list HospitalAgent_b64) (severity : string)
    (bid : nat * float) : float :=
  match hs !! fst bid with
  | Some h => rank_b64 severity h (snd bid)
  | None => PrimFloat.nan
  end.

(* [k] is the position of the first bid whose rank no other bid exceeds *)
Definition first_best_b64 (hs : list HospitalAgent_b64) (severity : string)
    (bids : list (nat * float)) (k : nat) (w : nat * float) : Prop :=
  bids !! k = Some w /\
  (forall k' b, bids !! k' = Some b ->
     PrimFloat.leb (bid_rank_b64 hs severity b)
                   (bid_rank_b64 hs severity w) = true) /\
  (forall k' b, (k' < k)%nat -> bids !! k' = Some b ->
     PrimFloat.ltb (bid_rank_b64 hs severity b)
                   (bid_rank_b64 hs severity w) = true).

(** ** The sums of the metrics in the words of the specification *)

Fixpoint total_provider_balance (hs : list HospitalAgent) : Q :=
  match hs with
  | [] => 0%Q
  | h :: rest => (current_resources h + total_provider_balance rest)%Q
  end.

Fixpoint total_unmet_demand (ps : list PatientAgent) : Z :=
  match ps with
  | [] => 0%Z
  | p :: rest => (unmet_needs p + total_unmet_demand rest)%Z
  end.
(** ** Vocabulary for the behaviour of whole negotiations *)

(* the score of [calculate_admission_score] where the quotient is defined *)
Definition admission_score (h : HospitalAgent) (required : Q) : Q :=
  (0.4 * 1.0 + 0.6 * (1 - required / current_resources h))%Q.

(* the value that [evaluate_patient_admission] returns *)
Definition quote (h : HospitalAgent) (required : Q) : option Q :=
  if Qltb (current_resources h) required then None
  else if Qltb 0.5 (admission_score h required)
       then Some (admission_score h required)
       else None.

(* the bids of the hospitals polled in the order [refs] *)
Definition quotes (hs : list HospitalAgent) (required : Q) (refs : list nat)
    : list (nat * Q) :=
  omap (fun i =>
          match hs !! i with
          | Some h =>
              match quote h required with
              | Some b => Some (i, b)
              | None => None
              end
          | None => None
          end) refs.

(* a hospital that holds something has a capacity to compare it with, so
   that [capacity_score] is defined for it *)
Definition capacity_defined (h : HospitalAgent) : Prop :=
  (0 < current_resources h)%Q -> ~ (initial_resources h == 0)%Q.

(** ** Vocabulary for construction and whole runs *)

(* the element that [random.choice] returns for a raw draw *)
Definition chosen {A : Type} (x : A) (xs : list A) (draw : Z) : A :=
  nth (Z.to_nat (draw mod Z.of_nat (length (x :: xs)))) (x :: xs) x.

Definition specializations : list string :=
  ["emergency"; "intensive_care"; "general"; "pediatric"; "surgical"]%string.

Definition severities : list string := ["low"; "medium"; "high"]%string.

(* the [k]-th hospital and patient that the constructor creates: the
   coordinator takes the identifier 1 and no draw, the hospitals follow *)
Definition constructed_hospital (draws : nat -> Z) (initial : Q) (k : nat)
    : HospitalAgent :=
  Hospital.__init__ (2 + Z.of_nat k)
    (chosen "emergency"%string
       ["intensive_care"; "general"; "pediatric"; "surgical"]%string
       (draws k))
    initial.

Definition constructed_patient (draws : nat -> Z) (n_hospitals : nat) (k : nat)
    : PatientAgent :=
  Patient.__init__ (2 + Z.of_nat n_hospitals + Z.of_nat k)
    (chosen "low"%string ["medium"; "high"]%string (draws (n_hospitals + k)%nat)).

(* the fields that the setup loops and the agents' methods leave alone *)
Definition same_services (e e' : Env) : Prop :=
  resource_coordinator e' = resource_coordinator e /\
  global_message_manager e' = global_message_manager e /\
  total_unmet_needs e' = total_unmet_needs e /\
  resource_allocation_efficiency e' = resource_allocation_efficiency e /\
  rng_draws e' = rng_draws e.

(* a patient whose last allocation attempt is recorded consistently *)
Definition settled (p : PatientAgent) : Prop :=
  unmet_needs p = 0%Z \/ unmet_needs p = medical_needs p.

(* the state of a simulation between two calls: [n] hospitals and [m]
   patients, balances between zero and the growth cap, demands recorded
   consistently *)
Definition sound (n m : nat) (e : Env) : Prop :=
  length (hospitals e) = n /\ length (patients e) = m /\
  balances_ok e /\ all_within_cap e /\ Forall settled (patients e).

(* a computation that returns normally and maintains [I] *)
Definition returns (I : Env -> Prop) (m : M unit) : Prop :=
  forall e, I e -> fst (m e) = Ok tt /\ I (snd (m e)).



(** ** Vocabulary for the message traffic *)

(* the kinds of sender, recipient and payload that go with a message type
   at the places where the agents build their messages *)
Definition protocol_ok (m : Message) : bool :=
  match msg_type m, sender m, recipient m, msg_content m with
  | MEDICAL_NEEDS, RefPatient _, RefCoordinator, NeedsContent _ _ => true
  | ADMISSION_BID, RefHospital _, RefCoordinator, BidContent _ _ _ => true
  | RESOURCE_UNAVAILABLE, RefCoordinator, RefBroadcast, NoHospitalsText _ =>
      true
  | RESOURCE_ALLOCATION, RefCoordinator, RefHospital _,
    AllocationContent _ _ _ => true
  | ALLOCATION_RESULT, RefCoordinator, RefPatient _, ResultContent _ _ => true
  | RESOURCE_ALLOCATED, RefHospital _, RefPatient _, AllocatedContent _ _ =>
      true
  | RESOURCE_TRANSFER, RefHospital _, RefHospital _, TransferContent _ _ _ =>
      true
  | _, _, _, _ => false
  end.

(* the demand lies in the range of the patient's severity *)
Definition demand_in_range (p : PatientAgent) : Prop :=
  let '(min_need, max_need) :=
    Patient.severity_resource_ranges (severity p) in
  (min_need <= medical_needs p <= max_need)%Z.

(** ** [visualization/server.py]

    The portrayal dictionary is a record; the key "Color" is absent for an
    agent that is neither a hospital nor a patient.  The "Text" entry, a
    formatted string, is not part of the model.  The rendering of one log
    line (an f-string over the timestamp, the agents and the payload) is a
    parameter of the message panel. *)

Module Server.

Inductive agent : Type :=
| AHospital (h : HospitalAgent)
| APatient (p : PatientAgent)
| AOther.

Record Portrayal : Type := {
  Shape : string;
  Filled : string;
  Layer : Z;
  r : Q;
  Color : option string
}.

Definition agent_portrayal (a : agent) : Portrayal :=
  match a with
  | AHospital h =>
      {| Shape := "circle"; Filled := "true"; Layer := 0;
         r := py_min (0.5 + current_resources h / 1000)%Q 1.0%Q;
         Color := Some "blue"%string |}
  | APatient p =>
      {| Shape := "circle"; Filled := "true"; Layer := 0;
         r := py_min (0.3 + inject_Z (medical_needs p) / 500)%Q 0.7%Q;
         Color := Some "red"%string |}
  | AOther =>
      {| Shape := "circle"; Filled := "true"; Layer := 0;
         r := 0.5%Q;
         Color := None |}
  end.

(* [l[-n:]] for a positive [n] *)
Definition last_items {A : Type} (n : nat) (l : list A) : list A :=
  skipn (length l - n) l.

Definition newline : string := String (Ascii.ascii_of_nat 10) EmptyString.

(* [MessageLogVisualization.portrayal] and [render] *)
Definition portrayal (format : Message -> string) (model : Env) : string :=
  String.concat newline
    (map format (last_items 10 (message_log (global_message_manager model)))).

Definition render (format : Message -> string) (model : Env) : string :=
  portrayal format model.

End Server.

(** * Properties *)

(** ** Numbers *)

Lemma Qltb_true (x y : Q) : Qltb x y = true <-> (x < y)%Q.
Proof.
  unfold Qltb. rewrite negb_true_iff. split.
  - intros H. apply Qnot_le_lt. intros Hle.
    apply Qle_bool_iff in Hle. congruence.
  - intros H. destruct (Qle_bool y x) eqn:E; [|reflexivity].
    apply Qle_bool_iff in E. lra.
Qed.

Lemma Qltb_false (x y : Q) : Qltb x y = false <-> (y <= x)%Q.
Proof.
  unfold Qltb. rewrite negb_false_iff. apply Qle_bool_iff.
Qed.

Lemma Qle_bool_false (x y : Q) : Qle_bool x y = false <-> (y < x)%Q.
Proof.
  rewrite <- Qltb_true. unfold Qltb. rewrite negb_true_iff. reflexivity.
Qed.

Lemma py_min_cases (a b : Q) :
  ((b < a)%Q /\ py_min a b = b) \/ ((a <= b)%Q /\ py_min a b = a).
Proof.
  unfold py_min. destruct (Qltb b a) eqn:E.
  - left. apply Qltb_true in E. auto.
  - right. apply Qltb_false in E. auto.
Qed.

Lemma py_div_ok (x y : Q) : ~ (y == 0)%Q -> py_div x y = Ok (x / y)%Q.
Proof.
  intros H. unfold py_div. destruct (Qeq_bool y 0) eqn:E; [|reflexivity].
  apply Qeq_bool_iff in E. contradiction.
Qed.

Lemma py_div_zero (x y : Q) : (y == 0)%Q -> py_div x y = Raise ZeroDivisionError.
Proof.
  intros H. unfold py_div. apply Qeq_bool_iff in H. rewrite H. reflexivity.
Qed.

Lemma py_sum_from (l : list Q) (a : Q) :
  (fold_left Qplus l a == a + py_sum l)%Q.
Proof.
  unfold py_sum. revert a. induction l as [|x l IH]; intros a; simpl.
  - lra.
  - rewrite (IH (a + x)%Q), (IH (0 + x)%Q). lra.
Qed.

Lemma py_sum_cons (x : Q) (l : list Q) : (py_sum (x :: l) == x + py_sum l)%Q.
Proof.
  unfold py_sum at 1. simpl. rewrite py_sum_from. lra.
Qed.

Lemma py_sum_nonneg (l : list Q) :
  Forall (fun x => (0 <= x)%Q) l -> (0 <= py_sum l)%Q.
Proof.
  induction 1 as [|x l Hx _ IH].
  - unfold py_sum. simpl. lra.
  - rewrite py_sum_cons. lra.
Qed.

Lemma py_sumZ_from (l : list Z) (a : Z) :
  fold_left Z.add l a = (a + py_sumZ l)%Z.
Proof.
  unfold py_sumZ. revert a. induction l as [|x l IH]; intros a; simpl.
  - lia.
  - rewrite (IH (a + x)%Z), (IH (0 + x)%Z). lia.
Qed.

Lemma py_sumZ_cons (x : Z) (l : list Z) : py_sumZ (x :: l) = (x + py_sumZ l)%Z.
Proof. unfold py_sumZ at 1. simpl. apply py_sumZ_from. Qed.
(** ** The message log as a suffix of sent messages *)

Lemma coordinator_send_append (message : Message) (e : Env) :
  coordinator_send message e = (Ok tt, append_log [message] e).
Proof. reflexivity. Qed.

Lemma append_log_app (m1 m2 : list Message) (e : Env) :
  append_log m2 (append_log m1 e) = append_log (m1 ++ m2) e.
Proof.
  unfold append_log, with_coordinator, coordinator_log. simpl.
  rewrite <- app_assoc. reflexivity.
Qed.

Lemma append_log_nil (e : Env) : append_log [] e = e.
Proof.
  destruct e as [cid g hs ps [uid [log]] u eff dr pos].
  unfold append_log, with_coordinator, coordinator_log. simpl.
  rewrite app_nil_r. reflexivity.
Qed.

Lemma coordinator_log_append (msgs : list Message) (e : Env) :
  coordinator_log (append_log msgs e) = coordinator_log e ++ msgs.
Proof. reflexivity. Qed.

(** ** Updates of a registry *)

Lemma alter_as_insert {A : Type} (f : A -> A) (l : list A) (i : nat) (x : A) :
  l !! i = Some x -> alter f i l = <[i := f x]> l.
Proof.
  intros Hx. apply list_eq. intros k. destruct (decide (i = k)) as [<-|Hne].
  - rewrite list_lookup_alter_eq, Hx, list_lookup_insert_eq.
    + reflexivity.
    + apply lookup_lt_Some in Hx. exact Hx.
  - rewrite list_lookup_alter_ne, list_lookup_insert_ne by assumption.
    reflexivity.
Qed.

(** ** Invariants of computations *)

Section Preserves.
Context (P : Env -> Prop).

Lemma preserves_ret {A : Type} (a : A) : preserves P (ret a).
Proof. intros e H. exact H. Qed.

Lemma preserves_raise {A : Type} (x : exn) : preserves P (@raise A x).
Proof. intros e H. exact H. Qed.

Lemma preserves_gets {A : Type} (f : Env -> A) : preserves P (gets f).
Proof. intros e H. exact H. Qed.

Lemma preserves_lift {A : Type} (r : result A) : preserves P (lift r).
Proof. intros e H. exact H. Qed.

Lemma preserves_hospital_at (i : nat) : preserves P (hospital_at i).
Proof.
  intros e H. unfold hospital_at. destruct (hospitals e !! i); exact H.
Qed.

Lemma preserves_patient_at (j : nat) : preserves P (patient_at j).
Proof.
  intros e H. unfold patient_at. destruct (patients e !! j); exact H.
Qed.

Lemma preserves_modify (f : Env -> Env) :
  (forall e, P e -> P (f e)) -> preserves P (modify f).
Proof. intros Hf e H. apply Hf, H. Qed.

Lemma preserves_bind {A B : Type} (m : M A) (k : A -> M B) :
  preserves P m -> (forall a, preserves P (k a)) -> preserves P (bind m k).
Proof.
  intros Hm Hk e H. unfold bind.
  specialize (Hm e H). destruct (m e) as [[a|x] e']; simpl in *.
  - apply Hk, Hm.
  - exact Hm.
Qed.

Lemma preserves_for_each {A : Type} (l : list A) (body : A -> M unit) :
  (forall x, preserves P (body x)) -> preserves P (for_each l body).
Proof.
  intros Hbody. induction l as [|x l IH]; simpl.
  - apply preserves_ret.
  - apply preserves_bind; [apply Hbody | intros _; exact IH].
Qed.

Lemma preserves_map_M {A B : Type} (f : A -> M B) (l : list A) :
  (forall x, preserves P (f x)) -> preserves P (map_M f l).
Proof.
  intros Hf. induction l as [|x l IH]; simpl.
  - apply preserves_ret.
  - apply preserves_bind; [apply Hf | intros y].
    apply preserves_bind; [exact IH | intros ys; apply preserves_ret].
Qed.

Lemma preserves_coordinator_send (message : Message) :
  (forall c e, P e -> P (with_coordinator c e)) ->
  preserves P (coordinator_send message).
Proof. intros Hc. apply preserves_modify. intros e H. apply Hc, H. Qed.

Lemma preserves_store_current_resources (i : nat) (v : Q) :
  (forall e, P e ->
     P (with_hospitals (alter (set_current_resources v) i (hospitals e)) e)) ->
  preserves P (store_current_resources i v).
Proof. intros Hs. apply preserves_modify, Hs. Qed.

Lemma preserves_randbelow (n : Z) :
  (forall k e, P e -> P (with_rng_pos k e)) ->
  preserves P (Random.randbelow n).
Proof. intros Hr e H. apply Hr, H. Qed.

Lemma preserves_next_id :
  (forall k e, P e -> P (with_current_id k e)) -> preserves P next_id.
Proof. intros Hr e H. apply Hr, H. Qed.

End Preserves.

(* side conditions "the property does not read the field that is written"
   hold by computation, or by a hypothesis at hand *)
Ltac frame_setter :=
  intros;
  first [ lazymatch goal with H : _ |- _ => exact H end | solve [auto] ].

Ltac preserves_step :=
  first
    [ apply preserves_ret | apply preserves_raise | apply preserves_gets
    | apply preserves_lift | apply preserves_hospital_at
    | apply preserves_patient_at
    | apply preserves_bind; [|intros ?]
    | apply preserves_for_each; intros ?
    | apply preserves_map_M; intros ?
    | apply preserves_coordinator_send; frame_setter
    | apply preserves_store_current_resources; frame_setter
    | apply preserves_randbelow; frame_setter
    | apply preserves_next_id; frame_setter
    | apply preserves_modify; frame_setter ].

Ltac preserves_with leaf :=
  repeat first
    [ leaf
    | preserves_step
    | match goal with
      | |- preserves _ (if ?b then _ else _) => destruct b
      | |- preserves _ (match ?x with _ => _ end) => destruct x
      end ].

(** A property that the three balance-mutating primitives and the field
    updates of the other methods maintain is maintained by every method. *)

Section OperationInvariant.
Context (P : Env -> Prop).
Hypothesis P_send : forall message, preserves P (coordinator_send message).
Hypothesis P_patients : forall ps e, P e -> P (with_patients ps e).
Hypothesis P_rng : forall k e, P e -> P (with_rng_pos k e).
Hypothesis P_unmet : forall u e, P e -> P (with_total_unmet_needs u e).
Hypothesis P_efficiency : forall q e, P e -> P (with_efficiency q e).
Hypothesis P_commit :
  forall i j s, preserves P (Hospital.allocate_resources i j s).
Hypothesis P_replenish : forall i, preserves P (Hospital.process_resources i).
Hypothesis P_transfer : forall s t, preserves P (Coordinator.transfer s t).

Lemma admission_preserves (self patient : nat) (required : Q) :
  preserves P (Hospital.evaluate_patient_admission self patient required).
Proof.
  unfold Hospital.evaluate_patient_admission.
  preserves_with ltac:(apply P_send).
Qed.

Lemma collect_bids_preserves (patient : nat) (required : Q)
    (refs : list nat) :
  preserves P (collect_bids patient required refs).
Proof.
  induction refs as [|i refs IH]; simpl.
  - apply preserves_ret.
  - preserves_with ltac:(first [apply admission_preserves | exact IH]).
Qed.

Lemma allocate_preserves (patient : nat) (bids : list (nat * Q)) :
  preserves P (Coordinator.allocate_resources patient bids).
Proof.
  unfold Coordinator.allocate_resources, Coordinator.bid_key.
  preserves_with ltac:(first [apply P_commit | apply P_send]).
Qed.

Lemma negotiate_preserves (patient : nat) (required : Q) :
  preserves P (negotiate_resource_allocation patient required).
Proof.
  unfold negotiate_resource_allocation.
  preserves_with ltac:(first [apply collect_bids_preserves
                             | apply allocate_preserves]).
Qed.

Lemma rebalance_preserves :
  preserves P Coordinator.coordinate_global_resources.
Proof.
  unfold Coordinator.coordinate_global_resources.
  preserves_with ltac:(apply P_transfer).
Qed.

Lemma metrics_preserves : preserves P update_performance_metrics.
Proof.
  unfold update_performance_metrics.
  preserves_with ltac:(apply preserves_modify; intros e He;
                       first [apply P_unmet | apply P_efficiency]; exact He).
Qed.

Lemma randint_preserves (a b : Z) : preserves P (Random.randint a b).
Proof.
  unfold Random.randint, Random.randrange.
  preserves_with ltac:(apply preserves_randbelow; exact P_rng).
Qed.

Lemma generate_preserves (self : nat) :
  preserves P (Patient.generate_medical_needs self).
Proof.
  unfold Patient.generate_medical_needs.
  preserves_with ltac:(first [ apply negotiate_preserves
                             | apply randint_preserves
                             | apply P_send
                             | apply preserves_modify; intros e He;
                               apply P_patients; exact He ]).
Qed.

Lemma step_preserves : preserves P step.
Proof.
  unfold step.
  preserves_with ltac:(first [ apply generate_preserves
                             | apply P_replenish
                             | apply rebalance_preserves
                             | apply metrics_preserves ]).
Qed.

Lemma perform_preserves (op : operation) : preserves P (perform op).
Proof.
  destruct op; simpl;
    preserves_with ltac:(first [ apply admission_preserves
                               | apply P_commit
                               | apply P_replenish
                               | apply P_transfer
                               | apply rebalance_preserves
                               | apply negotiate_preserves
                               | apply generate_preserves
                               | apply metrics_preserves
                               | apply step_preserves ]).
Qed.

Lemma perform_all_preserves (ops : list operation) (e : Env) :
  P e -> P (perform_all ops e).
Proof.
  revert e. induction ops as [|op ops IH]; intros e H; simpl.
  - exact H.
  - apply IH, perform_preserves, H.
Qed.

End OperationInvariant.

(** ** Provider balances stay non-negative *)

Lemma balances_ok_lookup (e : Env) (i : nat) (h : HospitalAgent) :
  balances_ok e -> hospitals e !! i = Some h -> balance_ok h.
Proof. intros H Hi. exact (proj1 (Forall_lookup _ _) H i h Hi). Qed.

Lemma balances_ok_store (e : Env) (i : nat) (v : Q) :
  balances_ok e -> (0 <= v)%Q ->
  balances_ok
    (with_hospitals (alter (set_current_resources v) i (hospitals e)) e).
Proof.
  intros H Hv. unfold balances_ok. simpl. apply Forall_alter; [exact H|].
  intros h _ [Hi _]. split; [exact Hi | exact Hv].
Qed.

Lemma commit_preserves_balances_ok (self patient : nat) (score : Q) :
  preserves balances_ok (Hospital.allocate_resources self patient score).
Proof.
  intros e H. unfold Hospital.allocate_resources, bind, patient_at, hospital_at.
  destruct (patients e !! patient) as [p|]; [|exact H].
  destruct (hospitals e !! self) as [h|] eqn:Hh; [|exact H].
  destruct (Qle_bool _ _) eqn:Hc; [|exact H].
  simpl. apply Qle_bool_iff in Hc.
  apply (balances_ok_store e); [exact H | lra].
Qed.

Lemma replenish_preserves_balances_ok (self : nat) :
  preserves balances_ok (Hospital.process_resources self).
Proof.
  intros e H. unfold Hospital.process_resources, bind, hospital_at.
  destruct (hospitals e !! self) as [h|] eqn:Hh; [|exact H].
  simpl. apply balances_ok_store; [exact H|].
  destruct (balances_ok_lookup e self h H Hh) as [Hi Hc].
  unfold Hospital.replenished, Hospital.replenishment_rate,
    Hospital.max_growth_factor.
  destruct (py_min_cases (current_resources h * 1.1)
              (initial_resources h * 1.5)) as [[_ ->]|[_ ->]]; lra.
Qed.

Lemma transfer_preserves_balances_ok (source target : nat) :
  preserves balances_ok (Coordinator.transfer source target).
Proof.
  intros e H. unfold Coordinator.transfer, bind, hospital_at.
  destruct (hospitals e !! source) as [s|] eqn:Hs; [|exact H].
  destruct (hospitals e !! target) as [t|] eqn:Ht; [|exact H].
  set (amount := py_min _ _).
  destruct (Qltb 0 amount) eqn:Hpos; [|exact H].
  apply Qltb_true in Hpos.
  assert (Hle : (amount <= current_resources s * 0.1)%Q).
  { subst amount.
    destruct (py_min_cases (current_resources s * 0.1)
                (initial_resources t * 0.2 - current_resources t))
      as [[? ->]|[? ->]]; lra. }
  destruct (balances_ok_lookup e source s H Hs) as [_ Hsc].
  cbn [coordinator_send modify fst snd hospitals with_coordinator].
  rewrite Hs. cbn [store_current_resources modify fst snd].
  set (e1 := with_hospitals _ _).
  assert (H1 : balances_ok e1).
  { subst e1. apply (balances_ok_store (with_coordinator _ e)); [exact H | lra]. }
  destruct (hospitals e1 !! target) as [t'|] eqn:Ht'; [|exact H1].
  cbn [modify fst snd].
  apply balances_ok_store; [exact H1|].
  destruct (balances_ok_lookup e1 target t' H1 Ht') as [_ Htc]. lra.
Qed.

Lemma perform_all_preserves_balances_ok (ops : list operation) (e : Env) :
  balances_ok e -> balances_ok (perform_all ops e).
Proof.
  apply perform_all_preserves.
  - intros message. preserves_step.
  - frame_setter.
  - frame_setter.
  - frame_setter.
  - frame_setter.
  - apply commit_preserves_balances_ok.
  - apply replenish_preserves_balances_ok.
  - apply transfer_preserves_balances_ok.
Qed.

Lemma init_balances_ok (num_hospitals num_patients : Z) (initial : Q)
    (draws : nat -> Z) :
  (0 <= initial)%Q ->
  balances_ok (snd (__init__ num_hospitals num_patients initial (blank draws))).
Proof.
  intros Hinit.
  assert (H : preserves balances_ok
                (__init__ num_hospitals num_patients initial)).
  { unfold __init__, setup_resource_coordinator, setup_hospitals,
      setup_patients, get_hospital_specialization, Random.choice.
    preserves_with ltac:(
      apply preserves_modify; intros e He; unfold balances_ok; simpl;
      apply Forall_app; split; [exact He|];
      apply Forall_cons; split; [split; exact Hinit | apply Forall_nil_2]). }
  apply H. apply Forall_nil_2.
Qed.

(** C1.  In an environment constructed with a non-negative
    [initial_resources], the balance [current_resources] of every hospital
    is non-negative after any sequence of operations: admission
    evaluations, commits, replenishments, single rebalancing transfers,
    whole rebalancing passes, negotiations and whole steps. *)
Theorem balance_never_negative (num_hospitals num_patients : Z) (initial : Q)
    (draws : nat -> Z) (ops : list operation) (h : HospitalAgent) :
  (0 <= initial)%Q ->
  h ∈ hospitals
        (perform_all ops
           (snd (__init__ num_hospitals num_patients initial (blank draws)))) ->
  (0 <= current_resources h)%Q.
Proof.
  intros Hinit Hin.
  pose proof (perform_all_preserves_balances_ok ops _
                (init_balances_ok num_hospitals num_patients initial draws Hinit))
    as Hok.
  exact (proj2 (proj1 (Forall_forall _ _) Hok h Hin)).
Qed.

Lemma balance_never_negative_witness :
  (0 <= current_resources
          {| h_unique_id := 2; specialization := "emergency";
             initial_resources := 1000; current_resources := 11000 # 10 |})%Q.
Proof.
  apply (balance_never_negative 1 0 1000 (fun _ => 0%Z) [OpReplenish 0]).
  - vm_compute. discriminate.
  - vm_compute. apply list_elem_of_here.
Defined.

(** ** Commit *)



(** ** Quote *)

(** C3, amended.  [evaluate_patient_admission] appends exactly one
    ADMISSION_BID message to the coordinator's log and changes nothing
    else, whatever the outcome.  It returns [None] when the balance is
    below the demand.  Otherwise, for a positive demand or on a non-zero
    balance (where the quotient is defined), the
    score is [0.4 * 1.0 + 0.6 * (1 - demand / balance)]; the result is
    [None] when the score is at most 0.5 and the score itself when it is
    above. *)
Theorem quote_score_and_threshold (e : Env) (self patient : nat) (required : Q)
    (h : HospitalAgent) (p : PatientAgent) :
  hospitals e !! self = Some h ->
  patients e !! patient = Some p ->
  let out := Hospital.evaluate_patient_admission self patient required e in
  let score := (0.4 * 1.0 + 0.6 * (1 - required / current_resources h))%Q in
  hospitals (snd out) = hospitals e /\
  patients (snd out) = patients e /\
  global_log (snd out) = global_log e /\
  coordinator_log (snd out) =
    coordinator_log e ++ [bid_message self h (p_unique_id p) required] /\
  ((current_resources h < required)%Q -> fst out = Ok None) /\
  ((required <= current_resources h)%Q ->
   (0 < required)%Q \/ ~ (current_resources h == 0)%Q ->
     ((score <= 0.5)%Q -> fst out = Ok None) /\
     ((0.5 < score)%Q -> fst out = Ok (Some score))).
Proof.
  intros Hh Hp out score.
  assert (Hrun : out =
    (if Qltb (current_resources h) required then Ok None
     else match py_div required (current_resources h) with
          | Raise x => Raise x
          | Ok ratio =>
              let s := (Hospital.specialization_weight * 1.0 +
                        Hospital.resource_efficiency_weight * (1 - ratio))%Q in
              Ok (if Qltb Hospital.admission_threshold s then Some s else None)
          end,
     append_log [bid_message self h (p_unique_id p) required] e)).
  { subst out.
    unfold Hospital.evaluate_patient_admission, bind, patient_at, hospital_at.
    rewrite Hh, Hp. rewrite coordinator_send_append.
    destruct (Qltb (current_resources h) required); [reflexivity|].
    unfold Hospital.calculate_admission_score, lift.
    destruct (py_div required (current_resources h)); reflexivity. }
  rewrite Hrun. cbn [fst snd].
  split; [reflexivity|]. split; [reflexivity|]. split; [reflexivity|].
  split; [reflexivity|]. split.
  - intros Hlt. apply Qltb_true in Hlt. rewrite Hlt. reflexivity.
  - intros Hle Hcase.
    assert (Hnz : ~ (current_resources h == 0)%Q).
    { destruct Hcase as [Hpos|Hnz]; [|exact Hnz]. intros Hz. lra. }
    assert (Hf : Qltb (current_resources h) required = false).
    { apply Qltb_false. exact Hle. }
    rewrite Hf, (py_div_ok _ _ Hnz). cbv zeta.
    change (Hospital.specialization_weight * 1.0 +
            Hospital.resource_efficiency_weight *
              (1 - required / current_resources h))%Q with score.
    change Hospital.admission_threshold with 0.5%Q.
    split; intros Hs.
    + apply Qltb_false in Hs. rewrite Hs. reflexivity.
    + apply Qltb_true in Hs. rewrite Hs. reflexivity.
Qed.

(** C3, as stated, fails for a request of demand 0 on a hospital whose
    balance is 0: the balance is not below the demand, the score divides by
    the balance, and the call raises ZeroDivisionError after the bid
    message was sent. *)
Lemma quote_request_raises_on_zero_balance :
  let h := {| h_unique_id := 2; specialization := "general";
              initial_resources := 100; current_resources := 0 |} in
  let p := {| p_unique_id := 3; severity := "low";
              medical_needs := 0; unmet_needs := 0 |} in
  let out := Hospital.evaluate_patient_admission 0 0 0
               (env_of [h] [p] (fun _ => 0%Z)) in
  fst out = Raise ZeroDivisionError /\
  length (coordinator_log (snd out)) = 1%nat.
Proof. vm_compute. split; reflexivity. Qed.

Lemma quote_score_and_threshold_witness :
  let e := snd (__init__ 1 1 1000 (blank (fun _ => 0%Z))) in
  fst (Hospital.evaluate_patient_admission 0 0 100 e) =
    Ok (Some (0.4 * 1.0 + 0.6 * (1 - 100 / 1000))%Q).
Proof.
  intros e.
  refine (proj2 (proj2 (proj2 (proj2 (proj2 (proj2
            (quote_score_and_threshold e 0 0 100
               {| h_unique_id := 2; specialization := "emergency";
                  initial_resources := 1000; current_resources := 1000 |}
               {| p_unique_id := 3; severity := "low";
                  medical_needs := 0; unmet_needs := 0 |} _ _))))) _ _) _).
  - reflexivity.
  - reflexivity.
  - vm_compute. discriminate.
  - left. vm_compute. reflexivity.
  - vm_compute. reflexivity.
Defined.

(* On a zero balance and a demand that is not above it the quotient is
   undefined: the bid message is sent and the division raises. *)
Lemma quote_on_zero_balance (e : Env) (self patient : nat) (required : Q)
    (h : HospitalAgent) (p : PatientAgent) :
  hospitals e !! self = Some h ->
  patients e !! patient = Some p ->
  (current_resources h == 0)%Q -> (required <= 0)%Q ->
  fst (Hospital.evaluate_patient_admission self patient required e) =
    Raise ZeroDivisionError.
Proof.
  intros Hh Hp Hz Hr.
  unfold Hospital.evaluate_patient_admission, bind, patient_at, hospital_at.
  rewrite Hh, Hp. cbn [coordinator_send modify fst snd].
  assert (Hlt : Qltb (current_resources h) required = false).
  { apply Qltb_false. lra. }
  rewrite Hlt. unfold Hospital.calculate_admission_score, lift.
  rewrite py_div_zero by exact Hz. reflexivity.
Qed.

(** ** Replenishment *)

(** C7, as stated, fails: a hospital with capacity 100 holding 200, a
    non-negative balance above the growth cap of 150, is brought down to
    the cap by [process_resources]. *)
Lemma replenish_lowers_balance_above_cap :
  let h := {| h_unique_id := 2; specialization := "general";
              initial_resources := 100; current_resources := 200 |} in
  let e := env_of [h] [] (fun _ => 0%Z) in
  (0 <= current_resources h)%Q /\
  exists h', hospitals (snd (Hospital.process_resources 0 e)) !! 0 = Some h' /\
             (current_resources h' == 150)%Q /\
             (current_resources h' < current_resources h)%Q.
Proof.
  intros h e. split.
  - vm_compute. discriminate.
  - eexists. split; [vm_compute; reflexivity|]. split; reflexivity.
Qed.

(** C7, amended.  For a hospital whose balance is non-negative and at most
    the growth cap [initial_resources * 1.5], [process_resources] returns
    normally, replaces the balance of that hospital by
    [min(current_resources * 1.1, initial_resources * 1.5)] and that value
    is not below the old balance. *)
Theorem replenish_never_decreases_within_cap (e : Env) (self : nat)
    (h : HospitalAgent) :
  hospitals e !! self = Some h ->
  (0 <= current_resources h)%Q ->
  (current_resources h <= initial_resources h * 1.5)%Q ->
  let out := Hospital.process_resources self e in
  let new_balance :=
    py_min (current_resources h * 1.1)%Q (initial_resources h * 1.5)%Q in
  fst out = Ok tt /\
  hospitals (snd out) =
    <[self := set_current_resources new_balance h]> (hospitals e) /\
  (current_resources h <= new_balance)%Q.
Proof.
  intros Hh Hc Hcap out new_balance. subst out.
  unfold Hospital.process_resources, bind, hospital_at. rewrite Hh.
  split; [reflexivity|]. split.
  - simpl. apply alter_as_insert, Hh.
  - subst new_balance.
    destruct (py_min_cases (current_resources h * 1.1)
                (initial_resources h * 1.5)) as [[_ ->]|[_ ->]]; lra.
Qed.

Lemma replenish_never_decreases_within_cap_witness :
  let h := {| h_unique_id := 2; specialization := "general";
              initial_resources := 100; current_resources := 140 |} in
  (current_resources h <= py_min (current_resources h * 1.1)
                                 (initial_resources h * 1.5))%Q.
Proof.
  intros h.
  refine (proj2 (proj2 (replenish_never_decreases_within_cap
            (env_of [h] [] (fun _ => 0%Z)) 0 h _ _ _))).
  - reflexivity.
  - vm_compute. discriminate.
  - vm_compute. discriminate.
Defined.

(** ** Aggregate metrics *)

Lemma total_resources_nonneg (e : Env) :
  balances_ok e -> (0 <= total_resources e)%Q.
Proof.
  intros H. apply py_sum_nonneg. apply Forall_map.
  eapply Forall_impl; [exact H|]. intros h [_ Hc]. exact Hc.
Qed.

Lemma total_unmet_demand_sum (ps : list PatientAgent) :
  py_sumZ (map unmet_needs ps) = total_unmet_demand ps.
Proof.
  induction ps as [|p ps IH]; [reflexivity|].
  simpl map. rewrite py_sumZ_cons, IH. reflexivity.
Qed.

Lemma total_provider_balance_sum (hs : list HospitalAgent) :
  (py_sum (map current_resources hs) == total_provider_balance hs)%Q.
Proof.
  induction hs as [|h hs IH]; [reflexivity|].
  simpl map. rewrite py_sum_cons, IH. reflexivity.
Qed.

(** C9.  [update_performance_metrics] stores the sum of the patients'
    unmet needs and, when the denominator is non-zero, the quotient
    [(total - unmet) / (total + 1)] where [total] is the sum of the
    hospitals' balances; the registries are left alone.  With no
    hospitals, or with total balance zero, the denominator is 1, so the
    call returns normally and the metric is [-unmet]; the same holds
    whenever no balance is negative.  Only a total of -1 makes the
    division fail. *)
Theorem efficiency_formula_and_guard (e : Env) :
  let unmet := py_sumZ (map unmet_needs (patients e)) in
  let total := py_sum (map current_resources (hospitals e)) in
  let demand := total_unmet_demand (patients e) in
  let balance := total_provider_balance (hospitals e) in
  let out := update_performance_metrics e in
  unmet = demand /\ (total == balance)%Q /\
  (~ (balance + 1 == 0)%Q ->
     fst out = Ok tt /\
     total_unmet_needs (snd out) = demand /\
     (resource_allocation_efficiency (snd out) ==
      (balance - inject_Z demand) / (balance + 1))%Q /\
     resource_allocation_efficiency (snd out) =
       ((total - inject_Z unmet) / (total + 1))%Q /\
     hospitals (snd out) = hospitals e /\
     patients (snd out) = patients e) /\
  (hospitals e = [] \/ (balance == 0)%Q ->
     (balance + 1 == 1)%Q /\ fst out = Ok tt /\
     (resource_allocation_efficiency (snd out) == - inject_Z demand)%Q) /\
  (balances_ok e -> fst out = Ok tt) /\
  ((balance + 1 == 0)%Q -> fst out = Raise ZeroDivisionError).
Proof.
  intros unmet total demand balance out.
  assert (Hunmet : unmet = demand) by apply total_unmet_demand_sum.
  assert (Htotal : (total == balance)%Q) by apply total_provider_balance_sum.
  split; [exact Hunmet|]. split; [exact Htotal|].
  assert (Hgen : ~ (balance + 1 == 0)%Q ->
     fst out = Ok tt /\
     total_unmet_needs (snd out) = demand /\
     (resource_allocation_efficiency (snd out) ==
      (balance - inject_Z demand) / (balance + 1))%Q /\
     resource_allocation_efficiency (snd out) =
       ((total - inject_Z unmet) / (total + 1))%Q /\
     hospitals (snd out) = hospitals e /\
     patients (snd out) = patients e).
  { intros Hnz.
    assert (Hnz' : ~ (total + 1 == 0)%Q) by (rewrite Htotal; exact Hnz).
    subst out.
    unfold update_performance_metrics, bind, gets, modify, lift.
    cbn [fst snd hospitals patients with_total_unmet_needs].
    fold unmet. fold total. rewrite (py_div_ok _ _ Hnz').
    cbn [fst snd hospitals patients total_unmet_needs
         resource_allocation_efficiency with_total_unmet_needs
         with_efficiency].
    split; [reflexivity|]. split; [exact Hunmet|].
    split; [rewrite Htotal, Hunmet; reflexivity|].
    repeat split. }
  split; [exact Hgen|]. split; [|split].
  - intros Hz.
    assert (Ht : (balance == 0)%Q).
    { destruct Hz as [Hnil|Hz]; [|exact Hz].
      subst balance. rewrite Hnil. reflexivity. }
    assert (Hnz : ~ (balance + 1 == 0)%Q) by (rewrite Ht; discriminate).
    destruct (Hgen Hnz) as (Hok & _ & Heff & _).
    split; [rewrite Ht; reflexivity|]. split; [exact Hok|].
    rewrite Heff, Ht. field.
  - intros Hok. apply Hgen.
    pose proof (total_resources_nonneg e Hok) as Hpos.
    unfold total_resources in Hpos. fold total in Hpos. lra.
  - intros Hz.
    assert (Hz' : (total + 1 == 0)%Q) by (rewrite Htotal; exact Hz).
    subst out.
    unfold update_performance_metrics, bind, gets, modify, lift.
    cbn [fst snd hospitals patients with_total_unmet_needs].
    fold unmet. fold total. rewrite (py_div_zero _ _ Hz'). reflexivity.
Qed.

Lemma efficiency_formula_and_guard_witness :
  let hs := [{| h_unique_id := 2; specialization := "general";
                initial_resources := 100; current_resources := 100 |};
             {| h_unique_id := 3; specialization := "surgical";
                initial_resources := 100; current_resources := 50 |}] in
  let ps := [{| p_unique_id := 4; severity := "medium";
                medical_needs := 30; unmet_needs := 30 |};
             {| p_unique_id := 5; severity := "low";
                medical_needs := 10; unmet_needs := 0 |}] in
  let out := update_performance_metrics (env_of hs ps (fun _ => 0%Z)) in
  fst out = Ok tt /\
  total_unmet_needs (snd out) = 30%Z /\
  (resource_allocation_efficiency (snd out) == 120 # 151)%Q.
Proof.
  intros hs ps out.
  destruct (proj1 (proj2 (proj2 (efficiency_formula_and_guard
                     (env_of hs ps (fun _ => 0%Z))))))
    as (Hok & Hunmet & Heff & _).
  - vm_compute. discriminate.
  - split; [exact Hok|]. split; [exact Hunmet|].
    etransitivity; [exact Heff|]. vm_compute. reflexivity.
Defined.

(** ** Demand generation *)

Lemma severity_resource_ranges_cases (s : string) :
  Patient.severity_resource_ranges s = (5, 20)%Z \/
  Patient.severity_resource_ranges s = (20, 100)%Z \/
  Patient.severity_resource_ranges s = (100, 200)%Z \/
  Patient.severity_resource_ranges s = (10, 50)%Z.
Proof.
  unfold Patient.severity_resource_ranges.
  destruct (String.eqb s "low"); [auto|].
  destruct (String.eqb s "medium"); [auto|].
  destruct (String.eqb s "high"); auto.
Qed.

Lemma randint_value (a b : Z) (e : Env) :
  (a <= b)%Z ->
  Random.randint a b e =
    (Ok (a + rng_draws e (rng_pos e) mod (b + 1 - a))%Z,
     with_rng_pos (S (rng_pos e)) e).
Proof.
  intros Hab. unfold Random.randint, Random.randrange.
  destruct (0 <? b + 1 - a)%Z eqn:Hw.
  - reflexivity.
  - apply Z.ltb_ge in Hw. lia.
Qed.

Lemma next_demand_bounds (e : Env) (s : string) :
  let '(min_need, max_need) := Patient.severity_resource_ranges s in
  (min_need <= next_demand e s <= max_need)%Z.
Proof.
  unfold next_demand.
  destruct (severity_resource_ranges_cases s) as [H|[H|[H|H]]]; rewrite H;
    match goal with
    | |- (_ <= _ + ?x mod ?n <= _)%Z =>
        pose proof (Z.mod_pos_bound x n ltac:(lia)); lia
    end.
Qed.

Lemma negotiate_keeps_patients (patient : nat) (required : Q) (e : Env) :
  patients (snd (negotiate_resource_allocation patient required e)) =
  patients e.
Proof.
  apply (negotiate_preserves (fun e' => patients e' = patients e)).
  - intros message. preserves_step.
  - intros i j s. unfold Hospital.allocate_resources. preserves_with fail.
  - reflexivity.
Qed.

(* The patient after [generate_medical_needs]: the demand is the value
   drawn, whatever the negotiation does. *)
Lemma generate_sets_needs (e : Env) (self : nat) (p : PatientAgent) :
  patients e !! self = Some p ->
  exists p',
    patients (snd (Patient.generate_medical_needs self e)) !! self = Some p' /\
    severity p' = severity p /\
    p_unique_id p' = p_unique_id p /\
    medical_needs p' = next_demand e (severity p).
Proof.
  intros Hp. unfold Patient.generate_medical_needs, next_demand.
  unfold bind at 1. unfold patient_at at 1. rewrite Hp.
  pose proof (next_demand_bounds e (severity p)) as Hb.
  unfold next_demand in Hb.
  destruct (Patient.severity_resource_ranges (severity p)) as [lo hi].
  unfold bind at 1. rewrite randint_value by lia.
  set (needs := (lo + _ mod _)%Z) in *.
  unfold bind at 1. cbn [modify fst snd].
  unfold bind at 1. cbn [coordinator_send modify fst snd].
  set (e1 := with_coordinator _ _).
  assert (Hp1 : patients e1 !! self = Some (set_medical_needs needs p)).
  { subst e1. cbn [patients with_coordinator with_patients with_rng_pos].
    rewrite list_lookup_alter_eq, Hp. reflexivity. }
  unfold bind at 1.
  pose proof (negotiate_keeps_patients self (inject_Z needs) e1) as Hkeep.
  destruct (negotiate_resource_allocation self (inject_Z needs) e1)
    as [[outcome|x] e2]; cbn [snd] in Hkeep.
  - unfold bind, patient_at. rewrite Hkeep, Hp1.
    cbn [modify fst snd patients with_patients].
    rewrite list_lookup_alter_eq, Hkeep, Hp1.
    eexists. split; [reflexivity|]. repeat split.
  - cbn [snd]. rewrite Hkeep, Hp1. eexists. split; [reflexivity|].
    repeat split.
Qed.

(** C8, as stated, fails at the upper endpoints: [random.randint(5, 20)]
    may return 20, and then a patient of severity low has demand 20. *)
Lemma low_severity_demand_can_be_20 :
  let e := env_of [] [Patient.__init__ 1 "low"] (fun _ => 15%Z) in
  exists p',
    patients (snd (Patient.generate_medical_needs 0 e)) !! 0 = Some p' /\
    severity p' = "low"%string /\
    medical_needs p' = 20%Z /\
    ~ (5 <= medical_needs p' < 20)%Z.
Proof.
  intros e. eexists. split; [vm_compute; reflexivity|].
  split; [reflexivity|]. split; [reflexivity|]. simpl. lia.
Qed.

(** C8, amended.  After [generate_medical_needs] the patient's demand lies
    in the closed range of its severity: 5 to 20 for low, 20 to 100 for
    medium, 100 to 200 for high, both endpoints included. *)
Theorem generated_demand_in_closed_range (e : Env) (self : nat)
    (p : PatientAgent) :
  patients e !! self = Some p ->
  exists p',
    patients (snd (Patient.generate_medical_needs self e)) !! self = Some p' /\
    severity p' = severity p /\
    (severity p = "low"%string -> (5 <= medical_needs p' <= 20)%Z) /\
    (severity p = "medium"%string -> (20 <= medical_needs p' <= 100)%Z) /\
    (severity p = "high"%string -> (100 <= medical_needs p' <= 200)%Z).
Proof.
  intros Hp. destruct (generate_sets_needs e self p Hp) as (p' & Hp' & Hs & _ & Hn).
  exists p'. split; [exact Hp'|]. split; [exact Hs|].
  pose proof (next_demand_bounds e (severity p)) as Hb. rewrite <- Hn in Hb.
  split; [|split]; intros Hsev; rewrite Hsev in Hb; simpl in Hb; lia.
Qed.

Lemma generated_demand_in_closed_range_witness :
  let e := env_of [] [Patient.__init__ 1 "high"] (fun _ => 7%Z) in
  exists p',
    patients (snd (Patient.generate_medical_needs 0 e)) !! 0 = Some p' /\
    (100 <= medical_needs p' <= 200)%Z.
Proof.
  intros e.
  destruct (generated_demand_in_closed_range e 0 (Patient.__init__ 1 "high")
              eq_refl) as (p' & Hp' & _ & _ & _ & Hhigh).
  exists p'. split; [exact Hp' | apply Hhigh; reflexivity].
Defined.

(** ** Negotiation without a bid *)

Lemma admission_rejects_low_balance (e : Env) (self patient : nat)
    (required : Q) (h : HospitalAgent) (p : PatientAgent) :
  hospitals e !! self = Some h ->
  patients e !! patient = Some p ->
  (current_resources h < required)%Q ->
  Hospital.evaluate_patient_admission self patient required e =
    (Ok None, append_log [bid_message self h (p_unique_id p) required] e).
Proof.
  intros Hh Hp Hlt.
  unfold Hospital.evaluate_patient_admission, bind, patient_at, hospital_at.
  rewrite Hh, Hp. cbn [coordinator_send modify fst snd].
  apply Qltb_true in Hlt. rewrite Hlt. reflexivity.
Qed.

Lemma collect_bids_all_reject (patient : nat) (p : PatientAgent) (required : Q)
    (refs : list nat) (e : Env) :
  patients e !! patient = Some p ->
  (forall i, i ∈ refs ->
     exists h, hospitals e !! i = Some h /\ (current_resources h < required)%Q) ->
  collect_bids patient required refs e =
    (Ok [], append_log
              (bid_messages (hospitals e) (p_unique_id p) required refs) e).
Proof.
  revert e. induction refs as [|i refs IH]; intros e Hp Hall; simpl.
  - rewrite append_log_nil. reflexivity.
  - destruct (Hall i) as (h & Hh & Hlt); [apply list_elem_of_here|].
    unfold bind at 1.
    rewrite (admission_rejects_low_balance e i patient required h p Hh Hp Hlt).
    unfold bind at 1.
    rewrite (IH (append_log [bid_message i h (p_unique_id p) required] e)).
    + cbn [ret]. rewrite append_log_app. unfold bid_messages. simpl.
      rewrite Hh. reflexivity.
    + exact Hp.
    + intros k Hk. apply Hall. apply list_elem_of_further, Hk.
Qed.

Lemma negotiate_without_bids (e : Env) (patient : nat) (p : PatientAgent)
    (required : Q) :
  patients e !! patient = Some p ->
  Forall (fun h => (current_resources h < required)%Q) (hospitals e) ->
  negotiate_resource_allocation patient required e =
    (Ok None,
     append_log
       (bid_messages (hospitals e) (p_unique_id p) required
          (seq 0 (length (hospitals e))) ++
        [unavailable_message (p_unique_id p)]) e).
Proof.
  intros Hp Hall. unfold negotiate_resource_allocation.
  unfold bind at 1. cbn [gets fst snd]. unfold bind at 1.
  rewrite (collect_bids_all_reject patient p required _ e Hp).
  - unfold Coordinator.allocate_resources, bind, patient_at. simpl patients.
    rewrite Hp. rewrite coordinator_send_append. cbn [ret].
    rewrite append_log_app. reflexivity.
  - intros i Hi. apply elem_of_seq in Hi.
    destruct (lookup_lt_is_Some_2 (hospitals e) i) as [h Hh]; [lia|].
    exists h. split; [exact Hh|].
    exact (proj1 (Forall_lookup _ _) Hall i h Hh).
Qed.

(** C5.  When every hospital's balance is strictly below the demand, every
    admission evaluation is rejected, so the bid list is empty; the
    negotiation then returns [None] after the ADMISSION_BID messages and a
    final RESOURCE_UNAVAILABLE broadcast, and changes nothing but the log.
    For [generate_medical_needs] with the demand it draws: the call returns
    normally, no hospital changes, and the patient ends with
    [unmet_needs = medical_needs], the drawn demand. *)
Theorem no_bid_negotiation_fails (e : Env) (self : nat) (p : PatientAgent) :
  patients e !! self = Some p ->
  (forall required,
     Forall (fun h => (current_resources h < required)%Q) (hospitals e) ->
     let polled := seq 0 (length (hospitals e)) in
     let out := negotiate_resource_allocation self required e in
     collect_bids self required polled e =
       (Ok [], append_log
                 (bid_messages (hospitals e) (p_unique_id p) required polled) e) /\
     fst out = Ok None /\
     hospitals (snd out) = hospitals e /\
     patients (snd out) = patients e /\
     coordinator_log (snd out) =
       coordinator_log e ++
       bid_messages (hospitals e) (p_unique_id p) required polled ++
       [unavailable_message (p_unique_id p)]) /\
  (let demand := next_demand e (severity p) in
   Forall (fun h => (current_resources h < inject_Z demand)%Q) (hospitals e) ->
   let out := Patient.generate_medical_needs self e in
   fst out = Ok tt /\
   hospitals (snd out) = hospitals e /\
   (exists p', patients (snd out) !! self = Some p' /\
               medical_needs p' = demand /\
               unmet_needs p' = medical_needs p') /\
   coordinator_log (snd out) =
     coordinator_log e ++
     [needs_message self (severity p) demand] ++
     bid_messages (hospitals e) (p_unique_id p) (inject_Z demand)
       (seq 0 (length (hospitals e))) ++
     [unavailable_message (p_unique_id p)]).
Proof.
  intros Hp. split.
  - intros required Hall polled out. split.
    + apply collect_bids_all_reject; [exact Hp|].
      intros i Hi. apply elem_of_seq in Hi.
      destruct (lookup_lt_is_Some_2 (hospitals e) i) as [h Hh]; [lia|].
      exists h. split; [exact Hh|].
      exact (proj1 (Forall_lookup _ _) Hall i h Hh).
    + subst out. rewrite (negotiate_without_bids e self p required Hp Hall).
      repeat split.
  - intros demand Hall out.
    assert (Hrun : exists e',
      out = (Ok tt, e') /\
      hospitals e' = hospitals e /\
      patients e' !! self =
        Some (set_unmet_needs demand (set_medical_needs demand p)) /\
      coordinator_log e' =
        (coordinator_log e ++ [needs_message self (severity p) demand]) ++
        bid_messages (hospitals e) (p_unique_id p) (inject_Z demand)
          (seq 0 (length (hospitals e))) ++
        [unavailable_message (p_unique_id p)]).
    { subst out. unfold Patient.generate_medical_needs.
      unfold bind at 1. unfold patient_at at 1. rewrite Hp.
      pose proof (next_demand_bounds e (severity p)) as Hb.
      unfold next_demand in demand, Hb.
      destruct (Patient.severity_resource_ranges (severity p)) as [lo hi].
      unfold bind at 1. rewrite randint_value by lia. fold demand.
      unfold bind at 1. cbn [modify fst snd].
      unfold bind at 1. rewrite coordinator_send_append.
      set (e1 := append_log _ _).
      assert (Hp1 : patients e1 !! self = Some (set_medical_needs demand p)).
      { subst e1. cbn [patients append_log with_coordinator with_patients].
        rewrite list_lookup_alter_eq. cbn [patients with_rng_pos].
        rewrite Hp. reflexivity. }
      unfold bind at 1.
      rewrite (negotiate_without_bids e1 self _ (inject_Z demand) Hp1 Hall).
      set (e2 := append_log _ e1).
      unfold bind, patient_at.
      change (patients e2) with (patients e1). rewrite Hp1.
      cbn [modify fst snd Patient.truthy].
      eexists. split; [reflexivity|]. split; [reflexivity|]. split.
      - cbn [patients with_patients]. change (patients e2) with (patients e1).
        rewrite list_lookup_alter_eq, Hp1. reflexivity.
      - reflexivity. }
    destruct Hrun as (e' & -> & Hhs & Hp' & Hlog). cbn [fst snd].
    split; [reflexivity|]. split; [exact Hhs|]. split.
    + eexists. split; [exact Hp'|]. split; reflexivity.
    + rewrite Hlog, <- app_assoc. reflexivity.
Qed.

Lemma no_bid_negotiation_fails_witness :
  let hs := [Hospital.__init__ 2 "general" 100;
             Hospital.__init__ 3 "surgical" 100] in
  let e := env_of hs [Patient.__init__ 4 "high"] (fun _ => 50%Z) in
  fst (Patient.generate_medical_needs 0 e) = Ok tt /\
  exists p', patients (snd (Patient.generate_medical_needs 0 e)) !! 0 = Some p' /\
             medical_needs p' = 150%Z /\ unmet_needs p' = medical_needs p'.
Proof.
  intros hs e.
  destruct (proj2 (no_bid_negotiation_fails e 0 (Patient.__init__ 4 "high")
                     eq_refl)) as (Hok & _ & Hp' & _).
  - repeat constructor.
  - split; [exact Hok|]. exact Hp'.
Defined.

(** ** Ranking of bids *)

Lemma insert_sorted_elem {A : Type} (before : Q -> Q -> bool)
    (x y : Q * A) (l : list (Q * A)) :
  y ∈ insert_sorted before x l -> y = x \/ y ∈ l.
Proof.
  induction l as [|z l IH]; simpl.
  - intros H. apply list_elem_of_singleton in H. left. exact H.
  - destruct (before (fst x) (fst z)).
    + intros H. apply elem_of_cons in H. exact H.
    + intros H. apply elem_of_cons in H. destruct H as [->|H].
      * right. apply list_elem_of_here.
      * destruct (IH H) as [->|Hl]; [left; reflexivity|].
        right. apply list_elem_of_further, Hl.
Qed.

Lemma sorted_keyed_elem {A : Type} (keyed : list (Q * A)) (reverse : bool)
    (y : Q * A) :
  y ∈ sorted_keyed keyed reverse -> y ∈ keyed.
Proof.
  unfold sorted_keyed. induction keyed as [|x keyed IH]; simpl.
  - intros H. exact H.
  - intros H. apply insert_sorted_elem in H. destruct H as [->|H].
    + apply list_elem_of_here.
    + apply list_elem_of_further, IH, H.
Qed.

(* [sorted] is stable in both directions: the elements of any one key keep
   their original order. *)
Lemma insert_sorted_stable {A : Type} (reverse : bool) (q : Q) (x : Q * A)
    (s : list (Q * A)) :
  List.filter (fun y => Qeq_bool (fst y) q)
    (insert_sorted (key_before reverse) x s) =
  if Qeq_bool (fst x) q
  then x :: List.filter (fun y => Qeq_bool (fst y) q) s
  else List.filter (fun y => Qeq_bool (fst y) q) s.
Proof.
  induction s as [|z s IH]; simpl.
  - destruct (Qeq_bool (fst x) q); reflexivity.
  - destruct (key_before reverse (fst x) (fst z)) eqn:Hb; simpl.
    + destruct (Qeq_bool (fst x) q); reflexivity.
    + rewrite IH.
      destruct (Qeq_bool (fst z) q) eqn:Hz; [|reflexivity].
      destruct (Qeq_bool (fst x) q) eqn:Hx; [|reflexivity].
      exfalso. apply Qeq_bool_iff in Hz, Hx.
      assert (Hle : key_before reverse (fst x) (fst z) = true).
      { unfold key_before. destruct reverse; apply Qle_bool_iff; lra. }
      congruence.
Qed.

Lemma sorted_keyed_stable {A : Type} (reverse : bool) (q : Q)
    (keyed : list (Q * A)) :
  List.filter (fun y => Qeq_bool (fst y) q) (sorted_keyed keyed reverse) =
  List.filter (fun y => Qeq_bool (fst y) q) keyed.
Proof.
  unfold sorted_keyed. induction keyed as [|x keyed IH]; simpl.
  - reflexivity.
  - rewrite insert_sorted_stable, IH. reflexivity.
Qed.

Lemma insert_sorted_descending {A : Type} (x : Q * A) (s : list (Q * A)) :
  StronglySorted (fun a b => (fst b <= fst a)%Q) s ->
  StronglySorted (fun a b => (fst b <= fst a)%Q)
    (insert_sorted (key_before true) x s).
Proof.
  induction 1 as [|z s Hs IH Hz]; simpl.
  - repeat constructor.
  - destruct (Qle_bool (fst z) (fst x)) eqn:Hc.
    + apply Qle_bool_iff in Hc. constructor.
      * constructor; assumption.
      * constructor; [exact Hc|].
        eapply Forall_impl; [exact Hz|]. simpl. intros y Hy. lra.
    + apply Qle_bool_false in Hc. constructor; [exact IH|].
      apply List.Forall_forall. intros y Hy.
      apply (proj2 (list_elem_of_In _ _)), insert_sorted_elem in Hy.
      destruct Hy as [->|Hy]; [lra|].
      exact (proj1 (List.Forall_forall _ _) Hz y
               (proj1 (list_elem_of_In _ _) Hy)).
Qed.

Lemma sorted_keyed_descending {A : Type} (keyed : list (Q * A)) :
  StronglySorted (fun a b => (fst b <= fst a)%Q) (sorted_keyed keyed true).
Proof.
  unfold sorted_keyed. induction keyed as [|x keyed IH]; simpl.
  - constructor.
  - apply insert_sorted_descending, IH.
Qed.

Section SortedHead.
Context {A : Type} (key : A -> Q).

Lemma insert_sorted_head (before : Q -> Q -> bool) (x y : Q * A)
    (s : list (Q * A)) :
  exists rest,
    insert_sorted before x (y :: s) =
      (if before (fst x) (fst y) then x else y) :: rest.
Proof.
  simpl. destruct (before (fst x) (fst y)); eexists; reflexivity.
Qed.

(* With [reverse=True] the head of the sorted list is the first element
   of maximal key. *)
Lemma sorted_reverse_head (x : A) (l : list A) :
  exists k w rest,
    (x :: l) !! k = Some w /\
    sorted_keyed (map (fun b => (key b, b)) (x :: l)) true =
      (key w, w) :: rest /\
    (forall k' b, (x :: l) !! k' = Some b -> (key b <= key w)%Q) /\
    (forall k' b, (k' < k)%nat -> (x :: l) !! k' = Some b ->
                  (key b < key w)%Q).
Proof.
  revert x. induction l as [|y l IH]; intros x.
  - exists 0%nat, x, []. split; [reflexivity|]. split; [reflexivity|]. split.
    + intros [|k'] b Hb; [|discriminate]. injection Hb as <-. lra.
    + intros k' b Hlt. lia.
  - destruct (IH y) as (k & w & rest & Hk & Hs & Hmax & Hfirst).
    change (sorted_keyed (map (fun b => (key b, b)) (x :: y :: l)) true)
      with (insert_sorted (key_before true) (key x, x)
              (sorted_keyed (map (fun b => (key b, b)) (y :: l)) true)).
    rewrite Hs.
    destruct (insert_sorted_head (key_before true) (key x, x) (key w, w) rest)
      as [rest' ->].
    cbn [fst key_before].
    destruct (Qle_bool (key w) (key x)) eqn:Hc.
    + apply Qle_bool_iff in Hc.
      exists 0%nat, x, rest'. split; [reflexivity|]. split; [reflexivity|].
      split.
      * intros [|k'] b Hb.
        -- injection Hb as <-. lra.
        -- specialize (Hmax k' b Hb). lra.
      * intros k' b Hlt. lia.
    + apply Qle_bool_false in Hc.
      exists (S k), w, rest'. split; [exact Hk|]. split; [reflexivity|].
      split.
      * intros [|k'] b Hb.
        -- injection Hb as <-. lra.
        -- exact (Hmax k' b Hb).
      * intros [|k'] b Hlt Hb.
        -- injection Hb as <-. exact Hc.
        -- apply (Hfirst k' b); [lia | exact Hb].
Qed.

End SortedHead.

Lemma severity_score_values (p : PatientAgent) :
  (severity p = "low"%string -> Coordinator.severity_score p = 0.2%Q) /\
  (severity p = "medium"%string -> Coordinator.severity_score p = 0.5%Q) /\
  (severity p = "high"%string -> Coordinator.severity_score p = 1.0%Q).
Proof.
  unfold Coordinator.severity_score.
  split; [|split]; intros ->; reflexivity.
Qed.

(* the keys that [sorted] computes are the ranks *)
Lemma bid_keys_are_ranks (e : Env) (patient : nat) (p : PatientAgent)
    (bids : list (nat * Q)) :
  patients e !! patient = Some p ->
  Forall (fun b => exists h, hospitals e !! fst b = Some h /\
                             ~ (initial_resources h == 0)%Q) bids ->
  map_M (Coordinator.bid_key patient) bids e =
    (Ok (map (fun b => (rank (hospitals e) p b, b)) bids), e).
Proof.
  intros Hp Hall. induction Hall as [|b bids (h & Hh & Hnz) _ IH]; simpl.
  - reflexivity.
  - unfold bind at 1.
    assert (Hkey : Coordinator.bid_key patient b e =
                     (Ok (rank (hospitals e) p b, b), e)).
    { unfold Coordinator.bid_key, bind, hospital_at, patient_at, lift, rank.
      rewrite Hh, Hp.
      unfold Coordinator.evaluate_bid, Coordinator.capacity_score.
      rewrite py_div_ok by exact Hnz. reflexivity. }
    rewrite Hkey. unfold bind at 1. rewrite IH. reflexivity.
Qed.

(* The bids reach the coordinator in the order in which the hospitals were
   polled, which is the order of the registry. *)
Lemma collect_bids_in_polling_order (patient : nat) (required : Q)
    (refs : list nat) (e : Env) (bids : list (nat * Q)) (e' : Env) :
  collect_bids patient required refs e = (Ok bids, e') ->
  sublist (map fst bids) refs.
Proof.
  revert e bids e'. induction refs as [|i refs IH]; intros e bids e' H.
  - injection H as <- _. constructor.
  - simpl in H. unfold bind at 1 in H.
    destruct (Hospital.evaluate_patient_admission i patient required e)
      as [[bid|x] e1]; [|discriminate].
    unfold bind at 1 in H.
    destruct (collect_bids patient required refs e1) as [[rest|x] e2] eqn:Hrest;
      [|discriminate].
    injection H as <- _. specialize (IH _ _ _ Hrest).
    destruct bid; simpl; [apply sublist_skip | apply sublist_cons]; exact IH.
Qed.

(** ** Comparison of binary64 numbers

    [<=] on the numbers that are not NaN is reflexive, transitive and
    total; the facts are read off the specification of the comparison. *)

Lemma SFcompare_refl (f : spec_float) :
  f <> S754_nan -> SFcompare f f = Some Eq.
Proof.
  destruct f as [s|s| |s m e]; intros H; try congruence; simpl.
  - reflexivity.
  - destruct s; reflexivity.
  - destruct s; rewrite Z.compare_refl, Pos.compare_cont_refl; reflexivity.
Qed.

Lemma SFleb_total (f g : spec_float) :
  f <> S754_nan -> g <> S754_nan -> SFleb f g = false -> SFltb g f = true.
Proof.
  unfold SFleb, SFltb.
  destruct f as [s|s| |s m e], g as [s'|s'| |s' m' e']; intros Hf Hg;
    try congruence; simpl;
    try (destruct s); try (destruct s'); try discriminate; try reflexivity.
  all: change (Pos.compare_cont Eq ?a ?b) with (a ?= b)%positive.
  all: destruct (Z.compare_spec e e'), (Z.compare_spec e' e);
         try discriminate; try reflexivity; try lia; subst;
       destruct (Pos.compare_spec m m'), (Pos.compare_spec m' m); simpl;
         try discriminate; try reflexivity; try lia.
Qed.

Lemma SFleb_trans (f g h : spec_float) :
  SFleb f g = true -> SFleb g h = true -> SFleb f h = true.
Proof.
  unfold SFleb.
  destruct f as [s|s| |s m e], g as [s'|s'| |s' m' e'],
           h as [s''|s''| |s'' m'' e'']; simpl;
    try discriminate; try reflexivity;
    try (destruct s); try (destruct s'); try (destruct s'');
    try discriminate; try reflexivity.
  all: change (Pos.compare_cont Eq ?a ?b) with (a ?= b)%positive.
  all: destruct (Z.compare_spec e e'), (Z.compare_spec e' e''),
         (Z.compare_spec e e''); try discriminate; try reflexivity; try lia;
       subst;
       destruct (Pos.compare_spec m m'), (Pos.compare_spec m' m''),
         (Pos.compare_spec m m''); simpl; try discriminate; try reflexivity;
       try lia.
Qed.

Lemma not_nan_spec (x : float) :
  PrimFloat.is_nan x = false -> Prim2SF x <> S754_nan.
Proof.
  unfold PrimFloat.is_nan. rewrite FloatAxioms.eqb_spec. intros H Hnan.
  rewrite Hnan in H. discriminate.
Qed.

Lemma leb_b64_refl (x : float) :
  PrimFloat.is_nan x = false -> PrimFloat.leb x x = true.
Proof.
  intros H. rewrite FloatAxioms.leb_spec. unfold SFleb.
  rewrite SFcompare_refl by (apply not_nan_spec, H). reflexivity.
Qed.

Lemma leb_b64_trans (x y z : float) :
  PrimFloat.leb x y = true -> PrimFloat.leb y z = true ->
  PrimFloat.leb x z = true.
Proof. rewrite !FloatAxioms.leb_spec. apply SFleb_trans. Qed.

Lemma leb_b64_total (x y : float) :
  PrimFloat.is_nan x = false -> PrimFloat.is_nan y = false ->
  PrimFloat.leb x y = false -> PrimFloat.ltb y x = true.
Proof.
  intros Hx Hy. rewrite FloatAxioms.leb_spec, FloatAxioms.ltb_spec.
  apply SFleb_total; apply not_nan_spec; assumption.
Qed.

Lemma ltb_b64_leb (x y : float) :
  PrimFloat.ltb x y = true -> PrimFloat.leb x y = true.
Proof.
  rewrite FloatAxioms.leb_spec, FloatAxioms.ltb_spec. unfold SFleb, SFltb.
  destruct (SFcompare _ _) as [[]|]; congruence.
Qed.

(** ** The head of a descending stable sort of binary64 keys *)

Section SortedHeadB64.
Context {A : Type} (key : A -> float).

Lemma sorted_b64_reverse_head (x : A) (l : list A) :
  Forall (fun b => PrimFloat.is_nan (key b) = false) (x :: l) ->
  exists k w,
    (x :: l) !! k = Some w /\
    hd x (sorted_b64 (map (fun b => (key b, b)) (x :: l)) true) = w /\
    (forall k' b, (x :: l) !! k' = Some b ->
                  PrimFloat.leb (key b) (key w) = true) /\
    (forall k' b, (k' < k)%nat -> (x :: l) !! k' = Some b ->
                  PrimFloat.ltb (key b) (key w) = true).
Proof.
  intros Hnum.
  assert (Hgen : exists k w rest,
    (x :: l) !! k = Some w /\
    foldr (insert_sorted_b64 (fun kx ky => PrimFloat.leb ky kx)) []
      (map (fun b => (key b, b)) (x :: l)) = (key w, w) :: rest /\
    (forall k' b, (x :: l) !! k' = Some b ->
                  PrimFloat.leb (key b) (key w) = true) /\
    (forall k' b, (k' < k)%nat -> (x :: l) !! k' = Some b ->
                  PrimFloat.ltb (key b) (key w) = true)).
  { revert x Hnum. induction l as [|y l IH]; intros x Hnum.
    - apply Forall_cons in Hnum. destruct Hnum as [Hx _].
      exists 0%nat, x, []. split; [reflexivity|]. split; [reflexivity|].
      split.
      + intros [|k'] b Hb; [|discriminate]. injection Hb as <-.
        apply leb_b64_refl, Hx.
      + intros k' b Hlt. lia.
    - apply Forall_cons in Hnum. destruct Hnum as [Hx Hrest].
      destruct (IH y Hrest) as (k & w & rest & Hk & Hs & Hmax & Hfirst).
      assert (Hw : PrimFloat.is_nan (key w) = false).
      { exact (proj1 (Forall_lookup _ _) Hrest k w Hk). }
      change (foldr (insert_sorted_b64 (fun kx ky => PrimFloat.leb ky kx)) []
                (map (fun b => (key b, b)) (x :: y :: l)))
        with (insert_sorted_b64 (fun kx ky => PrimFloat.leb ky kx) (key x, x)
                (foldr (insert_sorted_b64
                          (fun kx ky => PrimFloat.leb ky kx)) []
                   (map (fun b => (key b, b)) (y :: l)))).
      rewrite Hs. cbn [insert_sorted_b64 fst].
      destruct (PrimFloat.leb (key w) (key x)) eqn:Hc.
      + exists 0%nat, x, ((key w, w) :: rest).
        split; [reflexivity|]. split; [reflexivity|]. split.
        * intros [|k'] b Hb.
          -- injection Hb as <-. apply leb_b64_refl, Hx.
          -- apply (leb_b64_trans _ (key w)); [exact (Hmax k' b Hb) | exact Hc].
        * intros k' b Hlt. lia.
      + pose proof (leb_b64_total _ _ Hw Hx Hc) as Hlt.
        exists (S k), w. eexists.
        split; [exact Hk|]. split; [reflexivity|]. split.
        * intros [|k'] b Hb.
          -- injection Hb as <-. apply ltb_b64_leb, Hlt.
          -- exact (Hmax k' b Hb).
        * intros [|k'] b Hlt' Hb.
          -- injection Hb as <-. exact Hlt.
          -- apply (Hfirst k' b); [lia | exact Hb]. }
  destruct Hgen as (k & w & rest & Hk & Hs & Hmax & Hfirst).
  exists k, w. split; [exact Hk|]. split; [|split; assumption].
  unfold sorted_b64. rewrite Hs. reflexivity.
Qed.

End SortedHeadB64.

(* the key that the program computes for a bid is its rank *)
Lemma evaluate_bid_b64_rank (h : HospitalAgent_b64) (bid_value : float)
    (severity : string) :
  PrimFloat.eqb (initial_resources_b64 h) 0 = false ->
  evaluate_bid_b64 h bid_value severity = Ok (rank_b64 severity h bid_value).
Proof.
  intros Hnz.
  unfold evaluate_bid_b64, capacity_score_b64, py_div_b64. rewrite Hnz.
  unfold rank_b64, min_b64, severity_score_b64.
  destruct (string_dec severity "low") as [->|Hlow]; [reflexivity|].
  apply String.eqb_neq in Hlow. rewrite Hlow.
  destruct (string_dec severity "medium") as [->|Hmed]; [reflexivity|].
  apply String.eqb_neq in Hmed. rewrite Hmed.
  destruct (string_dec severity "high") as [->|Hhigh]; [reflexivity|].
  apply String.eqb_neq in Hhigh. rewrite Hhigh. reflexivity.
Qed.

Lemma bid_keys_b64_ranks (hs : list HospitalAgent_b64) (severity : string)
    (bids : list (nat * float)) :
  Forall (fun b => exists h, hs !! fst b = Some h /\
                             PrimFloat.eqb (initial_resources_b64 h) 0 = false)
    bids ->
  bid_keys_b64 hs severity bids =
    Ok (map (fun b => (bid_rank_b64 hs severity b, b)) bids).
Proof.
  induction 1 as [|b bids (h & Hh & Hnz) _ IH]; simpl; [reflexivity|].
  unfold bid_rank_b64 at 1. rewrite Hh, (evaluate_bid_b64_rank _ _ _ Hnz), IH.
  reflexivity.
Qed.

(** C4, as stated, fails for a bid of a hospital whose
    [initial_resources] is 0: the capacity score divides by it, the sort
    raises ZeroDivisionError and no winner is selected.  The same happens
    on exact and on binary64 numbers. *)
#[warnings="-inexact-float"]
Lemma zero_capacity_bid_selects_no_winner :
  let p := {| p_unique_id := 4; severity := "medium";
              medical_needs := 10; unmet_needs := 0 |} in
  let hs := [{| h_unique_id := 2; specialization := "general";
                initial_resources := 0; current_resources := 100 |}] in
  match fst (Hospital.evaluate_patient_admission 0 0 10
               (env_of hs [p] (fun _ => 0%Z))) with
  | Ok (Some bid) => Qeq_bool bid 0.94 = true
  | _ => False
  end /\
  fst (Coordinator.allocate_resources 0 [(0%nat, 0.94%Q)]
         (env_of hs [p] (fun _ => 0%Z))) = Raise ZeroDivisionError /\
  hospitals (snd (Coordinator.allocate_resources 0 [(0%nat, 0.94%Q)]
                    (env_of hs [p] (fun _ => 0%Z)))) = hs /\
  best_hospital_b64
    [{| initial_resources_b64 := 0; current_resources_b64 := 100 |}]
    "medium" [(0%nat, 0.94%float)] = Raise ZeroDivisionError.
Proof. vm_compute. repeat split. Qed.

(** C4, amended.  On a non-empty bid list whose bidders have a non-zero
    [initial_resources] and whose ranks are numbers, the choice of
    [sorted_bids[0]] returns the first bid of maximal rank, the rank being
    [0.4 * severity_score + 0.3 * min(current / initial, 1.0) + 0.3 * bid]
    evaluated on binary64 numbers as the program does, with severity scores
    0.2, 0.5 and 1.0 for low, medium and high: no bid has a higher rank
    than the winner, and every bid placed before the winner in the list
    has a strictly lower rank.  The bid list that a negotiation collects
    follows the order in which the hospitals were polled. *)
Theorem winner_is_first_best_bid (hs : list HospitalAgent_b64)
    (severity : string) (first_bid : nat * float)
    (others : list (nat * float)) :
  let bids := first_bid :: others in
  Forall (fun b => exists h,
            hs !! fst b = Some h /\
            PrimFloat.eqb (initial_resources_b64 h) 0 = false /\
            PrimFloat.is_nan (rank_b64 severity h (snd b)) = false) bids ->
  (exists k w,
     best_hospital_b64 hs severity bids = Ok (Some w) /\
     first_best_b64 hs severity bids k w) /\
  (forall patient required polled collected e e1,
     collect_bids patient required polled e = (Ok collected, e1) ->
     sublist (map fst collected) polled).
Proof.
  intros bids Hall. split;
    [|intros patient required polled collected e e1;
      apply collect_bids_in_polling_order].
  assert (Hvalid : Forall (fun b => exists h, hs !! fst b = Some h /\
                     PrimFloat.eqb (initial_resources_b64 h) 0 = false) bids).
  { eapply Forall_impl; [exact Hall|]. intros b (h & Hh & Hnz & _).
    exists h. split; assumption. }
  assert (Hnum : Forall (fun b => PrimFloat.is_nan
                                    (bid_rank_b64 hs severity b) = false)
                   bids).
  { eapply Forall_impl; [exact Hall|]. intros b (h & Hh & _ & Hn).
    unfold bid_rank_b64. rewrite Hh. exact Hn. }
  destruct (sorted_b64_reverse_head (bid_rank_b64 hs severity)
              first_bid others Hnum) as (k & w & Hk & Hhead & Hmax & Hfirst).
  exists k, w. split.
  - unfold best_hospital_b64, sorted_bids_b64. subst bids.
    rewrite (bid_keys_b64_ranks hs severity _ Hvalid), Hhead. reflexivity.
  - split; [exact Hk|]. split; [exact Hmax | exact Hfirst].
Qed.

#[warnings="-inexact-float"]
Lemma winner_is_first_best_bid_witness :
  let hs := [{| initial_resources_b64 := 40; current_resources_b64 := 20 |};
             {| initial_resources_b64 := 200; current_resources_b64 := 60 |}] in
  let bids := [(0%nat, 0.7%float); (1%nat, 0.9%float)] in
  exists k w,
    best_hospital_b64 hs "medium" bids = Ok (Some w) /\
    first_best_b64 hs "medium" bids k w.
Proof.
  intros hs bids.
  refine (proj1 (winner_is_first_best_bid hs "medium" _ _ _)).
  repeat (apply List.Forall_cons;
          [eexists; split; [reflexivity|]; split; vm_compute; reflexivity|]).
  apply List.Forall_nil.
Defined.

(* Rounding decides between bids whose ranks are equal in exact arithmetic:
   capacities 40 and 200, balances 20 and 60, demand 10.  The second
   hospital wins for a patient of low or medium severity, the first one,
   on equal binary64 ranks, for a patient of high severity. *)
#[warnings="-inexact-float"]
Example rounding_decides_between_close_ranks :
  let hs := [{| initial_resources_b64 := 40; current_resources_b64 := 20 |};
             {| initial_resources_b64 := 200; current_resources_b64 := 60 |}] in
  let bids := [(0%nat, 0.4 * 1.0 + 0.6 * (1 - 10 / 20))%float;
               (1%nat, 0.4 * 1.0 + 0.6 * (1 - 10 / 60))%float] in
  best_hospital_b64 hs "low" bids = Ok (nth_error bids 1) /\
  best_hospital_b64 hs "medium" bids = Ok (nth_error bids 1) /\
  best_hospital_b64 hs "high" bids = Ok (nth_error bids 0).
Proof. vm_compute. repeat split. Qed.

(* Two hospitals with the same rank: the one polled first is debited. *)
Example tie_goes_to_first_polled :
  let hs := [Hospital.__init__ 2 "general" 100;
             Hospital.__init__ 3 "general" 100] in
  let p := {| p_unique_id := 4; severity := "low";
              medical_needs := 10; unmet_needs := 0 |} in
  let out := negotiate_resource_allocation 0 10 (env_of hs [p] (fun _ => 0%Z)) in
  fst out = Ok (Some true) /\
  map (fun h => Qred (current_resources h)) (hospitals (snd out)) =
    [90%Q; 100%Q].
Proof. vm_compute. split; reflexivity. Qed.

(* The second end-to-end example of the specification: capacities 200 and
   50, demand 40; the first hospital wins and is left with 160. *)
Example larger_hospital_wins :
  let hs := [Hospital.__init__ 2 "general" 200;
             Hospital.__init__ 3 "general" 50] in
  let p := {| p_unique_id := 4; severity := "medium";
              medical_needs := 40; unmet_needs := 0 |} in
  let out := negotiate_resource_allocation 0 40 (env_of hs [p] (fun _ => 0%Z)) in
  fst out = Ok (Some true) /\
  map (fun h => Qred (current_resources h)) (hospitals (snd out)) =
    [160%Q; 50%Q].
Proof. vm_compute. split; reflexivity. Qed.

(** ** Rebalancing conserves the total *)

Lemma py_sum_alter_current (hs : list HospitalAgent) (i : nat)
    (h : HospitalAgent) (v : Q) :
  hs !! i = Some h ->
  (py_sum (map current_resources (alter (set_current_resources v) i hs)) ==
   py_sum (map current_resources hs) - current_resources h + v)%Q.
Proof.
  revert i. induction hs as [|x hs IH]; intros i Hi.
  - discriminate.
  - destruct i as [|i]; simpl in *.
    + injection Hi as ->. rewrite !py_sum_cons. simpl. lra.
    + rewrite !py_sum_cons, (IH i Hi). lra.
Qed.

Lemma transfer_conserves_total (source target : nat) (e : Env) :
  (total_resources (snd (Coordinator.transfer source target e)) ==
   total_resources e)%Q.
Proof.
  unfold Coordinator.transfer, bind, hospital_at.
  destruct (hospitals e !! source) as [s|] eqn:Hs; [|reflexivity].
  destruct (hospitals e !! target) as [t|] eqn:Ht; [|reflexivity].
  set (amount := py_min _ _).
  destruct (Qltb 0 amount); [|reflexivity].
  cbn [coordinator_send modify fst snd hospitals with_coordinator].
  rewrite Hs. cbn [store_current_resources modify fst snd].
  set (e1 := with_hospitals _ _).
  assert (H1 : (total_resources e1 == total_resources e - amount)%Q).
  { subst e1.
    etransitivity; [exact (py_sum_alter_current _ source s _ Hs)|].
    fold (total_resources e). lra. }
  destruct (hospitals e1 !! target) as [t'|] eqn:Ht'; [|cbn [snd]; rewrite H1].
  - cbn [modify fst snd].
    etransitivity; [exact (py_sum_alter_current _ target t' _ Ht')|].
    fold (total_resources e1). rewrite H1. lra.
  - exfalso. apply lookup_ge_None in Ht'. apply lookup_lt_Some in Ht.
    subst e1. cbn [hospitals with_hospitals with_coordinator] in Ht'.
    rewrite length_alter in Ht'. lia.
Qed.

(* what one effective transfer does to the two hospitals *)
Lemma transfer_debits_and_credits (source target : nat) (e : Env)
    (s t : HospitalAgent) :
  source <> target ->
  hospitals e !! source = Some s ->
  hospitals e !! target = Some t ->
  let amount := py_min (current_resources s * 0.1)%Q
                  (initial_resources t * 0.2 - current_resources t)%Q in
  (0 < amount)%Q ->
  hospitals (snd (Coordinator.transfer source target e)) =
    <[target := set_current_resources (current_resources t + amount) t]>
      (<[source := set_current_resources (current_resources s - amount) s]>
         (hospitals e)).
Proof.
  intros Hne Hs Ht amount Hpos.
  unfold Coordinator.transfer, bind, hospital_at. rewrite Hs, Ht.
  fold amount. apply Qltb_true in Hpos. rewrite Hpos.
  cbn [coordinator_send modify fst snd hospitals with_coordinator].
  rewrite Hs. cbn [store_current_resources modify fst snd].
  cbn [hospitals with_hospitals with_coordinator].
  rewrite list_lookup_alter_ne by exact Hne. rewrite Ht.
  cbn [modify fst snd hospitals with_hospitals].
  rewrite (alter_as_insert _ (hospitals e) source s Hs).
  apply alter_as_insert.
  rewrite list_lookup_insert_ne by exact Hne. exact Ht.
Qed.

(* The references that the pass iterates over are positions of the
   registry, so the pass returns normally. *)
Lemma selected_refs_valid (keep : HospitalAgent -> bool)
    (hs : list HospitalAgent) (reverse : bool) (i : nat) :
  i ∈ sorted (Coordinator.select_by keep hs) reverse -> (i < length hs)%nat.
Proof.
  unfold sorted, Coordinator.select_by. intros H.
  apply list_elem_of_fmap in H. destruct H as ([k i'] & -> & H).
  apply sorted_keyed_elem in H.
  apply list_elem_of_fmap in H. destruct H as ([j h] & Heq & H).
  injection Heq as _ ->.
  apply list_elem_of_In, filter_In in H. destruct H as [H _].
  apply list_elem_of_In, elem_of_lookup_imap_1 in H.
  destruct H as (j' & h' & Heq & Hj). injection Heq as -> _.
  simpl. apply lookup_lt_Some in Hj. exact Hj.
Qed.

Lemma transfer_keeps_length (source target n : nat) :
  preserves (fun e => length (hospitals e) = n)
    (Coordinator.transfer source target).
Proof.
  unfold Coordinator.transfer.
  preserves_with ltac:(
    apply preserves_store_current_resources; intros e He;
    cbn [hospitals with_hospitals]; rewrite length_alter; exact He).
Qed.

Lemma transfer_returns (source target : nat) (e : Env) :
  (source < length (hospitals e))%nat ->
  (target < length (hospitals e))%nat ->
  fst (Coordinator.transfer source target e) = Ok tt.
Proof.
  intros Hs Ht.
  destruct (lookup_lt_is_Some_2 _ _ Hs) as [s Hsl].
  destruct (lookup_lt_is_Some_2 _ _ Ht) as [t Htl].
  unfold Coordinator.transfer, bind, hospital_at. rewrite Hsl, Htl.
  destruct (Qltb 0 _); [|reflexivity].
  cbn [coordinator_send modify fst snd hospitals with_coordinator].
  rewrite Hsl. cbn [store_current_resources modify fst snd].
  cbn [hospitals with_hospitals with_coordinator].
  destruct (lookup_lt_is_Some_2
              (alter (set_current_resources
                        (current_resources s -
                         py_min (current_resources s * 0.1)
                           (initial_resources t * 0.2 - current_resources t)))
                     source (hospitals e)) target) as [t' Ht'].
  { rewrite length_alter. exact Ht. }
  rewrite Ht'. reflexivity.
Qed.

Lemma for_each_returns {A : Type} (I : Env -> Prop) (l : list A)
    (body : A -> M unit) :
  (forall x, x ∈ l -> forall e,
     I e -> fst (body x e) = Ok tt /\ I (snd (body x e))) ->
  forall e, I e ->
    fst (for_each l body e) = Ok tt /\ I (snd (for_each l body e)).
Proof.
  induction l as [|x l IH]; intros Hbody e He; simpl.
  - split; [reflexivity | exact He].
  - unfold bind.
    destruct (Hbody x (list_elem_of_here _ _) e He) as [Hok He1].
    destruct (body x e) as [[[]|?] e1]; [|discriminate]. cbn [snd] in He1.
    apply IH; [|exact He1].
    intros y Hy. apply Hbody. apply list_elem_of_further, Hy.
Qed.

Lemma rebalance_returns (e : Env) :
  fst (Coordinator.coordinate_global_resources e) = Ok tt.
Proof.
  unfold Coordinator.coordinate_global_resources, bind. cbn [gets fst snd].
  set (n := length (hospitals e)).
  apply (for_each_returns (fun e' => length (hospitals e') = n)); [|reflexivity].
  intros source Hsource e1 He1.
  apply (for_each_returns (fun e' => length (hospitals e') = n)); [|exact He1].
  intros target Htarget e2 He2.
  apply selected_refs_valid in Hsource, Htarget. fold n in Hsource, Htarget.
  split.
  - apply transfer_returns; rewrite He2; assumption.
  - apply transfer_keeps_length, He2.
Qed.

(** C6, as stated, fails on Python floats: for two hospitals of capacity
    1000 with balances 1331.0 and 0.1 the pass makes one transfer of 133.1,
    the new balances 1197.9 and 133.2 are rounded, and their sum is larger
    than the sum before the pass by one unit in the last place. *)
#[warnings="-inexact-float"]
Lemma rebalancing_rounding_changes_total :
  let hs := [{| initial_resources_b64 := 1000;
                current_resources_b64 := 1331 |};
             {| initial_resources_b64 := 1000;
                current_resources_b64 := 0.1 |}] in
  let after := coordinate_global_resources_b64 hs in
  map current_resources_b64 after =
    [1197.9%float; 133.2%float] /\
  total_resources_b64 hs = 1331.1%float /\
  total_resources_b64 after = 1331.1000000000001%float /\
  PrimFloat.eqb (total_resources_b64 after) (total_resources_b64 hs) = false.
Proof. vm_compute. repeat split. Qed.

(** C6, amended.  In exact arithmetic every iteration of the transfer loop
    leaves the sum of all balances unchanged; the whole pass
    [coordinate_global_resources] returns normally and leaves the sum
    unchanged; an effective transfer between two hospitals subtracts from
    the source exactly the amount it adds to the target. *)
Theorem rebalancing_conserves_total (e : Env) :
  (forall source target,
     (total_resources (snd (Coordinator.transfer source target e)) ==
      total_resources e)%Q) /\
  (forall source target s t,
     source <> target ->
     hospitals e !! source = Some s ->
     hospitals e !! target = Some t ->
     let amount := py_min (current_resources s * 0.1)%Q
                     (initial_resources t * 0.2 - current_resources t)%Q in
     (0 < amount)%Q ->
     hospitals (snd (Coordinator.transfer source target e)) =
       <[target := set_current_resources (current_resources t + amount) t]>
         (<[source := set_current_resources (current_resources s - amount) s]>
            (hospitals e))) /\
  fst (Coordinator.coordinate_global_resources e) = Ok tt /\
  (total_resources (snd (Coordinator.coordinate_global_resources e)) ==
   total_resources e)%Q.
Proof.
  split; [|split; [|split; [apply rebalance_returns|]]].
  - intros source target. apply transfer_conserves_total.
  - intros source target s t. apply transfer_debits_and_credits.
  - apply (rebalance_preserves
             (fun e' => (total_resources e' == total_resources e)%Q)).
    + intros s t e' He'. rewrite transfer_conserves_total. exact He'.
    + reflexivity.
Qed.

Lemma rebalancing_conserves_total_witness :
  let s := {| h_unique_id := 2; specialization := "general";
              initial_resources := 1000; current_resources := 1500 |} in
  let t := {| h_unique_id := 3; specialization := "general";
              initial_resources := 1000; current_resources := 100 |} in
  let e := env_of [s; t] [] (fun _ => 0%Z) in
  let amount := py_min (1500 * 0.1)%Q (1000 * 0.2 - 100)%Q in
  hospitals (snd (Coordinator.transfer 0 1 e)) =
    [set_current_resources (1500 - amount)%Q s;
     set_current_resources (100 + amount)%Q t].
Proof.
  intros s t e amount.
  refine (proj1 (proj2 (rebalancing_conserves_total e)) 0%nat 1%nat s t _ _ _ _).
  - discriminate.
  - reflexivity.
  - reflexivity.
  - vm_compute. reflexivity.
Defined.

(* A pass over one surplus and one deficit hospital: 100 units move. *)
Example rebalance_moves_surplus :
  let s := {| h_unique_id := 2; specialization := "general";
              initial_resources := 1000; current_resources := 1500 |} in
  let t := {| h_unique_id := 3; specialization := "general";
              initial_resources := 1000; current_resources := 100 |} in
  let out := Coordinator.coordinate_global_resources
               (env_of [s; t] [] (fun _ => 0%Z)) in
  map (fun h => Qred (current_resources h)) (hospitals (snd out)) =
    [1400%Q; 200%Q].
Proof. vm_compute. reflexivity. Qed.

(** ** Where messages go *)

Lemma perform_keeps_global_log (op : operation) (e : Env) :
  global_log (snd (perform op e)) = global_log e.
Proof.
  apply (perform_preserves (fun e' => global_log e' = global_log e)).
  - intros message. preserves_step.
  - frame_setter.
  - frame_setter.
  - frame_setter.
  - frame_setter.
  - intros i j s. unfold Hospital.allocate_resources. preserves_with fail.
  - intros i. unfold Hospital.process_resources. preserves_with fail.
  - intros s t. unfold Coordinator.transfer. preserves_with fail.
  - reflexivity.
Qed.

Lemma send_extends_log (l0 : list Message) (message : Message) :
  preserves (fun e' => exists msgs, coordinator_log e' = l0 ++ msgs)
    (coordinator_send message).
Proof.
  intros e [msgs H]. exists (msgs ++ [message]).
  rewrite coordinator_send_append. cbn [snd].
  rewrite coordinator_log_append, H, app_assoc. reflexivity.
Qed.

Lemma perform_extends_coordinator_log (op : operation) (e : Env) :
  exists msgs, coordinator_log (snd (perform op e)) = coordinator_log e ++ msgs.
Proof.
  apply (perform_preserves
           (fun e' => exists msgs, coordinator_log e' = coordinator_log e ++ msgs)).
  - apply send_extends_log.
  - frame_setter.
  - frame_setter.
  - frame_setter.
  - frame_setter.
  - intros i j s. unfold Hospital.allocate_resources.
    preserves_with ltac:(apply send_extends_log).
  - intros i. unfold Hospital.process_resources. preserves_with fail.
  - intros s t. unfold Coordinator.transfer.
    preserves_with ltac:(apply send_extends_log).
  - exists []. rewrite app_nil_r. reflexivity.
Qed.

Lemma simulation_keeps_global_log_empty (num_hospitals num_patients
    simulation_steps : Z) :
  preserves (fun e => global_log e = [])
    (run_healthcare_simulation num_hospitals num_patients simulation_steps).
Proof.
  unfold run_healthcare_simulation, __init__, setup_resource_coordinator,
    setup_hospitals, setup_patients, get_hospital_specialization,
    Random.choice.
  preserves_with ltac:(
    apply (step_preserves (fun e => global_log e = []));
    [ intros message; preserves_step
    | frame_setter | frame_setter | frame_setter | frame_setter
    | intros i j s; unfold Hospital.allocate_resources; preserves_with fail
    | intros i; unfold Hospital.process_resources; preserves_with fail
    | intros s t; unfold Coordinator.transfer; preserves_with fail ]).
Qed.

(** C10.  Sending a message appends it to the coordinator's own log and
    leaves [global_message_manager] alone.  Every operation (admission
    evaluation, commit, replenishment, transfer, rebalancing pass,
    negotiation, demand generation, metrics update, whole step) only
    extends the coordinator's log and never changes the global log, and
    after construction and any number of steps the global log is empty. *)
Theorem messages_go_to_coordinator_log :
  (forall message e,
     coordinator_log (snd (coordinator_send message e)) =
       coordinator_log e ++ [message] /\
     global_log (snd (coordinator_send message e)) = global_log e) /\
  (forall op e,
     global_log (snd (perform op e)) = global_log e /\
     exists msgs,
       coordinator_log (snd (perform op e)) = coordinator_log e ++ msgs) /\
  (forall num_hospitals num_patients simulation_steps draws,
     global_log
       (snd (run_healthcare_simulation num_hospitals num_patients
               simulation_steps (blank draws))) = []).
Proof.
  split; [|split].
  - intros message e. split; reflexivity.
  - intros op e. split.
    + apply perform_keeps_global_log.
    + apply perform_extends_coordinator_log.
  - intros nh np steps draws.
    apply simulation_keeps_global_log_empty. reflexivity.
Qed.

(* Two steps of a small simulation: 2 hospitals, 3 patients. *)
Example small_simulation_logs :
  let e := snd (run_healthcare_simulation 2 3 2
                  (blank (fun n => Z.of_nat (7 * n + 3)))) in
  global_log e = [] /\ length (coordinator_log e) = 36%nat.
Proof. vm_compute. split; reflexivity. Qed.

(* A demand generation with an allocation, a negotiation without bids and
   a rebalancing pass: all seven message types, all in the coordinator's
   log. *)
Example all_message_types_reach_coordinator_log :
  let hs := [{| h_unique_id := 2; specialization := "general";
                initial_resources := 1000; current_resources := 1400 |};
             {| h_unique_id := 3; specialization := "surgical";
                initial_resources := 1000; current_resources := 10 |}] in
  let e := perform_all [OpGenerate 0; OpNegotiate 0 2000; OpRebalance]
             (env_of hs [Patient.__init__ 4 "low"] (fun _ => 0%Z)) in
  map msg_type (coordinator_log e) =
    [MEDICAL_NEEDS; ADMISSION_BID; ADMISSION_BID; RESOURCE_ALLOCATION;
     RESOURCE_ALLOCATED; ALLOCATION_RESULT; ADMISSION_BID; ADMISSION_BID;
     RESOURCE_UNAVAILABLE; RESOURCE_TRANSFER] /\
  global_log e = [].
Proof. vm_compute. split; reflexivity. Qed.

(** ** Balances stay within the growth cap

    The hypothesis of the amended replenishment property holds in every
    environment that the program can reach: no operation lifts a balance
    above [initial_resources * 1.5]. *)

Lemma inject_Z_nonneg (n : Z) : (0 <= n)%Z -> (0 <= inject_Z n)%Q.
Proof. intros H. unfold Qle. simpl. lia. Qed.

Lemma send_preserves_cap (message : Message) :
  preserves all_within_cap (coordinator_send message).
Proof. preserves_step. Qed.

Lemma commit_preserves_cap (self patient : nat) (score : Q) :
  preserves all_within_cap (Hospital.allocate_resources self patient score).
Proof.
  intros e [Hhs Hps].
  unfold Hospital.allocate_resources, bind, patient_at, hospital_at.
  destruct (patients e !! patient) as [p|] eqn:Hp; [|split; assumption].
  destruct (hospitals e !! self) as [h|] eqn:Hh; [|split; assumption].
  destruct (Qle_bool _ _); [|split; assumption].
  simpl. split; [|exact Hps].
  apply Forall_alter; [exact Hhs|]. intros h' Hh' [Hi Hc].
  rewrite Hh in Hh'. injection Hh' as <-.
  pose proof (inject_Z_nonneg _ (proj1 (Forall_lookup _ _) Hps patient p Hp)).
  split; [exact Hi|]. simpl. lra.
Qed.

Lemma replenish_preserves_cap (self : nat) :
  preserves all_within_cap (Hospital.process_resources self).
Proof.
  intros e [Hhs Hps]. unfold Hospital.process_resources, bind, hospital_at.
  destruct (hospitals e !! self) as [h|] eqn:Hh; [|split; assumption].
  simpl. split; [|exact Hps].
  apply Forall_alter; [exact Hhs|]. intros h' Hh' [Hi Hc].
  rewrite Hh in Hh'. injection Hh' as <-.
  split; [exact Hi|]. simpl. unfold Hospital.replenished.
  destruct (py_min_cases
              (current_resources h * Hospital.replenishment_rate)
              (initial_resources h * Hospital.max_growth_factor))
    as [[? ->]|[? ->]]; lra.
Qed.

Lemma transfer_preserves_cap (source target : nat) :
  preserves all_within_cap (Coordinator.transfer source target).
Proof.
  intros e [Hhs Hps]. unfold Coordinator.transfer, bind, hospital_at.
  destruct (hospitals e !! source) as [s|] eqn:Hs; [|split; assumption].
  destruct (hospitals e !! target) as [t|] eqn:Ht; [|split; assumption].
  set (amount := py_min _ _).
  destruct (Qltb 0 amount) eqn:Hpos; [|split; assumption].
  apply Qltb_true in Hpos.
  assert (Hle : (amount <= initial_resources t * 0.2 - current_resources t)%Q).
  { subst amount.
    destruct (py_min_cases (current_resources s * 0.1)
                (initial_resources t * 0.2 - current_resources t))
      as [[? ->]|[? ->]]; lra. }
  destruct (proj1 (Forall_lookup _ _) Hhs source s Hs) as [Hsi Hsc].
  destruct (proj1 (Forall_lookup _ _) Hhs target t Ht) as [Hti Htc].
  unfold Hospital.max_growth_factor in *.
  cbn [coordinator_send modify fst snd hospitals with_coordinator].
  rewrite Hs. cbn [store_current_resources modify fst snd].
  set (e1 := with_hospitals _ _).
  assert (H1 : Forall within_cap (hospitals e1)).
  { subst e1. cbn [hospitals with_hospitals with_coordinator].
    apply Forall_alter; [exact Hhs|]. intros h' Hh' [Hi Hc].
    rewrite Hs in Hh'. injection Hh' as <-.
    split; [exact Hi|]. unfold Hospital.max_growth_factor. simpl. lra. }
  destruct (hospitals e1 !! target) as [t'|] eqn:Ht'; [|split; assumption].
  cbn [modify fst snd]. split; [|exact Hps].
  cbn [hospitals with_hospitals].
  apply Forall_alter; [exact H1|]. intros h' Hh' _.
  rewrite Ht' in Hh'. injection Hh' as <-.
  subst e1. cbn [hospitals with_hospitals with_coordinator] in Ht'.
  destruct (decide (source = target)) as [<-|Hne].
  - rewrite list_lookup_alter_eq, Hs in Ht'. injection Ht' as <-.
    split; [exact Hsi|]. unfold Hospital.max_growth_factor. simpl. lra.
  - rewrite list_lookup_alter_ne, Ht in Ht' by exact Hne. injection Ht' as <-.
    split; [exact Hti|]. unfold Hospital.max_growth_factor. simpl. lra.
Qed.

Lemma generate_preserves_cap (self : nat) :
  preserves all_within_cap (Patient.generate_medical_needs self).
Proof.
  intros e He. unfold Patient.generate_medical_needs.
  unfold bind at 1. unfold patient_at at 1.
  destruct (patients e !! self) as [p|] eqn:Hp; [|exact He].
  pose proof (next_demand_bounds e (severity p)) as Hb.
  unfold next_demand in Hb.
  assert (Hlo : (0 <= fst (Patient.severity_resource_ranges (severity p)))%Z).
  { destruct (severity_resource_ranges_cases (severity p))
      as [H|[H|[H|H]]]; rewrite H; simpl; lia. }
  destruct (Patient.severity_resource_ranges (severity p)) as [lo hi].
  cbn [fst] in Hlo.
  unfold bind at 1. rewrite randint_value by lia.
  set (needs := (lo + _ mod _)%Z) in *.
  unfold bind at 1. cbn [modify fst snd].
  unfold bind at 1. rewrite coordinator_send_append.
  set (e1 := append_log _ _).
  assert (He1 : all_within_cap e1).
  { destruct He as [Hhs Hps]. split; [exact Hhs|].
    subst e1. cbn [patients append_log with_coordinator with_patients].
    apply Forall_alter; [exact Hps|]. intros q _ _. simpl. lia. }
  unfold bind at 1.
  pose proof (negotiate_preserves all_within_cap send_preserves_cap
                commit_preserves_cap self (inject_Z needs) e1 He1) as He2.
  destruct (negotiate_resource_allocation self (inject_Z needs) e1)
    as [[outcome|x] e2]; cbn [snd] in He2; [|exact He2].
  unfold bind, patient_at.
  destruct (patients e2 !! self) as [p'|]; [|exact He2].
  cbn [modify fst snd]. destruct He2 as [Hhs Hps]. split; [exact Hhs|].
  cbn [patients with_patients].
  apply Forall_alter; [exact Hps|]. intros q _ Hq. exact Hq.
Qed.

Lemma perform_preserves_cap (op : operation) :
  preserves all_within_cap (perform op).
Proof.
  assert (Hrebalance :
    preserves all_within_cap Coordinator.coordinate_global_resources).
  { apply rebalance_preserves, transfer_preserves_cap. }
  assert (Hmetrics : preserves all_within_cap update_performance_metrics).
  { apply metrics_preserves; frame_setter. }
  assert (Hnegotiate : forall j r,
    preserves all_within_cap (negotiate_resource_allocation j r)).
  { intros j r. apply negotiate_preserves;
      [apply send_preserves_cap | apply commit_preserves_cap]. }
  destruct op; simpl;
    try (unfold step);
    preserves_with ltac:(first [ apply admission_preserves;
                                 apply send_preserves_cap
                               | apply commit_preserves_cap
                               | apply replenish_preserves_cap
                               | apply transfer_preserves_cap
                               | exact Hrebalance
                               | apply Hnegotiate
                               | apply generate_preserves_cap
                               | exact Hmetrics ]).
Qed.

(* In an environment constructed with a non-negative [initial_resources],
   every balance stays at or below the cap whatever is called. *)
Lemma reachable_within_cap (num_hospitals num_patients : Z) (initial : Q)
    (draws : nat -> Z) (ops : list operation) :
  (0 <= initial)%Q ->
  all_within_cap
    (perform_all ops
       (snd (__init__ num_hospitals num_patients initial (blank draws)))).
Proof.
  intros Hinit.
  assert (Hops : forall e, all_within_cap e -> all_within_cap (perform_all ops e)).
  { induction ops as [|op ops IH]; intros e He; simpl.
    - exact He.
    - apply IH, perform_preserves_cap, He. }
  apply Hops.
  assert (H : preserves all_within_cap
                (__init__ num_hospitals num_patients initial)).
  { unfold __init__, setup_resource_coordinator, setup_hospitals,
      setup_patients, get_hospital_specialization, Random.choice.
    preserves_with ltac:(
      apply preserves_modify; intros e [Hhs Hps]; split; simpl;
      first [ assumption
            | apply Forall_app; split; [assumption|];
              apply Forall_cons; split; [|apply Forall_nil_2];
              first [ split; simpl; unfold Hospital.max_growth_factor; lra
                    | simpl; lia ] ]). }
  apply H. split; apply Forall_nil_2.
Qed.

(** ** Whole negotiations *)

Lemma admission_runs (e : Env) (self patient : nat) (required : Q)
    (h : HospitalAgent) (p : PatientAgent) :
  hospitals e !! self = Some h ->
  patients e !! patient = Some p ->
  (0 < required)%Q \/ ~ (current_resources h == 0)%Q ->
  Hospital.evaluate_patient_admission self patient required e =
    (Ok (quote h required),
     append_log [bid_message self h (p_unique_id p) required] e).
Proof.
  intros Hh Hp Hcase.
  unfold Hospital.evaluate_patient_admission, bind, patient_at, hospital_at.
  rewrite Hh, Hp, coordinator_send_append. unfold quote.
  destruct (Qltb (current_resources h) required) eqn:Hlt; [reflexivity|].
  apply Qltb_false in Hlt.
  assert (Hnz : ~ (current_resources h == 0)%Q).
  { destruct Hcase as [Hpos|Hnz]; [|exact Hnz]. intros Hz. lra. }
  unfold Hospital.calculate_admission_score, lift.
  rewrite (py_div_ok _ _ Hnz). reflexivity.
Qed.

Lemma collect_bids_runs (patient : nat) (p : PatientAgent) (required : Q)
    (refs : list nat) (e : Env) :
  patients e !! patient = Some p ->
  (0 < required)%Q ->
  (forall i, i ∈ refs -> (i < length (hospitals e))%nat) ->
  collect_bids patient required refs e =
    (Ok (quotes (hospitals e) required refs),
     append_log (bid_messages (hospitals e) (p_unique_id p) required refs) e).
Proof.
  intros Hp Hpos. revert e Hp.
  induction refs as [|i refs IH]; intros e Hp Hall; simpl.
  - rewrite append_log_nil. reflexivity.
  - destruct (lookup_lt_is_Some_2 (hospitals e) i) as [h Hh].
    { apply Hall, list_elem_of_here. }
    unfold bind at 1.
    rewrite (admission_runs e i patient required h p Hh Hp (or_introl Hpos)).
    unfold bind at 1.
    rewrite (IH (append_log [bid_message i h (p_unique_id p) required] e)).
    + cbn [ret]. rewrite append_log_app.
      unfold quotes, bid_messages. simpl. rewrite Hh. simpl.
      destruct (quote h required); reflexivity.
    + exact Hp.
    + intros k Hk. apply Hall, list_elem_of_further, Hk.
Qed.

Lemma quotes_elem (hs : list HospitalAgent) (required : Q) (refs : list nat)
    (b : nat * Q) :
  b ∈ quotes hs required refs ->
  exists h, hs !! fst b = Some h /\ quote h required = Some (snd b).
Proof.
  unfold quotes. intros H. apply list_elem_of_omap in H.
  destruct H as (i & _ & Hi).
  destruct (hs !! i) as [h|] eqn:Hh; [|discriminate].
  destruct (quote h required) as [s|] eqn:Hq; [|discriminate].
  injection Hi as <-. exists h. split; assumption.
Qed.

Lemma quote_some (h : HospitalAgent) (required b : Q) :
  quote h required = Some b ->
  (required <= current_resources h)%Q /\
  b = admission_score h required /\ (0.5 < b)%Q.
Proof.
  unfold quote.
  destruct (Qltb (current_resources h) required) eqn:Hlt; [discriminate|].
  destruct (Qltb 0.5 (admission_score h required)) eqn:Hs; [|discriminate].
  intros H. injection H as <-.
  apply Qltb_false in Hlt. apply Qltb_true in Hs. auto.
Qed.

(* the run of the coordinator's decision on a non-empty bid list *)
Lemma allocate_runs (e : Env) (patient : nat) (p : PatientAgent)
    (first_bid : nat * Q) (others : list (nat * Q)) :
  let bids := first_bid :: others in
  patients e !! patient = Some p ->
  Forall (fun b => exists h, hospitals e !! fst b = Some h /\
                             ~ (initial_resources h == 0)%Q) bids ->
  exists k w hw e',
    first_best (hospitals e) p bids k w /\
    hospitals e !! fst w = Some hw /\
    let success :=
      Qle_bool (inject_Z (medical_needs p)) (current_resources hw) in
    Coordinator.allocate_resources patient bids e = (Ok (Some success), e') /\
    hospitals e' =
      (if success
       then <[fst w := set_current_resources
                         (current_resources hw - inject_Z (medical_needs p)) hw]>
              (hospitals e)
       else hospitals e) /\
    coordinator_log e' =
      coordinator_log e ++
      [allocation_message p w] ++
      (if success then [allocated_message (fst w) patient hw p] else []) ++
      [result_message patient hw success].
Proof.
  intros bids Hp Hall.
  destruct (sorted_reverse_head (rank (hospitals e) p) first_bid others)
    as (k & w & rest & Hk & Hsorted & Hmax & Hfirst).
  destruct (proj1 (Forall_lookup _ _) Hall k w Hk) as (hw & Hhw & _).
  exists k, w, hw.
  assert (Hbest : first_best (hospitals e) p bids k w).
  { split; [exact Hk|]. split; [exact Hmax | exact Hfirst]. }
  assert (Hhead : hd first_bid
            (sorted (map (fun b => (rank (hospitals e) p b, b)) bids) true) = w).
  { unfold sorted. subst bids. rewrite Hsorted. reflexivity. }
  set (success := Qle_bool (inject_Z (medical_needs p)) (current_resources hw)).
  assert (Hrun : exists e',
    Coordinator.allocate_resources patient bids e = (Ok (Some success), e') /\
    hospitals e' =
      (if success
       then <[fst w := set_current_resources
                         (current_resources hw - inject_Z (medical_needs p)) hw]>
              (hospitals e)
       else hospitals e) /\
    coordinator_log e' =
      coordinator_log e ++
      [allocation_message p w] ++
      (if success then [allocated_message (fst w) patient hw p] else []) ++
      [result_message patient hw success]).
  { subst bids. unfold Coordinator.allocate_resources.
    unfold bind at 1. rewrite (bid_keys_are_ranks e patient p _ Hp Hall).
    rewrite Hhead. destruct w as [best bid_value]. cbn [fst snd] in *.
    unfold bind at 1. unfold patient_at at 1. rewrite Hp.
    unfold bind at 1. rewrite coordinator_send_append.
    set (e1 := append_log _ e).
    unfold bind at 1.
    unfold Hospital.allocate_resources.
    unfold bind at 1. unfold patient_at at 1.
    change (patients e1) with (patients e). rewrite Hp.
    unfold bind at 1. unfold hospital_at at 1.
    change (hospitals e1) with (hospitals e). rewrite Hhw.
    fold success. destruct success.
    - unfold bind at 1. cbn [store_current_resources modify fst snd].
      unfold bind at 1. rewrite coordinator_send_append. cbn [ret].
      set (e2 := append_log _ _).
      assert (Hbest2 : hospitals e2 !! best =
                Some (set_current_resources
                        (current_resources hw - inject_Z (medical_needs p)) hw)).
      { subst e2. cbn [hospitals append_log with_coordinator with_hospitals].
        change (hospitals e1) with (hospitals e).
        rewrite list_lookup_alter_eq, Hhw. reflexivity. }
      unfold bind at 1. unfold hospital_at. rewrite Hbest2.
      unfold bind. rewrite coordinator_send_append. cbn [ret].
      eexists. split; [reflexivity|]. split.
      + cbn [hospitals append_log with_coordinator with_hospitals].
        change (hospitals e1) with (hospitals e). apply alter_as_insert, Hhw.
      + subst e2 e1. unfold append_log, coordinator_log.
        cbn [message_log message_manager resource_coordinator
             with_coordinator with_hospitals].
        rewrite <- !app_assoc. reflexivity.
    - cbn [ret]. unfold bind at 1. unfold hospital_at.
      change (hospitals e1) with (hospitals e). rewrite Hhw.
      unfold bind. rewrite coordinator_send_append. cbn [ret].
      eexists. split; [reflexivity|]. split.
      + reflexivity.
      + subst e1. rewrite !coordinator_log_append.
        rewrite <- !app_assoc. reflexivity. }
  destruct Hrun as (e' & Hout & Hhs & Hlog).
  exists e'. split; [exact Hbest|]. split; [exact Hhw|].
  split; [exact Hout|]. split; [exact Hhs | exact Hlog].
Qed.

Lemma bidders_have_capacity (hs : list HospitalAgent) (required : Q)
    (refs : list nat) :
  (0 < required)%Q ->
  Forall capacity_defined hs ->
  Forall (fun b => exists h, hs !! fst b = Some h /\
                             ~ (initial_resources h == 0)%Q)
    (quotes hs required refs).
Proof.
  intros Hpos Hcap. apply Forall_forall. intros b Hb.
  apply quotes_elem in Hb. destruct Hb as (h & Hh & Hq).
  apply quote_some in Hq. destruct Hq as (Hle & _ & _).
  exists h. split; [exact Hh|].
  apply (proj1 (Forall_lookup _ _) Hcap (fst b) h Hh). lra.
Qed.


(* The run of a negotiation for the patient's own demand. *)
Lemma negotiate_runs (e : Env) (patient : nat) (p : PatientAgent) :
  patients e !! patient = Some p ->
  (0 < medical_needs p)%Z ->
  Forall capacity_defined (hospitals e) ->
  let required := inject_Z (medical_needs p) in
  let polled := seq 0 (length (hospitals e)) in
  let bids := quotes (hospitals e) required polled in
  let sent := bid_messages (hospitals e) (p_unique_id p) required polled in
  (bids = [] /\
   negotiate_resource_allocation patient required e =
     (Ok None,
      append_log (sent ++ [unavailable_message (p_unique_id p)]) e)) \/
  (exists k w hw e',
     first_best (hospitals e) p bids k w /\
     hospitals e !! fst w = Some hw /\
     (required <= current_resources hw)%Q /\
     negotiate_resource_allocation patient required e = (Ok (Some true), e') /\
     hospitals e' =
       <[fst w := set_current_resources
                    (current_resources hw - required) hw]> (hospitals e) /\
     coordinator_log e' =
       coordinator_log e ++ sent ++
       [allocation_message p w; allocated_message (fst w) patient hw p;
        result_message patient hw true]).
Proof.
  intros Hp Hneeds Hcap required polled bids sent.
  assert (Hpos : (0 < required)%Q).
  { subst required. unfold Qlt. simpl. lia. }
  assert (Hcollect :
    collect_bids patient required polled e = (Ok bids, append_log sent e)).
  { apply collect_bids_runs; [exact Hp | exact Hpos |].
    intros i Hi. apply elem_of_seq in Hi. lia. }
  assert (Hneg : negotiate_resource_allocation patient required e =
            Coordinator.allocate_resources patient bids (append_log sent e)).
  { unfold negotiate_resource_allocation.
    unfold bind at 1. cbn [gets fst snd]. fold polled.
    unfold bind at 1. rewrite Hcollect. reflexivity. }
  rewrite Hneg. clear Hneg.
  destruct bids as [|first_bid others] eqn:Hbids.
  - left. split; [reflexivity|].
    unfold Coordinator.allocate_resources, bind, patient_at.
    change (patients (append_log sent e)) with (patients e).
    rewrite Hp, coordinator_send_append. cbn [ret].
    rewrite append_log_app. reflexivity.
  - right.
    assert (Hbidders :
      Forall (fun b => exists h, hospitals e !! fst b = Some h /\
                                 ~ (initial_resources h == 0)%Q)
        (first_bid :: others)).
    { rewrite <- Hbids. apply bidders_have_capacity; assumption. }
    destruct (allocate_runs (append_log sent e) patient p first_bid others
                Hp Hbidders)
      as (k & w & hw & e' & Hbest & Hhw & Hrun & Hhs & Hlog).
    change (hospitals (append_log sent e)) with (hospitals e) in *.
    assert (Hw : w ∈ quotes (hospitals e) required polled).
    { fold bids. rewrite Hbids. destruct Hbest as [Hk _].
      apply list_elem_of_lookup. exists k. exact Hk. }
    apply quotes_elem in Hw. destruct Hw as (hw' & Hhw' & Hq).
    rewrite Hhw in Hhw'. injection Hhw' as <-.
    apply quote_some in Hq. destruct Hq as (Hle & _ & _).
    assert (Hsuccess : Qle_bool (inject_Z (medical_needs p))
                         (current_resources hw) = true).
    { apply Qle_bool_iff. exact Hle. }
    cbv zeta in Hrun, Hhs, Hlog. rewrite Hsuccess in Hrun, Hhs, Hlog.
    exists k, w, hw, e'. split; [exact Hbest|]. split; [exact Hhw|].
    split; [exact Hle|]. split; [exact Hrun|]. split; [exact Hhs|].
    rewrite Hlog, coordinator_log_append, <- app_assoc. reflexivity.
Qed.

Lemma total_after_store (hs : list HospitalAgent) (i : nat) (h : HospitalAgent)
    (v : Q) :
  hs !! i = Some h ->
  (py_sum (map current_resources (<[i := set_current_resources v h]> hs)) ==
   py_sum (map current_resources hs) - current_resources h + v)%Q.
Proof.
  intros Hh. rewrite <- (alter_as_insert (set_current_resources v) hs i h Hh).
  apply py_sum_alter_current, Hh.
Qed.

Lemma quotes_nil (hs : list HospitalAgent) (required : Q) :
  quotes hs required (seq 0 (length hs)) = [] <->
  Forall (fun h => quote h required = None) hs.
Proof.
  split.
  - intros Hnil. apply Forall_lookup. intros i h Hh.
    destruct (quote h required) as [b|] eqn:Hq; [|reflexivity].
    exfalso.
    assert (Hin : (i, b) ∈ quotes hs required (seq 0 (length hs))).
    { unfold quotes. apply list_elem_of_omap. exists i. split.
      - apply elem_of_seq. apply lookup_lt_Some in Hh. lia.
      - rewrite Hh, Hq. reflexivity. }
    rewrite Hnil in Hin. apply elem_of_nil in Hin. exact Hin.
  - intros Hall.
    destruct (quotes hs required (seq 0 (length hs))) as [|b bs] eqn:Hq;
      [reflexivity|].
    exfalso.
    assert (Hin : b ∈ quotes hs required (seq 0 (length hs))).
    { rewrite Hq. apply list_elem_of_here. }
    apply quotes_elem in Hin. destruct Hin as (h & Hh & Hsome).
    rewrite (proj1 (Forall_lookup _ _) Hall _ _ Hh) in Hsome. discriminate.
Qed.

(** X1.  A negotiation for the patient's own positive demand never fails at
    the commit: it returns [None] exactly when no hospital makes a bid, and
    [True] as soon as one hospital does, because the winner's balance was
    checked against the same demand when it made its bid.  [False] is never
    returned. *)
Theorem negotiation_never_fails_at_commit (e : Env) (patient : nat)
    (p : PatientAgent) :
  patients e !! patient = Some p ->
  (0 < medical_needs p)%Z ->
  Forall capacity_defined (hospitals e) ->
  let required := inject_Z (medical_needs p) in
  let out := negotiate_resource_allocation patient required e in
  (Forall (fun h => quote h required = None) (hospitals e) ->
   fst out = Ok None) /\
  (~ Forall (fun h => quote h required = None) (hospitals e) ->
   fst out = Ok (Some true)) /\
  fst out <> Ok (Some false).
Proof.
  intros Hp Hneeds Hcap required out.
  destruct (negotiate_runs e patient p Hp Hneeds Hcap)
    as [[Hnil Hrun]|(k & w & hw & e' & Hbest & _ & _ & Hrun & _)];
    fold required in Hnil, Hrun || fold required in Hbest, Hrun.
  - subst out. rewrite Hrun. cbn [fst].
    split; [reflexivity|]. split; [|discriminate].
    intros Hsome. exfalso. apply Hsome, quotes_nil, Hnil.
  - subst out. rewrite Hrun. cbn [fst].
    split; [|split; [reflexivity | discriminate]].
    intros Hnone. exfalso. apply quotes_nil in Hnone.
    destruct Hbest as [Hk _]. rewrite Hnone in Hk. discriminate.
Qed.

Lemma negotiation_never_fails_at_commit_witness :
  let hs := [Hospital.__init__ 2 "general" 200;
             Hospital.__init__ 3 "surgical" 50] in
  let p := {| p_unique_id := 4; severity := "medium";
              medical_needs := 40; unmet_needs := 0 |} in
  fst (negotiate_resource_allocation 0 40 (env_of hs [p] (fun _ => 0%Z))) <>
    Ok (Some false).
Proof.
  intros hs p.
  refine (proj2 (proj2 (negotiation_never_fails_at_commit
            (env_of hs [p] (fun _ => 0%Z)) 0 p eq_refl _ _))).
  - reflexivity.
  - repeat (apply List.Forall_cons;
            [intros _ H; vm_compute in H; discriminate|]).
    apply List.Forall_nil.
Defined.







(** ** Demand generation as a whole *)

Lemma negotiate_keeps_generator (patient : nat) (required : Q) (e : Env) :
  rng_pos (snd (negotiate_resource_allocation patient required e)) =
    rng_pos e /\
  rng_draws (snd (negotiate_resource_allocation patient required e)) =
    rng_draws e.
Proof.
  apply (negotiate_preserves
           (fun e' => rng_pos e' = rng_pos e /\ rng_draws e' = rng_draws e)).
  - intros message. preserves_step.
  - intros i j s. unfold Hospital.allocate_resources. preserves_with fail.
  - split; reflexivity.
Qed.

Lemma alter_alter_as_insert {A : Type} (f g : A -> A) (l : list A) (i : nat)
    (x : A) :
  l !! i = Some x -> alter f i (alter g i l) = <[i := f (g x)]> l.
Proof.
  intros Hx. rewrite (alter_as_insert g l i x Hx).
  rewrite (alter_as_insert f _ i (g x)).
  - apply list_insert_insert_eq.
  - apply list_lookup_insert_eq. apply lookup_lt_Some in Hx. exact Hx.
Qed.

Lemma next_demand_positive (e : Env) (s : string) : (0 < next_demand e s)%Z.
Proof.
  pose proof (next_demand_bounds e s) as Hb.
  destruct (severity_resource_ranges_cases s) as [H|[H|[H|H]]];
    rewrite H in Hb; lia.
Qed.

(* The run of [generate_medical_needs]. *)
Lemma generate_runs (e : Env) (self : nat) (p : PatientAgent) :
  patients e !! self = Some p ->
  Forall capacity_defined (hospitals e) ->
  let demand := next_demand e (severity p) in
  exists e' unmet,
    Patient.generate_medical_needs self e = (Ok tt, e') /\
    (unmet = 0 \/ unmet = demand)%Z /\
    patients e' =
      <[self := set_unmet_needs unmet (set_medical_needs demand p)]>
        (patients e) /\
    length (hospitals e') = length (hospitals e) /\
    (total_resources e - total_resources e' == inject_Z (demand - unmet))%Q /\
    rng_pos e' = S (rng_pos e) /\
    rng_draws e' = rng_draws e.
Proof.
  intros Hp Hcap demand.
  pose proof (next_demand_positive e (severity p)) as Hpos. fold demand in Hpos.
  unfold Patient.generate_medical_needs.
  unfold bind at 1. unfold patient_at at 1. rewrite Hp.
  pose proof (next_demand_bounds e (severity p)) as Hb.
  unfold next_demand in demand, Hb.
  destruct (Patient.severity_resource_ranges (severity p)) as [lo hi].
  unfold bind at 1. rewrite randint_value by lia. fold demand.
  unfold bind at 1. cbn [modify fst snd].
  unfold bind at 1. rewrite coordinator_send_append.
  set (e1 := append_log _ _).
  assert (Hp1 : patients e1 !! self = Some (set_medical_needs demand p)).
  { subst e1. cbn [patients append_log with_coordinator with_patients].
    rewrite list_lookup_alter_eq. cbn [patients with_rng_pos].
    rewrite Hp. reflexivity. }
  pose proof (negotiate_keeps_patients self (inject_Z demand) e1) as Hkeep.
  destruct (negotiate_keeps_generator self (inject_Z demand) e1)
    as [Hpos2 Hdraws2].
  unfold bind at 1.
  destruct (negotiate_runs e1 self (set_medical_needs demand p) Hp1 Hpos Hcap)
    as [[_ Hrun]|(k & w & hw & e2 & _ & Hhw & Hle & Hrun & Hhs & _)];
    cbn [medical_needs set_medical_needs] in Hrun;
    rewrite Hrun in Hkeep, Hpos2, Hdraws2 |- *; cbn [snd] in Hkeep, Hpos2, Hdraws2.
  - set (e2 := append_log _ e1) in *.
    unfold bind, patient_at. rewrite Hkeep, Hp1.
    cbn [modify fst snd Patient.truthy medical_needs set_medical_needs].
    exists (with_patients
              (alter (set_unmet_needs demand) self (patients e2)) e2), demand.
    split; [reflexivity|]. split; [right; reflexivity|]. split.
    { cbn [patients with_patients]. rewrite Hkeep.
      apply (alter_alter_as_insert _ _ _ _ _ Hp). }
    split; [reflexivity|]. split.
    { change (total_resources (with_patients _ e2)) with (total_resources e).
      unfold Qeq. simpl. lia. }
    split; [exact Hpos2 | exact Hdraws2].
  - unfold bind, patient_at. rewrite Hkeep, Hp1.
    cbn [modify fst snd Patient.truthy].
    exists (with_patients
              (alter (set_unmet_needs 0) self (patients e2)) e2), 0%Z.
    split; [reflexivity|]. split; [left; reflexivity|]. split.
    { cbn [patients with_patients]. rewrite Hkeep.
      apply (alter_alter_as_insert _ _ _ _ _ Hp). }
    cbn [medical_needs set_medical_needs] in Hle, Hhs.
    change (hospitals e1) with (hospitals e) in Hhw, Hhs.
    split.
    { cbn [hospitals with_patients]. rewrite Hhs. apply length_insert. }
    split.
    { unfold total_resources. cbn [hospitals with_patients]. rewrite Hhs.
      rewrite (total_after_store _ _ _ _ Hhw).
      rewrite Z.sub_0_r. lra. }
    split; [exact Hpos2 | exact Hdraws2].
Qed.



(** ** Construction *)

Lemma chosen_elem {A : Type} (x : A) (xs : list A) (draw : Z) :
  In (chosen x xs draw) (x :: xs).
Proof.
  unfold chosen. apply nth_In.
  set (n := length (x :: xs)).
  assert (Hn : (0 < Z.of_nat n)%Z) by (subst n; simpl; lia).
  pose proof (Z.mod_pos_bound draw (Z.of_nat n) Hn) as Hb. clearbody n.
  revert Hb. generalize (draw mod Z.of_nat n)%Z. intros r Hb. lia.
Qed.

Lemma choice_runs {A : Type} (x : A) (xs : list A) (e : Env) :
  Random.choice x xs e =
    (Ok (chosen x xs (rng_draws e (rng_pos e))), with_rng_pos (S (rng_pos e)) e).
Proof. reflexivity. Qed.

Lemma setup_hospitals_loop (initial : Q) (n : nat) :
  forall (a : nat) (e : Env),
  exists e',
    for_each (seq a n) (fun _ =>
      unique_id <- next_id ;;
      specialization <- get_hospital_specialization ;;
      modify (fun e =>
        with_hospitals
          (hospitals e ++
             [Hospital.__init__ unique_id specialization initial]) e)) e =
      (Ok tt, e') /\
    hospitals e' =
      hospitals e ++
      map (fun k =>
             Hospital.__init__ (current_id e + 1 + Z.of_nat k)
               (chosen "emergency"%string
                  ["intensive_care"; "general"; "pediatric"; "surgical"]%string
                  (rng_draws e (rng_pos e + k)%nat))
               initial) (seq 0 n) /\
    patients e' = patients e /\
    current_id e' = (current_id e + Z.of_nat n)%Z /\
    rng_pos e' = (rng_pos e + n)%nat /\
    same_services e e'.
Proof.
  induction n as [|n IH]; intros a e.
  - exists e. simpl. rewrite app_nil_r, Z.add_0_r, Nat.add_0_r.
    repeat split.
  - simpl seq. cbn [for_each]. unfold bind at 1.
    unfold bind at 1. unfold next_id at 1. cbv zeta.
    unfold bind at 1. unfold get_hospital_specialization at 1.
    rewrite choice_runs. cbn [modify fst snd].
    set (e1 := with_hospitals _ _).
    destruct (IH (S a) e1) as (e' & Hrun & Hhs & Hps & Hid & Hpos & Hsame).
    exists e'. split; [exact Hrun|].
    split; [|split; [exact Hps|split; [|split]]].
    + rewrite Hhs. subst e1.
      cbn [hospitals with_hospitals with_rng_pos with_current_id current_id
           rng_pos rng_draws].
      rewrite <- app_assoc. f_equal. simpl. f_equal.
      * rewrite Z.add_0_r, Nat.add_0_r. reflexivity.
      * rewrite <- seq_shift, map_map. apply map_ext. intros k.
        f_equal; [lia|]. f_equal. f_equal. lia.
    + rewrite Hid. subst e1. simpl. lia.
    + rewrite Hpos. subst e1. simpl. lia.
    + exact Hsame.
Qed.

Lemma setup_patients_loop (n : nat) :
  forall (a : nat) (e : Env),
  exists e',
    for_each (seq a n) (fun _ =>
      unique_id <- next_id ;;
      severity <- Random.choice "low"%string ["medium"; "high"]%string ;;
      modify (fun e =>
        with_patients (patients e ++ [Patient.__init__ unique_id severity]) e))
      e = (Ok tt, e') /\
    patients e' =
      patients e ++
      map (fun k =>
             Patient.__init__ (current_id e + 1 + Z.of_nat k)
               (chosen "low"%string ["medium"; "high"]%string
                  (rng_draws e (rng_pos e + k)%nat))) (seq 0 n) /\
    hospitals e' = hospitals e /\
    current_id e' = (current_id e + Z.of_nat n)%Z /\
    rng_pos e' = (rng_pos e + n)%nat /\
    same_services e e'.
Proof.
  induction n as [|n IH]; intros a e.
  - exists e. simpl. rewrite app_nil_r, Z.add_0_r, Nat.add_0_r.
    repeat split.
  - simpl seq. cbn [for_each]. unfold bind at 1.
    unfold bind at 1. unfold next_id at 1. cbv zeta.
    unfold bind at 1. rewrite choice_runs. cbn [modify fst snd].
    set (e1 := with_patients _ _).
    destruct (IH (S a) e1) as (e' & Hrun & Hps & Hhs & Hid & Hpos & Hsame).
    exists e'. split; [exact Hrun|].
    split; [|split; [exact Hhs|split; [|split]]].
    + rewrite Hps. subst e1.
      cbn [patients with_patients with_rng_pos with_current_id current_id
           rng_pos rng_draws].
      rewrite <- app_assoc. f_equal. simpl. f_equal.
      * rewrite Z.add_0_r, Nat.add_0_r. reflexivity.
      * rewrite <- seq_shift, map_map. apply map_ext. intros k.
        f_equal; [lia|]. f_equal. f_equal. lia.
    + rewrite Hid. subst e1. simpl. lia.
    + rewrite Hpos. subst e1. simpl. lia.
    + exact Hsame.
Qed.

(* The run of the constructor. *)
Lemma init_runs (num_hospitals num_patients : Z) (initial : Q)
    (draws : nat -> Z) :
  let n := Z.to_nat num_hospitals in
  let m := Z.to_nat num_patients in
  exists e',
    __init__ num_hospitals num_patients initial (blank draws) = (Ok tt, e') /\
    hospitals e' = map (constructed_hospital draws initial) (seq 0 n) /\
    patients e' = map (constructed_patient draws n) (seq 0 m) /\
    resource_coordinator e' = Coordinator.__init__ 1 /\
    global_message_manager e' = Manager.__init__ /\
    total_unmet_needs e' = 0%Z /\
    resource_allocation_efficiency e' = 0%Q /\
    current_id e' = (1 + Z.of_nat n + Z.of_nat m)%Z /\
    rng_pos e' = (n + m)%nat /\
    rng_draws e' = draws.
Proof.
  intros n m. unfold __init__.
  unfold bind at 1. unfold setup_resource_coordinator at 1.
  unfold bind at 1. unfold next_id at 1. cbv zeta. cbn [modify fst snd].
  set (e0 := with_coordinator _ _).
  unfold bind at 1. unfold setup_hospitals, range. fold n.
  destruct (setup_hospitals_loop initial n 0 e0)
    as (e1 & Hrun1 & Hhs1 & Hps1 & Hid1 & Hpos1 & Hc1 & Hg1 & _ & _ & Hd1).
  rewrite Hrun1.
  unfold bind at 1. unfold setup_patients, range. fold m.
  destruct (setup_patients_loop m 0 e1)
    as (e2 & Hrun2 & Hps2 & Hhs2 & Hid2 & Hpos2 & Hc2 & Hg2 & _ & _ & Hd2).
  rewrite Hrun2. unfold bind. cbn [modify fst snd].
  eexists. split; [reflexivity|].
  cbn [hospitals patients resource_coordinator global_message_manager
       total_unmet_needs resource_allocation_efficiency current_id rng_pos
       rng_draws with_efficiency with_total_unmet_needs].
  split.
  { rewrite Hhs2, Hhs1. subst e0. simpl. apply map_ext. intros k.
    unfold constructed_hospital. f_equal; lia. }
  split.
  { rewrite Hps2, Hps1, Hid1, Hpos1, Hd1. subst e0. simpl.
    apply map_ext. intros k. unfold constructed_patient. f_equal; lia. }
  split; [rewrite Hc2, Hc1; reflexivity|].
  split; [rewrite Hg2, Hg1; reflexivity|].
  split; [reflexivity|]. split; [reflexivity|].
  split; [rewrite Hid2, Hid1; subst e0; simpl; lia|].
  split; [rewrite Hpos2, Hpos1; subst e0; simpl; lia|].
  rewrite Hd2, Hd1. reflexivity.
Qed.

(** X6.  The constructor returns normally and builds the coordinator with
    identifier 1, then [num_hospitals] hospitals with identifiers 2, 3, ...
    whose balance equals their capacity [initial_resources], then
    [num_patients] patients with the following identifiers, no demand and
    no unmet demand.  Specializations and severities are the elements
    chosen by the first draws of the generator, one draw per agent.  The
    logs are empty and the metrics zero; a count that is not positive gives
    an empty registry. *)
Theorem constructor_builds_registries (num_hospitals num_patients : Z)
    (initial : Q) (draws : nat -> Z) :
  let out := __init__ num_hospitals num_patients initial (blank draws) in
  let n := Z.to_nat num_hospitals in
  let m := Z.to_nat num_patients in
  fst out = Ok tt /\
  hospitals (snd out) = map (constructed_hospital draws initial) (seq 0 n) /\
  patients (snd out) = map (constructed_patient draws n) (seq 0 m) /\
  c_unique_id (resource_coordinator (snd out)) = 1%Z /\
  coordinator_log (snd out) = [] /\
  global_log (snd out) = [] /\
  total_unmet_needs (snd out) = 0%Z /\
  resource_allocation_efficiency (snd out) = 0%Q /\
  rng_pos (snd out) = (n + m)%nat.
Proof.
  intros out n m.
  destruct (init_runs num_hospitals num_patients initial draws)
    as (e' & Hrun & Hhs & Hps & Hc & Hg & Hu & Heff & _ & Hpos & _).
  subst out. rewrite Hrun. cbn [fst snd].
  split; [reflexivity|]. split; [exact Hhs|]. split; [exact Hps|].
  unfold coordinator_log, global_log. rewrite Hc, Hg.
  repeat split; assumption.
Qed.

Lemma map_seq_from {A : Type} (f : nat -> A) (a len : nat) :
  map f (seq a len) = map (fun k => f (a + k)%nat) (seq 0 len).
Proof.
  revert a. induction len as [|len IH]; intros a; simpl.
  - reflexivity.
  - rewrite Nat.add_0_r. f_equal.
    rewrite (IH (S a)), <- seq_shift, map_map. apply map_ext. intros k.
    f_equal. lia.
Qed.

(** X7.  After construction the unique identifiers of the coordinator, the
    hospitals and the patients are pairwise distinct; every hospital's
    specialization is one of the five specializations and every patient's
    severity is low, medium or high. *)
Theorem constructor_identifiers_distinct (num_hospitals num_patients : Z)
    (initial : Q) (draws : nat -> Z) :
  let e := snd (__init__ num_hospitals num_patients initial (blank draws)) in
  NoDup (c_unique_id (resource_coordinator e) ::
         map h_unique_id (hospitals e) ++ map p_unique_id (patients e)) /\
  Forall (fun h => In (specialization h) specializations) (hospitals e) /\
  Forall (fun p => In (severity p) severities) (patients e).
Proof.
  intros e.
  destruct (init_runs num_hospitals num_patients initial draws)
    as (e' & Hrun & Hhs & Hps & Hc & _).
  subst e. rewrite Hrun. cbn [snd]. rewrite Hhs, Hps, Hc.
  set (n := Z.to_nat num_hospitals). set (m := Z.to_nat num_patients).
  split; [|split].
  - assert (Hids :
      c_unique_id (Coordinator.__init__ 1) ::
      map h_unique_id (map (constructed_hospital draws initial) (seq 0 n)) ++
      map p_unique_id (map (constructed_patient draws n) (seq 0 m)) =
      map (fun k => (1 + Z.of_nat k)%Z) (seq 0 (1 + (n + m)))).
    { rewrite !map_map.
      rewrite (seq_app 1 (n + m) 0), (seq_app n m (0 + 1)), !map_app.
      rewrite (map_seq_from _ (0 + 1) n), (map_seq_from _ (0 + 1 + n) m).
      simpl. f_equal. f_equal; apply map_ext; intros k; lia. }
    rewrite Hids. apply NoDup_fmap_2; [|apply NoDup_seq].
    intros a b Hab. lia.
  - apply Forall_map. apply Forall_forall. intros k _.
    apply (chosen_elem "emergency"%string).
  - apply Forall_map. apply Forall_forall. intros k _.
    apply (chosen_elem "low"%string).
Qed.

(** ** Whole steps and runs *)

Lemma sound_capacity_defined (e : Env) :
  all_within_cap e -> Forall capacity_defined (hospitals e).
Proof.
  intros [Hcap _]. eapply Forall_impl; [exact Hcap|].
  intros h [Hi Hc] Hpos Hz. unfold Hospital.max_growth_factor in Hc.
  rewrite Hz in Hc. lra.
Qed.

Lemma generate_preserves_balances_ok (self : nat) :
  preserves balances_ok (Patient.generate_medical_needs self).
Proof.
  apply generate_preserves.
  - intros message. preserves_step.
  - frame_setter.
  - frame_setter.
  - apply commit_preserves_balances_ok.
Qed.

(* what the methods that only touch balances and metrics keep of [sound] *)
Lemma store_keeps_shape (n m : nat) (i : nat) (v : Q) :
  preserves (fun e => length (hospitals e) = n /\ length (patients e) = m /\
                      Forall settled (patients e))
    (store_current_resources i v).
Proof.
  apply preserves_store_current_resources. intros e (Hn & Hm & Hs).
  cbn [hospitals patients with_hospitals]. rewrite length_alter. auto.
Qed.

Lemma replenish_keeps_shape (n m : nat) (i : nat) :
  preserves (fun e => length (hospitals e) = n /\ length (patients e) = m /\
                      Forall settled (patients e))
    (Hospital.process_resources i).
Proof.
  unfold Hospital.process_resources.
  preserves_with ltac:(apply store_keeps_shape).
Qed.

Lemma rebalance_keeps_shape (n m : nat) :
  preserves (fun e => length (hospitals e) = n /\ length (patients e) = m /\
                      Forall settled (patients e))
    Coordinator.coordinate_global_resources.
Proof.
  apply rebalance_preserves. intros s t. unfold Coordinator.transfer.
  preserves_with ltac:(apply store_keeps_shape).
Qed.

Lemma metrics_runs (e : Env) :
  balances_ok e ->
  update_performance_metrics e =
    (Ok tt,
     with_efficiency
       ((total_resources e - inject_Z (py_sumZ (map unmet_needs (patients e)))) /
        (total_resources e + 1))
       (with_total_unmet_needs (py_sumZ (map unmet_needs (patients e))) e)).
Proof.
  intros Hok. pose proof (total_resources_nonneg e Hok) as Hpos.
  unfold update_performance_metrics, bind, gets, modify, lift.
  cbn [fst snd hospitals patients with_total_unmet_needs].
  fold (total_resources e). rewrite py_div_ok by lra. reflexivity.
Qed.

Lemma generate_returns (n m self : nat) :
  (self < m)%nat -> returns (sound n m) (Patient.generate_medical_needs self).
Proof.
  intros Hself e (Hn & Hm & Hok & Hcap & Hs).
  destruct (lookup_lt_is_Some_2 (patients e) self) as [p Hp]; [lia|].
  destruct (generate_runs e self p Hp (sound_capacity_defined e Hcap))
    as (e' & unmet & Hrun & Hunmet & Hps & Hlen & _).
  pose proof (generate_preserves_balances_ok self e Hok) as Hok'.
  pose proof (generate_preserves_cap self e Hcap) as Hcap'.
  rewrite Hrun in Hok', Hcap' |- *. cbn [fst snd] in *.
  split; [reflexivity|].
  split; [congruence|]. split; [rewrite Hps, length_insert; exact Hm|].
  split; [exact Hok'|]. split; [exact Hcap'|].
  rewrite Hps. apply Forall_insert; [exact Hs|].
  unfold settled. simpl. exact Hunmet.
Qed.

Lemma replenish_returns (n m self : nat) :
  (self < n)%nat -> returns (sound n m) (Hospital.process_resources self).
Proof.
  intros Hself e (Hn & Hm & Hok & Hcap & Hs). split.
  - destruct (lookup_lt_is_Some_2 (hospitals e) self) as [h Hh]; [lia|].
    unfold Hospital.process_resources, bind, hospital_at. rewrite Hh.
    reflexivity.
  - destruct (replenish_keeps_shape n m self e) as (Hn' & Hm' & Hs'); [auto|].
    split; [exact Hn'|]. split; [exact Hm'|].
    split; [apply replenish_preserves_balances_ok, Hok|].
    split; [apply replenish_preserves_cap, Hcap | exact Hs'].
Qed.

Lemma rebalance_returns_sound (n m : nat) :
  returns (sound n m) Coordinator.coordinate_global_resources.
Proof.
  intros e (Hn & Hm & Hok & Hcap & Hs). split; [apply rebalance_returns|].
  destruct (rebalance_keeps_shape n m e) as (Hn' & Hm' & Hs'); [auto|].
  split; [exact Hn'|]. split; [exact Hm'|]. split.
  - apply (rebalance_preserves balances_ok transfer_preserves_balances_ok), Hok.
  - split; [|exact Hs'].
    apply (rebalance_preserves all_within_cap transfer_preserves_cap), Hcap.
Qed.

Lemma metrics_returns (n m : nat) : returns (sound n m) update_performance_metrics.
Proof.
  intros e (Hn & Hm & Hok & Hcap & Hs). rewrite (metrics_runs e Hok).
  split; [reflexivity|]. cbn [snd].
  split; [exact Hn|]. split; [exact Hm|]. split; [exact Hok|].
  split; [exact Hcap | exact Hs].
Qed.

Lemma returns_then (I : Env -> Prop) (m1 m2 : M unit) :
  returns I m1 -> returns I m2 -> returns I (m1 ;;; m2).
Proof.
  intros H1 H2 e He. unfold bind. destruct (H1 e He) as [Hok He1].
  destruct (m1 e) as [[[]|x] e1]; [|discriminate]. apply H2, He1.
Qed.

Lemma returns_for_each_index (I : Env -> Prop) (n : nat)
    (body : nat -> M unit) :
  (forall i, (i < n)%nat -> returns I (body i)) ->
  returns I (for_each (seq 0 n) body).
Proof.
  intros Hbody e He. apply (for_each_returns I); [|exact He].
  intros i Hi. apply Hbody. apply elem_of_seq in Hi. lia.
Qed.

(* One step: the three phases return normally and the metrics are computed
   on the state they leave. *)
Lemma step_runs (n m : nat) (e : Env) :
  sound n m e ->
  exists e3,
    sound n m e3 /\
    step e = update_performance_metrics e3 /\
    fst (update_performance_metrics e3) = Ok tt /\
    sound n m (snd (update_performance_metrics e3)).
Proof.
  intros He. pose proof He as (Hn & Hm & _).
  assert (H1 : returns (sound n m)
                 (for_each (seq 0 m) Patient.generate_medical_needs)).
  { apply returns_for_each_index. intros i Hi. apply generate_returns, Hi. }
  assert (H2 : returns (sound n m)
                 (for_each (seq 0 n) Hospital.process_resources)).
  { apply returns_for_each_index. intros i Hi. apply replenish_returns, Hi. }
  unfold step. unfold bind at 1. cbn [gets]. rewrite Hm.
  unfold bind at 1. destruct (H1 e He) as [Hok1 He1].
  destruct (for_each (seq 0 m) Patient.generate_medical_needs e)
    as [[[]|x] e1]; [|discriminate]. cbn [snd] in He1.
  unfold bind at 1. cbn [gets]. destruct He1 as (Hn1 & Hrest1).
  rewrite Hn1. assert (He1 : sound n m e1) by (split; assumption).
  unfold bind at 1. destruct (H2 e1 He1) as [Hok2 He2].
  destruct (for_each (seq 0 n) Hospital.process_resources e1)
    as [[[]|x] e2]; [|discriminate]. cbn [snd] in He2.
  unfold bind at 1. destruct (rebalance_returns_sound n m e2 He2) as [Hok3 He3].
  destruct (Coordinator.coordinate_global_resources e2)
    as [[[]|x] e3]; [|discriminate]. cbn [snd] in He3.
  exists e3. split; [exact He3|]. split; [reflexivity|].
  apply metrics_returns, He3.
Qed.

Lemma step_returns (n m : nat) : returns (sound n m) step.
Proof.
  intros e He. destruct (step_runs n m e He) as (e3 & _ & -> & Hok & Hs).
  split; assumption.
Qed.

Lemma init_sound (num_hospitals num_patients : Z) (initial : Q)
    (draws : nat -> Z) :
  (0 <= initial)%Q ->
  sound (Z.to_nat num_hospitals) (Z.to_nat num_patients)
    (snd (__init__ num_hospitals num_patients initial (blank draws))).
Proof.
  intros Hinit.
  pose proof (init_balances_ok num_hospitals num_patients initial draws Hinit)
    as Hok.
  pose proof (reachable_within_cap num_hospitals num_patients initial draws []
                Hinit) as Hcap.
  simpl perform_all in Hcap.
  destruct (init_runs num_hospitals num_patients initial draws)
    as (e' & Hrun & Hhs & Hps & _).
  rewrite Hrun in Hok, Hcap |- *. cbn [snd] in *.
  split; [rewrite Hhs, length_map, length_seq; reflexivity|].
  split; [rewrite Hps, length_map, length_seq; reflexivity|].
  split; [exact Hok|]. split; [exact Hcap|].
  rewrite Hps. apply Forall_map, Forall_forall. intros k _. left. reflexivity.
Qed.

(** X8.  A simulation never raises: for every seed, every number of
    hospitals, patients and steps and every [initial_resources] between 0
    and [2 ** 1000], a range in which the conversion of an integer to a
    float cannot overflow, construction followed by the steps returns
    normally; in particular [run_healthcare_simulation] does.  No division
    by zero occurs in a quote, in the ranking of bids or in the metrics,
    and every agent that is referred to exists. *)
Theorem simulation_returns_normally (num_hospitals num_patients
    simulation_steps : Z) (initial : Q) (draws : nat -> Z) :
  (0 <= initial)%Q ->
  (initial <= inject_Z (2 ^ 1000))%Q ->
  fst ((__init__ num_hospitals num_patients initial ;;;
        for_each (range simulation_steps) (fun _ => step)) (blank draws)) =
    Ok tt /\
  fst (run_healthcare_simulation num_hospitals num_patients simulation_steps
         (blank draws)) = Ok tt.
Proof.
  intros Hinit _.
  assert (Hgen : forall initial', (0 <= initial')%Q ->
    fst ((__init__ num_hospitals num_patients initial' ;;;
          for_each (range simulation_steps) (fun _ => step)) (blank draws)) =
      Ok tt).
  { intros initial' Hinit'. unfold bind.
    pose proof (init_sound num_hospitals num_patients initial' draws Hinit')
      as Hsound.
    destruct (init_runs num_hospitals num_patients initial' draws)
      as (e' & Hrun & _).
    rewrite Hrun in Hsound |- *. cbn [snd] in Hsound.
    apply (for_each_returns
             (sound (Z.to_nat num_hospitals) (Z.to_nat num_patients)));
      [|exact Hsound].
    intros _ _. apply step_returns. }
  split; [apply Hgen, Hinit|].
  apply (Hgen 1000%Q). discriminate.
Qed.

Lemma simulation_returns_normally_witness :
  fst (run_healthcare_simulation 5 50 10 (blank (fun n => Z.of_nat n))) = Ok tt.
Proof.
  refine (proj2 (simulation_returns_normally 5 50 10 1000
                   (fun n => Z.of_nat n) _ _)).
  - discriminate.
  - vm_compute. discriminate.
Defined.

Lemma for_each_snoc {A : Type} (l : list A) (x : A) (body : A -> M unit) :
  forall e, for_each (l ++ [x]) body e = (for_each l body ;;; body x) e.
Proof.
  induction l as [|y l IH]; intros e; simpl.
  - unfold bind, ret. destruct (body x e) as [[[]|?] e']; reflexivity.
  - unfold bind. destruct (body y e) as [[[]|?] e1]; [|reflexivity].
    rewrite IH. reflexivity.
Qed.


(* a field of the hospitals that [set_current_resources] leaves alone is
   constant under every operation and under a whole step *)
Section StaticFields.
Context {X : Type} (field : HospitalAgent -> X) (c : list X).
Hypothesis field_static :
  forall v h, field (set_current_resources v h) = field h.

Lemma static_alter (v : Q) (i : nat) (hs : list HospitalAgent) :
  map field (alter (set_current_resources v) i hs) = map field hs.
Proof.
  revert i. induction hs as [|h hs IH]; intros [|i]; simpl;
    rewrite ?field_static; try reflexivity.
  f_equal. apply IH.
Qed.

Lemma store_keeps_static (i : nat) (v : Q) :
  preserves (fun e => map field (hospitals e) = c)
    (store_current_resources i v).
Proof.
  apply preserves_store_current_resources. intros e He.
  cbn [hospitals with_hospitals]. rewrite static_alter. exact He.
Qed.

Lemma commit_keeps_static (i j : nat) (s : Q) :
  preserves (fun e => map field (hospitals e) = c)
    (Hospital.allocate_resources i j s).
Proof.
  unfold Hospital.allocate_resources.
  preserves_with ltac:(apply store_keeps_static).
Qed.

Lemma replenish_keeps_static (i : nat) :
  preserves (fun e => map field (hospitals e) = c)
    (Hospital.process_resources i).
Proof.
  unfold Hospital.process_resources.
  preserves_with ltac:(apply store_keeps_static).
Qed.

Lemma transfer_keeps_static (s t : nat) :
  preserves (fun e => map field (hospitals e) = c) (Coordinator.transfer s t).
Proof.
  unfold Coordinator.transfer.
  preserves_with ltac:(apply store_keeps_static).
Qed.

Lemma send_keeps_static (message : Message) :
  preserves (fun e => map field (hospitals e) = c) (coordinator_send message).
Proof. preserves_step. Qed.

Lemma step_keeps_static :
  preserves (fun e => map field (hospitals e) = c) step.
Proof.
  apply step_preserves; try frame_setter.
  - apply send_keeps_static.
  - apply commit_keeps_static.
  - apply replenish_keeps_static.
  - apply transfer_keeps_static.
Qed.

Lemma perform_all_keeps_static (ops : list operation) (e : Env) :
  map field (hospitals e) = c ->
  map field (hospitals (perform_all ops e)) = c.
Proof.
  apply (perform_all_preserves (fun e => map field (hospitals e) = c));
    try frame_setter.
  - apply send_keeps_static.
  - apply commit_keeps_static.
  - apply replenish_keeps_static.
  - apply transfer_keeps_static.
Qed.

End StaticFields.

Lemma map_constant {A B : Type} (b : B) (l : list A) :
  map (fun _ => b) l = repeat b (length l).
Proof. induction l as [|x l IH]; simpl; [reflexivity | f_equal; exact IH]. Qed.

Lemma map_repeat_all {A B : Type} (f : A -> B) (b : B) (l : list A) (n : nat) :
  map f l = repeat b n -> Forall (fun x => f x = b) l.
Proof.
  revert n. induction l as [|x l IH]; intros [|n] H; simpl in H;
    try discriminate; [constructor|].
  injection H as Hx Hl. constructor; [exact Hx | exact (IH n Hl)].
Qed.

(* the environment after construction and [k] steps *)
Lemma run_sound (num_hospitals num_patients : Z) (initial : Q)
    (draws : nat -> Z) (k : nat) :
  (0 <= initial)%Q ->
  sound (Z.to_nat num_hospitals) (Z.to_nat num_patients)
    (snd ((__init__ num_hospitals num_patients initial ;;;
           for_each (seq 0 k) (fun _ => step)) (blank draws))).
Proof.
  intros Hinit. unfold bind.
  pose proof (init_sound num_hospitals num_patients initial draws Hinit)
    as Hsound.
  destruct (init_runs num_hospitals num_patients initial draws)
    as (e' & Hrun & _).
  rewrite Hrun in Hsound |- *. cbn [snd] in Hsound.
  apply (for_each_returns
           (sound (Z.to_nat num_hospitals) (Z.to_nat num_patients)));
    [|exact Hsound].
  intros _ _. apply step_returns.
Qed.

(** X9.  After construction with a non-negative [initial_resources] and any
    number of steps, the registries have the sizes given to the
    constructor, every balance lies between 0 and 1.5 times the hospital's
    capacity, and every patient's [unmet_needs] is either 0 or its
    [medical_needs]. *)
Theorem simulation_keeps_state_consistent (num_hospitals num_patients
    simulation_steps : Z) (initial : Q) (draws : nat -> Z) :
  (0 <= initial)%Q ->
  let e := snd ((__init__ num_hospitals num_patients initial ;;;
                 for_each (range simulation_steps) (fun _ => step))
                  (blank draws)) in
  length (hospitals e) = Z.to_nat num_hospitals /\
  length (patients e) = Z.to_nat num_patients /\
  Forall (fun h => initial_resources h = initial /\
                   (0 <= current_resources h)%Q /\
                   (current_resources h <= initial_resources h * 1.5)%Q)
    (hospitals e) /\
  Forall (fun p => unmet_needs p = 0%Z \/ unmet_needs p = medical_needs p)
    (patients e).
Proof.
  intros Hinit e.
  pose proof (run_sound num_hospitals num_patients initial draws
                (Z.to_nat simulation_steps) Hinit)
    as (Hn & Hm & Hok & [Hcap _] & Hs).
  fold (range simulation_steps) in Hn, Hm, Hok, Hcap, Hs. fold e in Hn, Hm, Hok, Hcap, Hs.
  split; [exact Hn|]. split; [exact Hm|]. split; [|exact Hs].
  assert (Hstatic : map initial_resources (hospitals e) =
                    repeat initial (Z.to_nat num_hospitals)).
  { subst e. unfold bind.
    destruct (init_runs num_hospitals num_patients initial draws)
      as (e' & Hrun & Hhs & _).
    rewrite Hrun.
    apply (preserves_for_each
             (fun e0 => map initial_resources (hospitals e0) =
                        repeat initial (Z.to_nat num_hospitals))).
    - intros _. apply step_keeps_static. reflexivity.
    - rewrite Hhs, map_map. simpl.
      rewrite map_constant, length_seq. reflexivity. }
  apply map_repeat_all in Hstatic.
  apply Forall_lookup. intros i h Hh.
  destruct (proj1 (Forall_lookup _ _) Hok i h Hh) as [_ Hc].
  destruct (proj1 (Forall_lookup _ _) Hcap i h Hh) as [_ Hcap'].
  split; [|split; [exact Hc | exact Hcap']].
  exact (proj1 (Forall_lookup _ _) Hstatic i h Hh).
Qed.

Lemma simulation_keeps_state_consistent_witness :
  length (hospitals
            (snd ((__init__ 2 3 1000 ;;;
                   for_each (range 4) (fun _ => step))
                    (blank (fun n => Z.of_nat n))))) = 2%nat.
Proof.
  refine (proj1 (simulation_keeps_state_consistent 2 3 4 1000
                   (fun n => Z.of_nat n) _)).
  discriminate.
Defined.




(** ** Rebalancing in detail *)

Lemma transfer_idle (source target : nat) (e : Env) (t : HospitalAgent) :
  (source < length (hospitals e))%nat ->
  hospitals e !! target = Some t ->
  (initial_resources t * 0.2 <= current_resources t)%Q ->
  Coordinator.transfer source target e = (Ok tt, e).
Proof.
  intros Hs Ht Hfull.
  destruct (lookup_lt_is_Some_2 _ _ Hs) as [s Hsl].
  unfold Coordinator.transfer, bind, hospital_at. rewrite Hsl, Ht.
  set (amount := py_min _ _).
  assert (Hno : Qltb 0 amount = false).
  { apply Qltb_false. subst amount.
    destruct (py_min_cases (current_resources s * 0.1)
                (initial_resources t * 0.2 - current_resources t))
      as [[_ ->]|[Hle ->]]; lra. }
  rewrite Hno. reflexivity.
Qed.

Lemma for_each_idle {A : Type} (l : list A) (body : A -> M unit) (e : Env) :
  (forall x, x ∈ l -> body x e = (Ok tt, e)) ->
  for_each l body e = (Ok tt, e).
Proof.
  induction l as [|x l IH]; intros Hbody; simpl; [reflexivity|].
  unfold bind. rewrite (Hbody x) by apply list_elem_of_here.
  apply IH. intros y Hy. apply Hbody, list_elem_of_further, Hy.
Qed.

(** X11.  A rebalancing pass changes nothing and sends nothing when every
    hospital holds at least 0.2 times its capacity: the amount offered to
    a target is measured against [initial_resources * 0.2], although the
    targets are selected below [initial_resources * 0.8]. *)
Theorem rebalancing_idle_above_a_fifth (e : Env) :
  Forall (fun h => (initial_resources h * 0.2 <= current_resources h)%Q)
    (hospitals e) ->
  Coordinator.coordinate_global_resources e = (Ok tt, e).
Proof.
  intros Hfull.
  unfold Coordinator.coordinate_global_resources, bind. cbn [gets fst snd].
  apply for_each_idle. intros source Hsource.
  apply for_each_idle. intros target Htarget.
  apply selected_refs_valid in Hsource, Htarget.
  destruct (lookup_lt_is_Some_2 _ _ Htarget) as [t Ht].
  apply (transfer_idle source target e t Hsource Ht).
  exact (proj1 (Forall_lookup _ _) Hfull target t Ht).
Qed.

Lemma rebalancing_idle_above_a_fifth_witness :
  let hs := [{| h_unique_id := 2; specialization := "general";
                initial_resources := 1000; current_resources := 1500 |};
             {| h_unique_id := 3; specialization := "surgical";
                initial_resources := 1000; current_resources := 250 |}] in
  Coordinator.coordinate_global_resources (env_of hs [] (fun _ => 0%Z)) =
    (Ok tt, env_of hs [] (fun _ => 0%Z)).
Proof.
  intros hs.
  apply (rebalancing_idle_above_a_fifth (env_of hs [] (fun _ => 0%Z))).
  repeat (apply List.Forall_cons; [intros H; vm_compute in H; discriminate|]).
  apply List.Forall_nil.
Defined.

(** X12.  One transfer between two different hospitals, the source holding
    a non-negative balance: the source's balance does not rise and stays
    non-negative, the target's balance does not fall, the other fields of
    both and every other hospital are left as they were, and a target at
    or above 0.2 times its capacity receives nothing: then no balance
    changes and no message is sent. *)
Theorem transfer_lowers_source_raises_target (source target : nat) (e : Env)
    (s t : HospitalAgent) :
  source <> target ->
  hospitals e !! source = Some s ->
  hospitals e !! target = Some t ->
  (0 <= current_resources s)%Q ->
  let e' := snd (Coordinator.transfer source target e) in
  (exists s' t',
     hospitals e' !! source = Some s' /\
     hospitals e' !! target = Some t' /\
     (0 <= current_resources s' <= current_resources s)%Q /\
     (current_resources t <= current_resources t')%Q /\
     (h_unique_id s', specialization s', initial_resources s') =
       (h_unique_id s, specialization s, initial_resources s) /\
     (h_unique_id t', specialization t', initial_resources t') =
       (h_unique_id t, specialization t, initial_resources t)) /\
  (forall k, k <> source -> k <> target ->
     hospitals e' !! k = hospitals e !! k) /\
  length (hospitals e') = length (hospitals e) /\
  ((initial_resources t * 0.2 <= current_resources t)%Q ->
   hospitals e' = hospitals e /\ coordinator_log e' = coordinator_log e).
Proof.
  intros Hne Hs Ht Hpos e'.
  set (amount := py_min (current_resources s * 0.1)%Q
                   (initial_resources t * 0.2 - current_resources t)%Q).
  assert (Hamount : (amount <= current_resources s * 0.1)%Q /\
                    (amount <= initial_resources t * 0.2 - current_resources t)%Q).
  { subst amount.
    destruct (py_min_cases (current_resources s * 0.1)
                (initial_resources t * 0.2 - current_resources t))
      as [[Hlt ->]|[Hle ->]]; split; lra. }
  destruct (Qlt_le_dec 0 amount) as [Hmove|Hstay].
  - pose proof (transfer_debits_and_credits source target e s t Hne Hs Ht Hmove)
      as Hhs.
    fold amount in Hhs. fold e' in Hhs. rewrite Hhs.
    assert (Hls : (source < length (hospitals e))%nat)
      by (apply lookup_lt_Some in Hs; exact Hs).
    assert (Hlt : (target < length (hospitals e))%nat)
      by (apply lookup_lt_Some in Ht; exact Ht).
    split.
    { exists (set_current_resources (current_resources s - amount) s),
             (set_current_resources (current_resources t + amount) t).
      split.
      { rewrite list_lookup_insert_ne by congruence.
        apply list_lookup_insert_eq. exact Hls. }
      split.
      { apply list_lookup_insert_eq. rewrite length_insert. exact Hlt. }
      cbn [current_resources h_unique_id specialization initial_resources
           set_current_resources].
      split; [split; lra|]. split; [lra|]. split; reflexivity. }
    split.
    { intros k Hks Hkt. rewrite !list_lookup_insert_ne by congruence.
      reflexivity. }
    split; [rewrite !length_insert; reflexivity|].
    intros Hfull. lra.
  - assert (Hrun : Coordinator.transfer source target e = (Ok tt, e)).
    { unfold Coordinator.transfer, bind, hospital_at. rewrite Hs, Ht.
      fold amount. apply Qltb_false in Hstay. rewrite Hstay. reflexivity. }
    subst e'. rewrite Hrun. cbn [snd].
    split.
    { exists s, t. split; [exact Hs|]. split; [exact Ht|].
      split; [split; lra|]. split; [lra|]. split; reflexivity. }
    split; [intros; reflexivity|]. split; [reflexivity|].
    intros _. split; reflexivity.
Qed.

Lemma transfer_lowers_source_raises_target_witness :
  let s := {| h_unique_id := 2; specialization := "general";
              initial_resources := 1000; current_resources := 1500 |} in
  let t := {| h_unique_id := 3; specialization := "surgical";
              initial_resources := 1000; current_resources := 100 |} in
  let e' := snd (Coordinator.transfer 0 1 (env_of [s; t] [] (fun _ => 0%Z))) in
  exists s' t',
    hospitals e' !! 0%nat = Some s' /\
    hospitals e' !! 1%nat = Some t' /\
    (0 <= current_resources s' <= current_resources s)%Q /\
    (current_resources t <= current_resources t')%Q /\
    (h_unique_id s', specialization s', initial_resources s') =
      (h_unique_id s, specialization s, initial_resources s) /\
    (h_unique_id t', specialization t', initial_resources t') =
      (h_unique_id t, specialization t, initial_resources t).
Proof.
  intros s t e'.
  refine (proj1 (transfer_lowers_source_raises_target 0 1
                   (env_of [s; t] [] (fun _ => 0%Z)) s t _ _ _ _)).
  - discriminate.
  - reflexivity.
  - reflexivity.
  - vm_compute. discriminate.
Defined.

(** ** The fields that identify an agent *)

Section PatientIdentity.
Context {X : Type} (field : PatientAgent -> X) (c : list X).
Hypothesis field_needs : forall v p, field (set_medical_needs v p) = field p.
Hypothesis field_unmet : forall v p, field (set_unmet_needs v p) = field p.

Lemma identity_alter (f : PatientAgent -> PatientAgent) (i : nat)
    (ps : list PatientAgent) :
  (forall p, field (f p) = field p) ->
  map field (alter f i ps) = map field ps.
Proof.
  intros Hf. revert i. induction ps as [|p ps IH]; intros [|i]; simpl;
    rewrite ?Hf; try reflexivity.
  f_equal. apply IH.
Qed.

Lemma negotiate_keeps_identity (patient : nat) (required : Q) :
  preserves (fun e => map field (patients e) = c)
    (negotiate_resource_allocation patient required).
Proof.
  apply negotiate_preserves.
  - intros message. preserves_step.
  - intros i j s. unfold Hospital.allocate_resources. preserves_with fail.
Qed.

Lemma generate_keeps_identity (self : nat) :
  preserves (fun e => map field (patients e) = c)
    (Patient.generate_medical_needs self).
Proof.
  unfold Patient.generate_medical_needs.
  preserves_with ltac:(first
    [ apply negotiate_keeps_identity
    | apply randint_preserves; frame_setter
    | apply preserves_modify; intros e0 He0; cbn [patients with_patients];
      rewrite identity_alter by (intros; first [apply field_needs
                                               | apply field_unmet]);
      exact He0 ]).
Qed.

Lemma replenish_keeps_identity (i : nat) :
  preserves (fun e => map field (patients e) = c)
    (Hospital.process_resources i).
Proof. unfold Hospital.process_resources. preserves_with fail. Qed.

Lemma transfer_keeps_identity (s t : nat) :
  preserves (fun e => map field (patients e) = c) (Coordinator.transfer s t).
Proof. unfold Coordinator.transfer. preserves_with fail. Qed.

Lemma commit_keeps_identity (i j : nat) (s : Q) :
  preserves (fun e => map field (patients e) = c)
    (Hospital.allocate_resources i j s).
Proof. unfold Hospital.allocate_resources. preserves_with fail. Qed.

Lemma step_keeps_identity :
  preserves (fun e => map field (patients e) = c) step.
Proof.
  unfold step.
  preserves_with ltac:(first
    [ apply generate_keeps_identity
    | apply replenish_keeps_identity
    | apply rebalance_preserves, transfer_keeps_identity
    | apply metrics_preserves; frame_setter ]).
Qed.

Lemma perform_keeps_identity (op : operation) :
  preserves (fun e => map field (patients e) = c) (perform op).
Proof.
  destruct op; simpl;
    preserves_with ltac:(first
      [ apply admission_preserves; intros message; preserves_step
      | apply commit_keeps_identity
      | apply replenish_keeps_identity
      | apply transfer_keeps_identity
      | apply rebalance_preserves, transfer_keeps_identity
      | apply negotiate_keeps_identity
      | apply generate_keeps_identity
      | apply metrics_preserves; frame_setter
      | apply step_keeps_identity ]).
Qed.

Lemma perform_all_keeps_identity (ops : list operation) (e : Env) :
  map field (patients e) = c ->
  map field (patients (perform_all ops e)) = c.
Proof.
  revert e. induction ops as [|op ops IH]; intros e H; simpl.
  - exact H.
  - apply IH, perform_keeps_identity, H.
Qed.

End PatientIdentity.

(** X13.  No method changes which agents exist or who they are: after any
    sequence of calls (admission evaluation, commit, replenishment,
    transfer, rebalancing, negotiation, demand generation, metrics update,
    whole step, whether they return or raise) the hospitals have the same
    [unique_id], [specialization] and [initial_resources], in the same
    order, and the patients the same [unique_id] and [severity]. *)
Theorem agents_keep_their_identity (ops : list operation) (e : Env) :
  map (fun h => (h_unique_id h, specialization h, initial_resources h))
    (hospitals (perform_all ops e)) =
  map (fun h => (h_unique_id h, specialization h, initial_resources h))
    (hospitals e) /\
  map (fun p => (p_unique_id p, severity p)) (patients (perform_all ops e)) =
  map (fun p => (p_unique_id p, severity p)) (patients e).
Proof.
  split.
  - apply perform_all_keeps_static; reflexivity.
  - apply perform_all_keeps_identity; reflexivity.
Qed.

(** ** Repeated replenishment *)








(** ** The message traffic *)

Lemma send_keeps_protocol (message : Message) :
  protocol_ok message = true ->
  preserves (fun e => Forall (fun m => protocol_ok m = true) (coordinator_log e))
    (coordinator_send message).
Proof.
  intros Hm e He. rewrite coordinator_send_append. cbn [snd].
  rewrite coordinator_log_append. apply Forall_app. split; [exact He|].
  apply Forall_cons. split; [exact Hm | apply Forall_nil_2].
Qed.

Ltac protocol_leaf := apply send_keeps_protocol; reflexivity.

Lemma admission_keeps_protocol (self patient : nat) (required : Q) :
  preserves (fun e => Forall (fun m => protocol_ok m = true) (coordinator_log e))
    (Hospital.evaluate_patient_admission self patient required).
Proof.
  unfold Hospital.evaluate_patient_admission. preserves_with protocol_leaf.
Qed.

Lemma collect_bids_keeps_protocol (patient : nat) (required : Q)
    (refs : list nat) :
  preserves (fun e => Forall (fun m => protocol_ok m = true) (coordinator_log e))
    (collect_bids patient required refs).
Proof.
  induction refs as [|i refs IH]; simpl.
  - apply preserves_ret.
  - preserves_with ltac:(first [apply admission_keeps_protocol | exact IH]).
Qed.

Lemma commit_keeps_protocol (i j : nat) (s : Q) :
  preserves (fun e => Forall (fun m => protocol_ok m = true) (coordinator_log e))
    (Hospital.allocate_resources i j s).
Proof. unfold Hospital.allocate_resources. preserves_with protocol_leaf. Qed.

Lemma allocate_keeps_protocol (patient : nat) (bids : list (nat * Q)) :
  preserves (fun e => Forall (fun m => protocol_ok m = true) (coordinator_log e))
    (Coordinator.allocate_resources patient bids).
Proof.
  unfold Coordinator.allocate_resources, Coordinator.bid_key.
  preserves_with ltac:(first [apply commit_keeps_protocol | protocol_leaf]).
Qed.

Lemma negotiate_keeps_protocol (patient : nat) (required : Q) :
  preserves (fun e => Forall (fun m => protocol_ok m = true) (coordinator_log e))
    (negotiate_resource_allocation patient required).
Proof.
  unfold negotiate_resource_allocation.
  preserves_with ltac:(first [ apply collect_bids_keeps_protocol
                             | apply allocate_keeps_protocol ]).
Qed.

Lemma transfer_keeps_protocol (s t : nat) :
  preserves (fun e => Forall (fun m => protocol_ok m = true) (coordinator_log e))
    (Coordinator.transfer s t).
Proof. unfold Coordinator.transfer. preserves_with protocol_leaf. Qed.

Lemma replenish_keeps_protocol (i : nat) :
  preserves (fun e => Forall (fun m => protocol_ok m = true) (coordinator_log e))
    (Hospital.process_resources i).
Proof. unfold Hospital.process_resources. preserves_with fail. Qed.

Lemma generate_keeps_protocol (self : nat) :
  preserves (fun e => Forall (fun m => protocol_ok m = true) (coordinator_log e))
    (Patient.generate_medical_needs self).
Proof.
  unfold Patient.generate_medical_needs.
  preserves_with ltac:(first [ apply negotiate_keeps_protocol
                             | apply randint_preserves; frame_setter
                             | protocol_leaf ]).
Qed.

Lemma step_keeps_protocol :
  preserves (fun e => Forall (fun m => protocol_ok m = true) (coordinator_log e))
    step.
Proof.
  unfold step.
  preserves_with ltac:(first
    [ apply generate_keeps_protocol
    | apply replenish_keeps_protocol
    | apply rebalance_preserves, transfer_keeps_protocol
    | apply metrics_preserves; frame_setter ]).
Qed.

Lemma perform_keeps_protocol (op : operation) :
  preserves (fun e => Forall (fun m => protocol_ok m = true) (coordinator_log e))
    (perform op).
Proof.
  destruct op; simpl;
    preserves_with ltac:(first
      [ apply admission_keeps_protocol
      | apply commit_keeps_protocol
      | apply replenish_keeps_protocol
      | apply transfer_keeps_protocol
      | apply rebalance_preserves, transfer_keeps_protocol
      | apply negotiate_keeps_protocol
      | apply generate_keeps_protocol
      | apply metrics_preserves; frame_setter
      | apply step_keeps_protocol ]).
Qed.

(** X15.  The type of a message fixes who sends it, who receives it and
    what it carries, at every place where a message is built.  A log whose
    messages follow this pattern still does after any sequence of calls;
    then what [get_messages_for_agent] returns for a patient holds only
    ALLOCATION_RESULT and RESOURCE_ALLOCATED messages, so the notice that
    no hospital accepted, addressed to 'broadcast', is never among
    them. *)
Theorem messages_follow_protocol (ops : list operation) (e : Env) (j : nat) :
  Forall (fun m => protocol_ok m = true) (coordinator_log e) ->
  let e' := perform_all ops e in
  Forall (fun m => protocol_ok m = true) (coordinator_log e') /\
  Forall (fun m => msg_type m = ALLOCATION_RESULT \/
                   msg_type m = RESOURCE_ALLOCATED)
    (Manager.get_messages_for_agent
       (message_manager (resource_coordinator e')) (RefPatient j)).
Proof.
  intros He e'.
  assert (He' : Forall (fun m => protocol_ok m = true) (coordinator_log e')).
  { subst e'. revert e He. induction ops as [|op ops IH]; intros e He; simpl.
    - exact He.
    - apply IH, perform_keeps_protocol, He. }
  split; [exact He'|].
  unfold Manager.get_messages_for_agent. fold (coordinator_log e').
  apply List.Forall_forall. intros m Hm. apply filter_In in Hm.
  destruct Hm as [Hin Hto]. apply bool_decide_eq_true in Hto.
  apply list_elem_of_In in Hin.
  pose proof (proj1 (Forall_forall _ _) He' m Hin) as Hok.
  unfold protocol_ok in Hok. rewrite Hto in Hok.
  destruct (msg_type m); try (left; reflexivity); try (right; reflexivity);
    destruct (sender m); discriminate.
Qed.

Lemma messages_follow_protocol_witness :
  Forall (fun m => protocol_ok m = true)
    (coordinator_log
       (perform_all [OpStep]
          (env_of [Hospital.__init__ 2 "general" 100]
                  [Patient.__init__ 3 "low"] (fun _ => 0%Z)))).
Proof.
  refine (proj1 (messages_follow_protocol [OpStep]
            (env_of [Hospital.__init__ 2 "general" 100]
                    [Patient.__init__ 3 "low"] (fun _ => 0%Z)) 0 _)).
  apply Forall_nil_2.
Defined.

(** ** The phases of a step *)

Lemma for_each_index_invariant (I : nat -> Env -> Prop) (n : nat)
    (body : nat -> M unit) :
  (forall k, (k < n)%nat -> forall e,
     I k e -> fst (body k e) = Ok tt /\ I (S k) (snd (body k e))) ->
  forall e, I 0%nat e ->
    fst (for_each (seq 0 n) body e) = Ok tt /\
    I n (snd (for_each (seq 0 n) body e)).
Proof.
  induction n as [|n IH]; intros Hbody e He.
  - split; [reflexivity | exact He].
  - rewrite seq_S, for_each_snoc. simpl. unfold bind.
    destruct (IH (fun k Hk => Hbody k (Nat.lt_lt_succ_r _ _ Hk)) e He)
      as [Hok Hn].
    destruct (for_each (seq 0 n) body e) as [[[]|x] e1]; [|discriminate].
    cbn [snd] in Hn. apply Hbody; [lia | exact Hn].
Qed.

(* the demand-generation phase of a step *)
Lemma generation_phase (n m : nat) (e : Env) :
  sound n m e ->
  exists e1,
    for_each (seq 0 m) Patient.generate_medical_needs e = (Ok tt, e1) /\
    sound n m e1 /\
    rng_pos e1 = (rng_pos e + m)%nat /\
    rng_draws e1 = rng_draws e /\
    Forall demand_in_range (patients e1).
Proof.
  intros He.
  destruct (for_each_index_invariant
    (fun k e' => sound n m e' /\ rng_pos e' = (rng_pos e + k)%nat /\
                 rng_draws e' = rng_draws e /\
                 forall i p, (i < k)%nat -> patients e' !! i = Some p ->
                             demand_in_range p)
    m Patient.generate_medical_needs) with (e := e) as [Hok Hinv].
  - intros k Hk e' (Hs & Hpos & Hdraws & Hdone).
    destruct (generate_returns n m k Hk e' Hs) as [Hok Hs'].
    pose proof Hs as (_ & Hm & _ & Hcap & _).
    destruct (lookup_lt_is_Some_2 (patients e') k) as [p Hp]; [lia|].
    destruct (generate_runs e' k p Hp (sound_capacity_defined e' Hcap))
      as (e'' & unmet & Hrun & _ & Hps & _ & _ & Hpos' & Hdraws').
    rewrite Hrun in Hok, Hs' |- *. cbn [fst snd] in *.
    split; [reflexivity|]. split; [exact Hs'|].
    split; [lia|]. split; [congruence|].
    intros i q Hi Hq. rewrite Hps in Hq.
    destruct (decide (i = k)) as [->|Hne].
    + rewrite list_lookup_insert_eq in Hq by lia.
      injection Hq as <-. unfold demand_in_range. simpl.
      exact (next_demand_bounds e' (severity p)).
    + rewrite list_lookup_insert_ne in Hq by congruence.
      apply (Hdone i q); [lia | exact Hq].
  - split; [exact He|]. split; [lia|]. split; [reflexivity|].
    intros i p Hi. lia.
  - destruct (for_each (seq 0 m) Patient.generate_medical_needs e)
      as [[[]|x] e1]; [|discriminate].
    cbn [snd] in Hinv. destruct Hinv as (Hs & Hpos & Hdraws & Hdone).
    exists e1. split; [reflexivity|]. split; [exact Hs|].
    split; [exact Hpos|]. split; [exact Hdraws|].
    apply Forall_lookup. intros i p Hp.
    apply (Hdone i p); [|exact Hp].
    apply lookup_lt_Some in Hp. destruct Hs as (_ & Hm & _). lia.
Qed.

(* the phases after it leave the patients and the generator alone *)
Lemma later_phases_keep_patients (ps : list PatientAgent) (pos : nat)
    (draws : nat -> Z) :
  preserves (fun e => patients e = ps /\ rng_pos e = pos /\ rng_draws e = draws)
    (hs <- gets hospitals ;;
     for_each (seq 0 (length hs)) Hospital.process_resources ;;;
     Coordinator.coordinate_global_resources ;;;
     update_performance_metrics).
Proof.
  preserves_with ltac:(first
    [ unfold Hospital.process_resources; preserves_with fail
    | apply rebalance_preserves; intros s t; unfold Coordinator.transfer;
      preserves_with fail
    | apply metrics_preserves; frame_setter ]).
Qed.

Lemma step_after_generation (n m : nat) (e : Env) :
  sound n m e ->
  exists e1,
    sound n m e1 /\
    rng_pos e1 = (rng_pos e + m)%nat /\
    rng_draws e1 = rng_draws e /\
    Forall demand_in_range (patients e1) /\
    patients (snd (step e)) = patients e1 /\
    rng_pos (snd (step e)) = rng_pos e1 /\
    rng_draws (snd (step e)) = rng_draws e1.
Proof.
  intros He. pose proof He as (_ & Hm & _).
  destruct (generation_phase n m e He)
    as (e1 & Hrun & Hs1 & Hpos & Hdraws & Hrange).
  exists e1. split; [exact Hs1|]. split; [exact Hpos|].
  split; [exact Hdraws|]. split; [exact Hrange|].
  assert (Hstep : step e =
            (hs <- gets hospitals ;;
             for_each (seq 0 (length hs)) Hospital.process_resources ;;;
             Coordinator.coordinate_global_resources ;;;
             update_performance_metrics) e1).
  { unfold step. unfold bind at 1. cbn [gets]. rewrite Hm.
    unfold bind at 1. rewrite Hrun. reflexivity. }
  rewrite Hstep.
  apply (later_phases_keep_patients (patients e1) (rng_pos e1) (rng_draws e1)).
  split; [reflexivity|]. split; reflexivity.
Qed.

(** X16.  After a step started in a consistent state every patient's
    [medical_needs] lies in the range of its severity, both ends included,
    hence between 5 and 200. *)
Theorem step_draws_every_demand_in_range (n m : nat) (e : Env) :
  sound n m e ->
  Forall (fun p => demand_in_range p /\ (5 <= medical_needs p <= 200)%Z)
    (patients (snd (step e))).
Proof.
  intros He.
  destruct (step_after_generation n m e He)
    as (e1 & _ & _ & _ & Hrange & -> & _).
  eapply Forall_impl; [exact Hrange|].
  intros p Hp. split; [exact Hp|].
  unfold demand_in_range in Hp.
  destruct (severity_resource_ranges_cases (severity p)) as [H|[H|[H|H]]];
    rewrite H in Hp; lia.
Qed.

Lemma step_draws_every_demand_in_range_witness :
  Forall (fun p => demand_in_range p /\ (5 <= medical_needs p <= 200)%Z)
    (patients (snd (step (env_of [Hospital.__init__ 2 "general" 100]
                                 [Patient.__init__ 3 "low"]
                                 (fun _ => 0%Z))))).
Proof.
  apply (step_draws_every_demand_in_range 1 1).
  split; [reflexivity|]. split; [reflexivity|].
  split; [|split; [split|]].
  - apply List.Forall_cons; [|apply List.Forall_nil].
    split; intros H; vm_compute in H; discriminate.
  - apply List.Forall_cons; [|apply List.Forall_nil].
    split; intros H; vm_compute in H; discriminate.
  - apply List.Forall_cons; [|apply List.Forall_nil].
    intros H; vm_compute in H; discriminate.
  - apply List.Forall_cons; [|apply List.Forall_nil].
    left. reflexivity.
Defined.

Lemma steps_consume_draws (n m k : nat) (e : Env) :
  sound n m e ->
  let out := for_each (seq 0 k) (fun _ => step) e in
  fst out = Ok tt /\ sound n m (snd out) /\
  rng_pos (snd out) = (rng_pos e + k * m)%nat /\
  rng_draws (snd out) = rng_draws e.
Proof.
  intros He.
  destruct (for_each_index_invariant
    (fun k e' => sound n m e' /\ rng_pos e' = (rng_pos e + k * m)%nat /\
                 rng_draws e' = rng_draws e)
    k (fun _ => step)) with (e := e) as [Hok Hinv].
  - intros i _ e' (Hs & Hpos & Hdraws).
    destruct (step_returns n m e' Hs) as [Hok Hs'].
    destruct (step_after_generation n m e' Hs)
      as (e1 & _ & Hpos1 & Hdraws1 & _ & _ & Hpos2 & Hdraws2).
    split; [exact Hok|]. split; [exact Hs'|].
    split; [lia | congruence].
  - split; [exact He|]. split; [lia | reflexivity].
  - exact (conj Hok Hinv).
Qed.

(** X17.  The generator is advanced once per hospital and once per patient
    by the constructor and once per patient by every step, whatever the
    negotiations decide: after construction with a non-negative
    [initial_resources] and [k] steps exactly
    [num_hospitals + num_patients + k * num_patients] draws are used. *)
Theorem run_consumes_fixed_number_of_draws (num_hospitals num_patients : Z)
    (initial : Q) (draws : nat -> Z) (k : nat) :
  (0 <= initial)%Q ->
  rng_pos (snd ((__init__ num_hospitals num_patients initial ;;;
                 for_each (seq 0 k) (fun _ => step)) (blank draws))) =
    (Z.to_nat num_hospitals + Z.to_nat num_patients +
     k * Z.to_nat num_patients)%nat.
Proof.
  intros Hinit. unfold bind.
  pose proof (init_sound num_hospitals num_patients initial draws Hinit)
    as Hsound.
  destruct (init_runs num_hospitals num_patients initial draws)
    as (e' & Hrun & _ & _ & _ & _ & _ & _ & _ & Hpos & _).
  rewrite Hrun in Hsound |- *. cbn [snd] in Hsound.
  destruct (steps_consume_draws _ _ k e' Hsound) as (_ & _ & Hpos' & _).
  rewrite Hpos', Hpos. reflexivity.
Qed.

Lemma run_consumes_fixed_number_of_draws_witness :
  rng_pos (snd ((__init__ 2 3 1000 ;;;
                 for_each (seq 0 4) (fun _ => step))
                  (blank (fun n => Z.of_nat n)))) = 17%nat.
Proof.
  refine (run_consumes_fixed_number_of_draws 2 3 1000 (fun n => Z.of_nat n) 4 _).
  discriminate.
Defined.

(** ** The message manager on its own *)

(** X18.  [get_messages_for_agent] after [send_message]: the recipient of
    the message finds it after the messages it had, every other agent
    finds what it found before, and a new manager holds nothing for
    anybody. *)
Theorem inbox_after_send (self : MessageManager) (message : Message)
    (agent : agent_ref) :
  Manager.get_messages_for_agent (Manager.send_message self message)
    (recipient message) =
    Manager.get_messages_for_agent self (recipient message) ++ [message] /\
  (agent <> recipient message ->
   Manager.get_messages_for_agent (Manager.send_message self message) agent =
   Manager.get_messages_for_agent self agent) /\
  Manager.get_messages_for_agent Manager.__init__ agent = [].
Proof.
  unfold Manager.get_messages_for_agent, Manager.send_message.
  cbn [message_log]. rewrite !List.filter_app. cbn [List.filter].
  split; [|split].
  - rewrite bool_decide_eq_true_2 by reflexivity. reflexivity.
  - intros Hne. rewrite bool_decide_eq_false_2 by congruence.
    apply app_nil_r.
  - reflexivity.
Qed.

(** ** The visualization server *)

Lemma run_keeps_global_log_empty (num_hospitals num_patients : Z)
    (initial : Q) (k : nat) :
  preserves (fun e => global_log e = [])
    (__init__ num_hospitals num_patients initial ;;;
     for_each (seq 0 k) (fun _ => step)).
Proof.
  unfold __init__, setup_resource_coordinator,
    setup_hospitals, setup_patients, get_hospital_specialization,
    Random.choice.
  preserves_with ltac:(
    apply (step_preserves (fun e => global_log e = []));
    [ intros message; preserves_step
    | frame_setter | frame_setter | frame_setter | frame_setter
    | intros i j s; unfold Hospital.allocate_resources; preserves_with fail
    | intros i; unfold Hospital.process_resources; preserves_with fail
    | intros s t; unfold Coordinator.transfer; preserves_with fail ]).
Qed.

(** X19.  The message panel of the server shows the last ten entries of
    the environment's [global_message_manager], to which no agent ever
    sends: for a model built by the constructor and stepped any number of
    times the panel renders the empty string, however a line is
    formatted. *)
Theorem message_panel_renders_nothing (format : Message -> string)
    (num_hospitals num_patients : Z) (initial : Q) (draws : nat -> Z)
    (k : nat) :
  Server.render format
    (snd ((__init__ num_hospitals num_patients initial ;;;
           for_each (seq 0 k) (fun _ => step)) (blank draws))) =
  EmptyString.
Proof.
  unfold Server.render, Server.portrayal.
  pose proof (run_keeps_global_log_empty num_hospitals num_patients initial k
                (blank draws) eq_refl) as Hlog.
  unfold global_log in Hlog. rewrite Hlog. reflexivity.
Qed.

(** X20.  The circle of a hospital with a non-negative balance has a
    radius between 0.5 and 1.0, and the radius is 1.0 as soon as the
    balance reaches 500. *)
Theorem hospital_radius_saturates (h : HospitalAgent) :
  (0 <= current_resources h)%Q ->
  let radius := Server.r (Server.agent_portrayal (Server.AHospital h)) in
  (0.5 <= radius <= 1)%Q /\
  ((500 <= current_resources h)%Q -> (radius == 1)%Q) /\
  ((current_resources h < 500)%Q ->
   (radius == 0.5 + current_resources h / 1000)%Q).
Proof.
  intros Hpos. cbn [Server.r Server.agent_portrayal].
  assert (Hdiv : (current_resources h / 1000 ==
                  current_resources h * (1 # 1000))%Q) by (field).
  destruct (py_min_cases (0.5 + current_resources h / 1000) 1.0)
    as [[Hlt ->]|[Hle ->]]; rewrite ?Hdiv in *;
    (split; [split; lra|]); split; intros H; lra.
Qed.

Lemma hospital_radius_saturates_witness :
  (Server.r (Server.agent_portrayal
               (Server.AHospital (Hospital.__init__ 2 "general" 1000))) == 1)%Q.
Proof.
  refine (proj1 (proj2 (hospital_radius_saturates
            (Hospital.__init__ 2 "general" 1000) _)) _).
  - vm_compute. discriminate.
  - vm_compute. discriminate.
Defined.

(** X21.  For a patient whose demand is between 0 and 200, as every drawn
    demand is, the radius of the circle is [0.3 + medical_needs / 500]:
    the limit 0.7 of the portrayal is met at 200 and never cuts the
    value. *)
Theorem patient_radius_never_clipped (p : PatientAgent) :
  (0 <= medical_needs p <= 200)%Z ->
  let radius := Server.r (Server.agent_portrayal (Server.APatient p)) in
  (radius == 0.3 + inject_Z (medical_needs p) / 500)%Q /\
  (0.3 <= radius <= 0.7)%Q.
Proof.
  intros [Hlo Hhi]. cbn [Server.r Server.agent_portrayal].
  assert (Hdiv : (inject_Z (medical_needs p) / 500 ==
                  inject_Z (medical_needs p) * (1 # 500))%Q) by (field).
  assert (H0 : (0 <= inject_Z (medical_needs p))%Q).
  { unfold Qle. simpl. lia. }
  assert (H200 : (inject_Z (medical_needs p) <= 200)%Q).
  { unfold Qle. simpl. lia. }
  destruct (py_min_cases (0.3 + inject_Z (medical_needs p) / 500) 0.7)
    as [[Hlt ->]|[Hle ->]]; rewrite ?Hdiv in *; split; try split; lra.
Qed.

Lemma patient_radius_never_clipped_witness :
  let p := {| p_unique_id := 3; severity := "high";
              medical_needs := 200; unmet_needs := 0 |} in
  (0.3 <= Server.r (Server.agent_portrayal (Server.APatient p)) <= 0.7)%Q.
Proof.
  intros p.
  refine (proj2 (patient_radius_never_clipped p _)).
  split; discriminate.
Defined.
